(** * ColdFusion L1 driver: address codec, discovery and connection commands

    A shallow embedding of [coldfusion/driver_commands.py] (class
    [DriverCommands]) and the properties of it that the design document
    states.

    Conventions of the embedding.
    - Python [int] is [Z]; [None]-able values are [option]; [str] is
      [string] (the device speaks ASCII).
    - A Python exception is a [Raise] result.  The logger is a write-only
      side channel: the entries an [except] handler writes before it
      re-raises travel with the exception ([Raise e diag]); purely
      informational entries are not recorded.
    - The HTTP session is an external collaborator.  Discovery reads a
      device snapshot ([Device]); the mutating commands talk to a
      response oracle and return the list of requests they issued.
    - The port objects of a linecard are read as records that carry
      their "Type" and "Breakout" fields ([PortJson]); an answer that
      lacks one of them is outside the model.
    - Memory is assumed to suffice, except where the length of a string
      is the caller's to choose: string repetition ([str_mul]) takes the
      interpreter's limits as parameters. *)

From Stdlib Require Import ZArith NArith List String Ascii Bool Lia.
From Stdlib Require Import Decimal DecimalString DecimalN DecimalFacts.
From stdpp Require Import base option list gmap strings.

Set Warnings "-register-all".
Local Open Scope string_scope.
Local Open Scope list_scope.
Local Open Scope Z_scope.

(** ** Exceptions and results *)

(** A decoded JSON document, as [r.json()] returns it. *)
Inductive json : Type :=
  | JNull
  | JBool (b : bool)
  | JNum (z : Z)
  | JStr (s : string)
  | JArr (l : list json)
  | JObj (fields : list (string * json)).

Inductive exn : Type :=
  | KeyError (k : string)
  | IndexError
  | ValueError
  | TypeError
  | AttributeError
  | HTTPError (status : Z)
  | ColdFusionException (description : json)
  | OverflowError
  | MemoryError.

(** What the [except] handler of the mapping pass writes to the logger. *)
Inductive log_event : Type :=
  | LogException (e : exn)
    (* logger.error("$$$ Exception populating mapping - " + traceback) *)
  | LogBladeKeys (lc : Z) (keys : gset string).
    (* logger.info("$$$ _blades[{0}] keys={1}", lc, sorted(keys)) *)

Inductive result (A : Type) : Type :=
  | Ok (a : A)
  | Raise (e : exn) (diag : list log_event).
Arguments Ok {A} a.
Arguments Raise {A} e diag.

Definition raise {A} (e : exn) : result A := Raise e [].

Definition bind {A B} (m : result A) (k : A -> result B) : result B :=
  match m with
  | Ok a => k a
  | Raise e d => Raise e d
  end.

Declare Scope py_scope.
Delimit Scope py_scope with py.
Notation "'let*' x := m 'in' k" := (bind m (fun x => k))
  (at level 10, x pattern, m at level 100, k at level 200) : py_scope.
Local Open Scope py_scope.

(** ** Python string primitives *)

(** [s.split(sep)] for a one-character separator. *)
Fixpoint split_on (sep : ascii) (s : string) : list string :=
  match s with
  | EmptyString => [EmptyString]
  | String c s' =>
      if Ascii.eqb c sep then EmptyString :: split_on sep s'
      else match split_on sep s' with
           | h :: t => String c h :: t
           | [] => [String c EmptyString]
           end
  end.

(** [s.replace(a, b)] for one-character [a] and [b]. *)
Fixpoint replace_char (a b : ascii) (s : string) : string :=
  match s with
  | EmptyString => EmptyString
  | String c s' => String (if Ascii.eqb c a then b else c) (replace_char a b s')
  end.

(** [s.find(c)]: index of the first occurrence, [-1] when there is none. *)
Fixpoint find_char (c : ascii) (s : string) : Z :=
  match s with
  | EmptyString => -1
  | String x s' =>
      if Ascii.eqb x c then 0
      else let r := find_char c s' in if r <? 0 then -1 else r + 1
  end.

(** [sep * n]: a string repeated; a non-positive count gives [""]. *)
Definition str_repeat (s : string) (n : Z) : string :=
  Nat.iter (Z.to_nat n) (String.append s) EmptyString.

Definition is_digit (c : ascii) : bool :=
  (48 <=? nat_of_ascii c)%nat && (nat_of_ascii c <=? 57)%nat.

(** The ASCII white space that [int()] and [str.strip()] skip. *)
Definition is_space (c : ascii) : bool :=
  let n := nat_of_ascii c in
  (n =? 32)%nat || ((9 <=? n)%nat && (n <=? 13)%nat).

Fixpoint lstrip (s : string) : string :=
  match s with
  | EmptyString => EmptyString
  | String c s' => if is_space c then lstrip s' else s
  end.

Fixpoint rstrip (s : string) : string :=
  match s with
  | EmptyString => EmptyString
  | String c s' =>
      match rstrip s' with
      | EmptyString => if is_space c then EmptyString else String c EmptyString
      | r => String c r
      end
  end.

Definition strip (s : string) : string := rstrip (lstrip s).

(** Value of a non-empty run of decimal digits. *)
Definition digits_value (s : string) : option Z :=
  match NilZero.uint_of_string s with
  | Some u => Some (Z.of_N (N.of_uint u))
  | None => None
  end.

(** [int(s)]: optional surrounding white space, an optional sign, then
    decimal digits; anything else is a [ValueError]. *)
Definition py_int (s : string) : result Z :=
  let t := strip s in
  let '(neg, d) :=
    match t with
    | String c d =>
        if Ascii.eqb c "-" then (true, d)
        else if Ascii.eqb c "+" then (false, d)
        else (false, t)
    | EmptyString => (false, t)
    end in
  match digits_value d with
  | Some v => Ok (if neg then - v else v)
  | None => raise ValueError
  end.

(** [str(n)] and ["{0}".format(n)] for an [int]. *)
Definition str_N (n : N) : string := NilZero.string_of_uint (N.to_uint n).

Definition py_str (z : Z) : string :=
  if z <? 0 then String "-" (str_N (Z.to_N (- z))) else str_N (Z.to_N z).

(** ["{0:02}".format(n)]: sign-aware zero padding to width 2. *)
Definition fmt02 (z : Z) : string :=
  if z <? 0 then py_str z
  else let s := py_str z in
       if (String.length s <? 2)%nat then String "0" s else s.

(** ["{0:01}".format(n)]: width 1 never pads. *)
Definition fmt01 (z : Z) : string := py_str z.

(** [l[i]] with Python's negative indices. *)
Definition py_getitem {A} (l : list A) (i : Z) : result A :=
  let n := Z.of_nat (length l) in
  let j := if i <? 0 then i + n else i in
  if (j <? 0) || (n <=? j) then raise IndexError
  else match l !! Z.to_nat j with
       | Some x => Ok x
       | None => raise IndexError
       end.

(** ** Address codec *)

Definition _qport (port : Z) (lane : option Z) : string :=
  match lane with
  | Some l =>
      if negb (l =? 0) && (1 <=? l)
      then fmt02 port +:+ "_" +:+ py_str l
      else fmt02 port
  | None => fmt02 port
  end.

Definition _qport_abs (lc port : Z) (lane : option Z) : string :=
  match lane with
  | Some l =>
      if negb (l =? 0)
      then py_str lc +:+ "." +:+ fmt02 port +:+ "_" +:+ py_str l
      else py_str lc +:+ "." +:+ fmt02 port
  | None => py_str lc +:+ "." +:+ fmt02 port
  end.

Definition _portid (port : string) : result string :=
  let parts := split_on "/" port in
  let* p1 := py_getitem parts 1 in
  let* p2 := py_getitem parts 2 in
  Ok (p1 +:+ "." +:+ replace_char "_" ":" p2).

Definition _parse_lport (str : string) : result (Z * Z * Z) :=
  match split_on "." str with
  | [lc; port_lane] =>
      let parts := split_on ":" port_lane in
      let* (port, lane) :=
        match parts with
        | [p; l] => Ok (p, l)
        | p :: _ => Ok (p, "-1")
        | [] => raise IndexError
        end in
      let* a := py_int lc in
      let* b := py_int port in
      let* c := py_int lane in
      Ok (a, b, c)
  | _ => raise ValueError
  end.

Definition str_slice_from (s : string) (i : Z) : string :=
  String.substring (Z.to_nat i) (String.length s - Z.to_nat i) s.

Definition str_slice_to (s : string) (i : Z) : string :=
  String.substring 0 (Z.to_nat i) s.

Definition _linecard_port_lane (port : string)
  : result (string * string * option Z) :=
  let parts := split_on "/" port in
  let* linecard := py_getitem parts 1 in
  let* p2 := py_getitem parts 2 in
  let idx := find_char "_" p2 in
  if 0 <=? idx then
    let* lane := py_int (str_slice_from p2 (idx + 1)) in
    Ok (linecard, str_slice_to p2 idx, Some lane)
  else Ok (linecard, p2, None).

(** ** Monadic list traversals (the [for] loops) *)

Fixpoint mapM {A B} (f : A -> result B) (l : list A) : result (list B) :=
  match l with
  | [] => Ok []
  | a :: l' =>
      let* b := f a in
      let* bs := mapM f l' in
      Ok (b :: bs)
  end.

(** A loop whose body emits a batch of effects; the batches are
    concatenated in iteration order and the first exception aborts. *)
Fixpoint concat_mapM {A B} (f : A -> result (list B)) (l : list A)
  : result (list B) :=
  match l with
  | [] => Ok []
  | a :: l' =>
      let* x := f a in
      let* xs := concat_mapM f l' in
      Ok (x ++ xs)
  end.

(** [for i in range(len(l))] paired with [l[i]]. *)
Definition enumerate {A} (l : list A) : list (Z * A) :=
  zip (seqZ 0 (Z.of_nat (length l))) l.

(** An [except Exception:] handler that logs and re-raises. *)
Definition log_and_reraise {A} (handler : exn -> list log_event)
    (m : result A) : result A :=
  match m with
  | Ok a => Ok a
  | Raise e d => Raise e (d ++ handler e)
  end.

(** ** Device snapshot read by discovery *)

Record PortJson : Type := {
  pj_Type : string;
  pj_Breakout : bool
}.

Record ChassisJson : Type := {
  cj_SessionId : string;
  cj_Serial : string;
  cj_Linecards : list (option json)
}.

(** [Egress] of one port in a show-flow answer: one array per destination,
    its slots strings or null. *)
Abbreviation egress_t := (list (list (option string))).

Record Device : Type := {
  (* GET /chassis/ *)
  dev_chassis : result ChassisJson;
  (* GET /chassis/linecards/{lc}/ports, with the 0-based index the driver
     puts in the path *)
  dev_ports : Z -> result (list PortJson);
  (* POST /chassis/do/show-flow with body {Ports: ...}; the answer is
     flows['Ports'][i]['Egress'] for each i *)
  dev_show_flow : list string -> result (list egress_t)
}.

(** ** Resource tree returned by discovery *)

Record Port : Type := {
  port_resource_id : string;
  port_model_name : string;
  port_serial_number : string;
  port_parent : string   (* resource id of the owning blade *)
}.

Record Blade : Type := {
  blade_resource_id : string;
  blade_model_name : string;
  blade_serial_number : string;
  blade_ports : list Port
}.

Record Chassis : Type := {
  chassis_resource_id : string;
  chassis_address : string;
  chassis_model_name : string;
  chassis_serial_number : string;
  chassis_blades : list Blade
}.

(** One call [mapped_to.add_mapping(port_obj)]. *)
Record Mapping : Type := {
  mapped_to : Port;
  mapped_from : Port
}.

Record ResourceDescription : Type := {
  rd_chassis : Chassis;
  rd_mappings : list Mapping
}.

(** The inner dictionaries of [_blades] are keyed by port id; the outer
    one is kept as an association list in insertion order, which for the
    small integer keys used here is also the order [_blades.items()]
    yields. *)
Abbreviation blade_dict := (gmap string Port).
Abbreviation blades_t := (list (Z * gmap string Port)).

Definition dict_of_ports (ports : list Port) : blade_dict :=
  foldl (fun d p => <[port_resource_id p := p]> d) ∅ ports.

Fixpoint blades_get (_blades : blades_t) (lc : Z) : option blade_dict :=
  match _blades with
  | [] => None
  | (k, d) :: rest => if k =? lc then Some d else blades_get rest lc
  end.


Definition dict_getitem (d : blade_dict) (k : string) : result Port :=
  match d !! k with
  | Some p => Ok p
  | None => raise (KeyError k)
  end.

(** ** Discovery, first pass: blades and ports *)

Definition is_breakout (pj : PortJson) : bool :=
  pj_Breakout pj && String.eqb (pj_Type pj) "OPort_CF1".

Definition lane_port (lc port lane : Z) : Port :=
  {| port_resource_id := _qport (port + 1) (Some (lane + 1));
     port_model_name := "Generic L1 Port";
     port_serial_number :=
       fmt02 (lc + 1) +:+ "." +:+ fmt01 (port + 1) +:+ "." +:+ py_str (lane + 1);
     port_parent := py_str (lc + 1) |}.

Definition plain_port (lc port : Z) : Port :=
  {| port_resource_id := _qport (port + 1) None;
     port_model_name := "Generic L1 Port";
     port_serial_number :=
       fmt02 (lc + 1) +:+ "." +:+ fmt01 (port + 1) +:+ ".1";
     port_parent := py_str (lc + 1) |}.

(** Body of the [for port in range(0, len(ports_json))] loop. *)
Definition make_ports (lc : Z) (entry : Z * PortJson) : list Port :=
  let '(port, pj) := entry in
  if is_breakout pj
  then map (lane_port lc port) (seqZ 0 4)
  else [plain_port lc port].

Definition build_blade (dev : Device) (lc : Z)
  : result (Blade * (Z * blade_dict)) :=
  let* ports_json := dev_ports dev lc in
  let ports := concat (map (make_ports lc) (enumerate ports_json)) in
  Ok ({| blade_resource_id := py_str (lc + 1);
         blade_model_name := "Generic L1 Module";
         blade_serial_number := "L";
         blade_ports := ports |},
      (lc + 1, dict_of_ports ports)).

(** Body of the [for lc in range(len(linecards_json))] loop, from slot
    index [lc] on. *)
Fixpoint build_blades (dev : Device) (lc : Z) (slots : list (option json))
  : result (list (Blade * (Z * blade_dict))) :=
  match slots with
  | [] => Ok []
  | None :: rest => build_blades dev (lc + 1) rest
  | Some _ :: rest =>
      let* b := build_blade dev lc in
      let* bs := build_blades dev (lc + 1) rest in
      Ok (b :: bs)
  end.

(** ** Discovery, second pass: egress mappings *)

(** One egress entry seen from lane [lane] (0-based) of a breakout port. *)
Definition link_breakout_entry (_blades : blades_t) (port_obj : Port)
    (lane : Z) (egress_port : list (option string)) : result (list Mapping) :=
  let index := Z.min lane (Z.of_nat (length egress_port) - 1) in
  let* slot := py_getitem egress_port index in
  match slot with
  | Some tok =>
      if (0 <? String.length tok)%nat then
        let* (eport_lc, eport_port, eport_lane0) := _parse_lport tok in
        let eport_lane :=
          if (length egress_port =? 1)%nat then lane + 1 else eport_lane0 in
        match blades_get _blades eport_lc with
        | Some d =>
            if eport_lane =? lane + 1 then
              let* m := dict_getitem d (_qport eport_port (Some eport_lane)) in
              Ok [{| mapped_to := m; mapped_from := port_obj |}]
            else Ok []
        | None => Ok []
        end
      else Ok []
  | None => Ok []
  end.

Definition link_breakout_lane (_blades : blades_t) (blade : blade_dict)
    (port : Z) (egress : egress_t) (lane : Z) : result (list Mapping) :=
  let* port_obj := dict_getitem blade (_qport (port + 1) (Some (lane + 1))) in
  concat_mapM (link_breakout_entry _blades port_obj lane) egress.

(** One egress entry of a non-breakout port. *)
Definition link_plain_entry (_blades : blades_t) (port_obj : Port)
    (egress_port : list (option string)) : result (list Mapping) :=
  let* slot := py_getitem egress_port 0 in
  let* eport :=
    match slot with
    | Some tok => _parse_lport tok
    | None => raise AttributeError
    end in
  let '(eport_lc, eport_port, eport_lane) := eport in
  match blades_get _blades eport_lc with
  | Some d =>
      log_and_reraise
        (fun e => [LogException e; LogBladeKeys eport_lc (dom d)])
        (let* m := dict_getitem d (_qport eport_port (Some eport_lane)) in
         Ok [{| mapped_to := m; mapped_from := port_obj |}])
  | None => Ok []
  end.

(** Body of the [for port in range(0, num_ports)] loop of the second pass. *)
Definition link_port (_blades : blades_t) (blade : blade_dict)
    (flows : list egress_t) (entry : Z * PortJson) : result (list Mapping) :=
  let '(port, pj) := entry in
  let* egress := py_getitem flows port in
  if is_breakout pj then
    concat_mapM (link_breakout_lane _blades blade port egress) (seqZ 0 4)
  else
    let* port_obj := dict_getitem blade (_qport (port + 1) None) in
    concat_mapM (link_plain_entry _blades port_obj) egress.

Definition link_blade (dev : Device) (_blades : blades_t)
    (item : Z * blade_dict) : result (list Mapping) :=
  let '(lc, blade) := item in
  let* ports_json := dev_ports dev (lc - 1) in
  let num_ports := Z.of_nat (length ports_json) in
  let ports :=
    map (fun port => py_str lc +:+ "." +:+ py_str port) (seqZ 1 num_ports) in
  let* flows := dev_show_flow dev ports in
  concat_mapM (link_port _blades blade flows) (enumerate ports_json).

Definition get_resource_description (dev : Device) (address : string)
  : result ResourceDescription :=
  let* chassis_json := dev_chassis dev in
  let* built := build_blades dev 0 (cj_Linecards chassis_json) in
  let _blades := map snd built in
  let* mappings := concat_mapM (link_blade dev _blades) _blades in
  Ok {| rd_chassis :=
          {| chassis_resource_id := address;
             chassis_address := address;
             chassis_model_name := "Coldfusion Chassis";
             chassis_serial_number := cj_Serial chassis_json;
             chassis_blades := map fst built |};
        rd_mappings := mappings |}.

(** ** HTTP session and the mutating commands *)

Record Pair : Type := {
  pair_A : option string;
  pair_B : string
}.

(** The [json=] payloads the driver sends. *)
Inductive body : Type :=
  | MapBody (Direction : string) (Pairs : list Pair)
  | SpeedBody (Speed : string)
  | SessionBody (SessionId : string).

Inductive http_method : Type := PUT | POST.

Record Request : Type := {
  req_method : http_method;
  req_url : string;
  req_json : body
}.

Record Response : Type := {
  status_code : Z;
  (* the decoded body; [None] when the body is not JSON, in which case
     [r.json()] raises ValueError *)
  resp_json : option json
}.

(** A command's outcome together with the requests it issued, in order. *)
Abbreviation io A := (result A * list Request)%type.

Definition response_json (r : Response) : result json :=
  match resp_json r with
  | Some j => Ok j
  | None => raise ValueError
  end.

(** [d[k]] on a decoded document: the last binding of a repeated key
    wins; subscripting anything but an object by a string is a
    TypeError. *)
Fixpoint fields_get (fields : list (string * json)) (k : string)
  : option json :=
  match fields with
  | [] => None
  | (k', v) :: rest =>
      match fields_get rest k with
      | Some w => Some w
      | None => if String.eqb k' k then Some v else None
      end
  end.

Definition json_getitem (j : json) (k : string) : result json :=
  match j with
  | JObj fields =>
      match fields_get fields k with
      | Some v => Ok v
      | None => raise (KeyError k)
      end
  | _ => raise TypeError
  end.

(** [requests.Response.raise_for_status]: HTTPError for a 4xx or 5xx
    status, otherwise it returns [None]. *)
Definition raise_for_status (r : Response) : result unit :=
  if (400 <=? status_code r) && (status_code r <? 600)
  then raise (HTTPError (status_code r))
  else Ok tt.

(** [raise r.raise_for_status()]: when the call returns, its [None] is
    what gets raised, which is a TypeError. *)
Definition raise_raise_for_status {A} (r : Response) : result A :=
  let* _ := raise_for_status r in
  raise TypeError.

Definition _handle_error {A} (r : Response) : result A :=
  match (let* j := response_json r in json_getitem j "Error") with
  | Ok error => raise (ColdFusionException error)
  | Raise _ _ => raise_raise_for_status r
  end.

(** Python values of the padding expression in [set_attribute_value]. *)
Inductive pyval : Type :=
  | PStr (s : string)
  | PInt (z : Z).

Section Interpreter.

(** The limits of the interpreter that runs the driver: [sys.maxsize],
    the largest index-sized integer, and whether a new string of a given
    length can be allocated. *)
Variable maxsize : Z.
Variable can_allocate : Z -> bool.

(** [s * n] on a string (CPython's string_repeat).  The count is first
    converted to an index-sized integer, which raises OverflowError out
    of range; a negative count is read as 0; a result longer than
    [sys.maxsize] raises OverflowError; a result as long as [s] is [s]
    itself; any other result is a new string, and MemoryError is raised
    when it cannot be allocated. *)
Definition str_mul (s : string) (n : Z) : result pyval :=
  if (n <? - maxsize - 1) || (maxsize <? n) then raise OverflowError
  else
    let count := Z.max n 0 in
    let size := Z.of_nat (String.length s) * count in
    if maxsize <? size then raise OverflowError
    else if (size =? Z.of_nat (String.length s)) || can_allocate size
         then Ok (PStr (str_repeat s n))
         else raise MemoryError.

Definition py_mul (a b : pyval) : result pyval :=
  match a, b with
  | PInt x, PInt y => Ok (PInt (x * y))
  | PStr s, PInt n | PInt n, PStr s => str_mul s n
  | PStr _, PStr _ => raise TypeError
  end.

Definition py_sub (a b : pyval) : result pyval :=
  match a, b with
  | PInt x, PInt y => Ok (PInt (x - y))
  | _, _ => raise TypeError
  end.

Definition py_add (a b : pyval) : result pyval :=
  match a, b with
  | PInt x, PInt y => Ok (PInt (x + y))
  | PStr s, PStr t => Ok (PStr (s +:+ t))
  | _, _ => raise TypeError
  end.

(** [val = "," * lane-1 + attribute_value + "," * (4-lane)], which
    Python reads as [((("," * lane) - 1) + attribute_value) + ("," * (4-lane))]. *)
Definition padded_value (lane : Z) (attribute_value : string)
  : result pyval :=
  let* t1 := py_mul (PStr ",") (PInt lane) in
  let* t2 := py_sub t1 (PInt 1) in
  let* t3 := py_add t2 (PStr attribute_value) in
  let* t4 := py_mul (PStr ",") (PInt (4 - lane)) in
  py_add t3 t4.

End Interpreter.

Section Session.

(** [self._baseurl] and the answers of [self._session]. *)
Variable _baseurl : string.
Variable send : Request -> Response.

(** The interpreter's limits, see [str_mul]. *)
Variable maxsize : Z.
Variable can_allocate : Z -> bool.

Definition chassis_put (api : string) (b : body) : io json :=
  let req := {| req_method := PUT;
                req_url := _baseurl +:+ "/chassis/" +:+ api;
                req_json := b |} in
  let r := send req in
  (if status_code r =? 200 then response_json r
   else if status_code r =? 204 then Ok (JObj [])
   else _handle_error r,
   [req]).

Definition chassis_post (api : string) (b : body) : io json :=
  let req := {| req_method := POST;
                req_url := _baseurl +:+ "/chassis/do/" +:+ api;
                req_json := b |} in
  let r := send req in
  (if status_code r =? 200 then response_json r
   else if status_code r =? 204 then Ok (JObj [])
   else _handle_error r,
   [req]).

(** A command that builds its payload without I/O and then makes one
    call whose answer it drops (the Python method returns [None]). *)
Definition then_call (payload : result (string * body))
    (call : string -> body -> io json) : io unit :=
  match payload with
  | Ok (api, b) =>
      let '(r, trace) := call api b in
      (let* _ := r in Ok tt, trace)
  | Raise e d => (Raise e d, [])
  end.

Definition map_bidi (src_port dst_port : string) : io unit :=
  then_call
    (let* src := _portid src_port in
     let* dst := _portid dst_port in
     Ok ("map", MapBody "TwoWay" [{| pair_A := Some src; pair_B := dst |}]))
    chassis_post.

Definition map_uni (src_port : string) (dst_ports : list string) : io unit :=
  then_call
    (let* src_port_cf := _portid src_port in
     let* port_pairs :=
       mapM (fun dst_port =>
               let* dst_port_cf := _portid dst_port in
               Ok {| pair_A := Some src_port_cf; pair_B := dst_port_cf |})
            dst_ports in
     Ok ("map", MapBody "OneWay" port_pairs))
    chassis_post.

Definition map_clear (ports : list string) : io unit :=
  then_call
    (let* port_pairs :=
       mapM (fun dst_port =>
               let* dst_port_cf := _portid dst_port in
               Ok {| pair_A := None; pair_B := dst_port_cf |})
            ports in
     Ok ("unmap", MapBody "Undefined" port_pairs))
    chassis_post.

Definition map_clear_to (src_port : string) (dst_ports : list string)
  : io unit :=
  then_call
    (let* src_port_cf := _portid src_port in
     let* port_pairs :=
       mapM (fun dst_port =>
               let* dst_port_cf := _portid dst_port in
               Ok {| pair_A := Some src_port_cf; pair_B := dst_port_cf |})
            dst_ports in
     Ok ("unmap", MapBody "OneWay" port_pairs))
    chassis_post.

Definition map_tap (src_port : string) (dst_ports : list string) : io unit :=
  map_uni src_port dst_ports.

Definition set_attribute_value
    (cs_address attribute_name attribute_value : string) : io unit :=
  then_call
    (let* (linecard, port, lane) := _linecard_port_lane cs_address in
     let* val :=
       match lane with
       | Some l =>
           if negb (l =? 0)
           then padded_value maxsize can_allocate l attribute_value
           else Ok (PStr attribute_value)
       | None => Ok (PStr attribute_value)
       end in
     Ok ("linecards/" +:+ linecard +:+ "/ports/" +:+ port,
         SpeedBody attribute_value))
    chassis_put.

End Session.

(** ** Predicates used in the statements *)

(** An answer without a structured error: the body is not JSON, or it is
    not an object, or the object has no "Error" field. *)
Definition no_error_field (r : Response) : Prop :=
  match resp_json r with
  | Some (JObj fields) => fields_get fields "Error" = None
  | _ => True
  end.

Fixpoint str_all (P : ascii -> bool) (s : string) : bool :=
  match s with
  | EmptyString => true
  | String c s' => P c && str_all P s'
  end.

Fixpoint count_char (c : ascii) (s : string) : nat :=
  match s with
  | EmptyString => O
  | String x s' => if Ascii.eqb x c then S (count_char c s') else count_char c s'
  end.

Definition is_digits (s : string) : bool :=
  str_all is_digit s && negb (String.eqb s "").

(** The characters a formatted port number can hold: digits and the sign. *)
Definition is_numeric (c : ascii) : bool := is_digit c || Ascii.eqb c "-".

(** ** Concrete device snapshots used in the examples *)

Definition port_plain : PortJson :=
  {| pj_Type := "OPort_CF1"; pj_Breakout := false |}.

Definition port_breakout : PortJson :=
  {| pj_Type := "OPort_CF1"; pj_Breakout := true |}.

Definition chassis_of_slots (slots : list (option json)) : ChassisJson :=
  {| cj_SessionId := "0"; cj_Serial := "CF-0001"; cj_Linecards := slots |}.

(** Slot 1 empty.  Linecard 2 has one breakout port whose egress is
    [["3.5:1"]]; linecard 3 has five ordinary ports and no egress. *)
Definition dev_breakout_to_plain : Device :=
  {| dev_chassis :=
       Ok (chassis_of_slots [None; Some (JObj []); Some (JObj [])]);
     dev_ports := fun lc =>
       if lc =? 1 then Ok [port_breakout]
       else if lc =? 2 then Ok (replicate 5 port_plain)
       else raise (HTTPError 404);
     dev_show_flow := fun ports =>
       if decide (ports = ["2.1"]) then Ok [[[Some "3.5:1"]]]
       else Ok (replicate (length ports) []) |}.

(** As above, but port 5 of linecard 3 is a breakout port too. *)
Definition dev_breakout_to_breakout : Device :=
  {| dev_chassis :=
       Ok (chassis_of_slots [None; Some (JObj []); Some (JObj [])]);
     dev_ports := fun lc =>
       if lc =? 1 then Ok [port_breakout]
       else if lc =? 2 then Ok (replicate 4 port_plain ++ [port_breakout])
       else raise (HTTPError 404);
     dev_show_flow := fun ports =>
       if decide (ports = ["2.1"]) then Ok [[[Some "3.5:1"]]]
       else Ok (replicate (length ports) []) |}.

(** Linecard 1 has one ordinary port whose egress lists two
    destinations, lane 2 of the breakout port 2.1 and the ordinary port
    2.2; linecard 2 has those two ports and no egress. *)
Definition dev_plain_fanout : Device :=
  {| dev_chassis := Ok (chassis_of_slots [Some (JObj []); Some (JObj [])]);
     dev_ports := fun lc =>
       if lc =? 0 then Ok [port_plain]
       else if lc =? 1 then Ok [port_breakout; port_plain]
       else raise (HTTPError 404);
     dev_show_flow := fun ports =>
       if decide (ports = ["1.1"]) then Ok [[[Some "2.1:2"]; [Some "2.2"]]]
       else Ok (replicate (length ports) []) |}.

(** Linecard 1 has one ordinary port whose egress names port 7 of
    linecard 2, which has only two ports. *)
Definition dev_plain_dangling : Device :=
  {| dev_chassis := Ok (chassis_of_slots [Some (JObj []); Some (JObj [])]);
     dev_ports := fun lc =>
       if lc =? 0 then Ok [port_plain]
       else if lc =? 1 then Ok [port_plain; port_plain]
       else raise (HTTPError 404);
     dev_show_flow := fun ports =>
       if decide (ports = ["1.1"]) then Ok [[[Some "2.7"]]]
       else Ok (replicate (length ports) []) |}.


(** ** Session set-up and the read helpers *)

(** [sep.join(parts)]. *)
Fixpoint str_join (sep : string) (parts : list string) : string :=
  match parts with
  | [] => EmptyString
  | [p] => p
  | p :: rest => p +:+ sep +:+ str_join sep rest
  end.

(** [needle in hay]. *)
Fixpoint str_contains (needle hay : string) : bool :=
  String.prefix needle hay
  || match hay with
     | EmptyString => false
     | String _ hay' => str_contains needle hay'
     end.

(** [try: ... except ValueError: ...]. *)
Definition except_ValueError {A} (m : result A) (handler : result A)
  : result A :=
  match m with
  | Raise ValueError _ => handler
  | _ => m
  end.

(** The address and port [login] settles on: the text after the last ":"
    read as the port, or the whole address with port 8443 when that text
    is not an integer. *)
Definition login_address_port (address : string) : result (string * Z) :=
  except_ValueError
    (let address_split := split_on ":" address in
     let* last_part := py_getitem address_split (-1) in
     let* port := py_int last_part in
     Ok (str_join ":" (removelast address_split), port))
    (Ok (address, 8443)).

Definition login_baseurl (address : string) : result string :=
  let* (_address, port) := login_address_port address in
  let prepend := if str_contains "https://" _address then "" else "https://" in
  Ok (prepend +:+ _address +:+ ":" +:+ py_str port).

(** A read command's outcome together with the URLs it fetched. *)
Abbreviation io_get A := (result A * list string)%type.

Definition system_get (_baseurl : string) (get : string -> Response)
    (api : string) : io_get json :=
  let method := _baseurl +:+ "/system/do/" +:+ api in
  let r := get method in
  (if negb (status_code r =? 200) then raise_raise_for_status r
   else response_json r,
   [method]).

Definition chassis_get (_baseurl : string) (get : string -> Response)
    (api : string) : io_get json :=
  let method := _baseurl +:+ "/chassis/" +:+ api in
  let r := get method in
  (if negb (status_code r =? 200) then raise_raise_for_status r
   else response_json r,
   [method]).

Record SessionState : Type := {
  ss_address : string;
  ss_baseurl : string;
  ss_version : json
}.

Definition login (get : string -> Response) (address : string)
  : io_get SessionState :=
  match login_address_port address, login_baseurl address with
  | Ok (_address, _), Ok _baseurl =>
      let '(r, trace) := system_get _baseurl get "version" in
      (let* j := r in
       let* version := json_getitem j "Version" in
       Ok {| ss_address := _address;
             ss_baseurl := _baseurl;
             ss_version := version |},
       trace)
  | Raise e d, _ | _, Raise e d => (Raise e d, [])
  end.

Definition get_state_id (_baseurl : string) (get : string -> Response)
  : io_get json :=
  let '(r, trace) := chassis_get _baseurl get "" in
  (let* chassis_json := r in json_getitem chassis_json "SessionId", trace).

Definition set_state_id (_baseurl : string) (send : Request -> Response)
    (state_id : string) : io unit :=
  then_call (Ok ("", SessionBody state_id)) (chassis_put _baseurl send).

(** The answers a mutating command takes for success: 204, or 200 with a
    JSON body. *)
Definition accepted (r : Response) : Prop :=
  status_code r = 204 \/ (status_code r = 200 /\ resp_json r <> None).

(* ================================================================= *)
(** * Facts about the string primitives *)

Lemma split_on_length c s : length (split_on c s) = S (count_char c s).
Proof.
  induction s as [|x s IH]; simpl; [reflexivity|].
  destruct (Ascii.eqb x c); simpl; [now rewrite IH|].
  destruct (split_on c s); simpl in *; congruence.
Qed.

Lemma split_on_absent c s : count_char c s = O -> split_on c s = [s].
Proof.
  induction s as [|x s IH]; simpl; [reflexivity|].
  destruct (Ascii.eqb x c); [discriminate|].
  intros H. now rewrite (IH H).
Qed.

Lemma split_on_app c a b :
  count_char c a = O ->
  split_on c (a +:+ String c b) = a :: split_on c b.
Proof.
  induction a as [|x a IH]; simpl.
  - intros _. now rewrite Ascii.eqb_refl.
  - destruct (Ascii.eqb x c); [discriminate|].
    intros H. now rewrite (IH H).
Qed.

Lemma str_all_impl (P Q : ascii -> bool) s :
  (forall c, P c = true -> Q c = true) ->
  str_all P s = true -> str_all Q s = true.
Proof.
  intros HPQ. induction s as [|x s IH]; simpl; [reflexivity|].
  rewrite !andb_true_iff. intros [Hx Hs]. auto.
Qed.

Lemma str_all_absent (P : ascii -> bool) c s :
  P c = false -> str_all P s = true -> count_char c s = O.
Proof.
  intros Hc. induction s as [|x s IH]; simpl; [reflexivity|].
  rewrite andb_true_iff. intros [Hx Hs].
  destruct (Ascii.eqb_spec x c) as [->|_]; [congruence|auto].
Qed.

Lemma lstrip_id s :
  str_all (fun c => negb (is_space c)) s = true -> lstrip s = s.
Proof.
  destruct s as [|x s]; simpl; [reflexivity|].
  rewrite andb_true_iff. intros [Hx _].
  now destruct (is_space x).
Qed.

Lemma rstrip_id s :
  str_all (fun c => negb (is_space c)) s = true -> rstrip s = s.
Proof.
  induction s as [|x s IH]; simpl; [reflexivity|].
  rewrite andb_true_iff. intros [Hx Hs]. rewrite (IH Hs).
  destruct s; [|reflexivity]. now destruct (is_space x).
Qed.

Lemma strip_id s :
  str_all (fun c => negb (is_space c)) s = true -> strip s = s.
Proof. intros H. unfold strip. now rewrite lstrip_id, rstrip_id. Qed.

Lemma is_digit_char c :
  is_digit c = true ->
  is_space c = false /\ Ascii.eqb c "-" = false /\ Ascii.eqb c "+" = false
  /\ Ascii.eqb c "." = false /\ Ascii.eqb c ":" = false
  /\ Ascii.eqb c "_" = false /\ Ascii.eqb c "/" = false.
Proof.
  destruct c as [[] [] [] [] [] [] [] []]; vm_compute; intros H;
    try discriminate H; repeat split.
Qed.

Lemma uint_of_char_digit c u :
  is_digit c = true -> exists v, uint_of_char c (Some u) = Some v.
Proof.
  destruct c as [[] [] [] [] [] [] [] []]; vm_compute; intros H;
    try discriminate H; eauto.
Qed.

Lemma uint_of_string_digits s :
  str_all is_digit s = true -> exists u, NilEmpty.uint_of_string s = Some u.
Proof.
  induction s as [|x s IH]; simpl; [eauto|].
  rewrite andb_true_iff. intros [Hx Hs].
  destruct (IH Hs) as [u ->]. now apply uint_of_char_digit.
Qed.

Lemma is_digits_spec s :
  is_digits s = true <-> str_all is_digit s = true /\ s <> "".
Proof.
  unfold is_digits. rewrite andb_true_iff, negb_true_iff.
  split; intros [H1 H2]; split; auto.
  - intros ->. discriminate.
  - destruct s; [congruence|reflexivity].
Qed.

Lemma digits_value_digits s :
  is_digits s = true -> exists n, digits_value s = Some n /\ 0 <= n.
Proof.
  rewrite is_digits_spec. intros [Hd Hne].
  destruct (uint_of_string_digits s Hd) as [u Hu].
  unfold digits_value, NilZero.uint_of_string.
  destruct s; [congruence|]. rewrite Hu. eexists; split; [reflexivity|lia].
Qed.

Lemma py_int_digits s :
  is_digits s = true -> exists n, py_int s = Ok n /\ 0 <= n.
Proof.
  intros H. destruct (digits_value_digits s H) as (n & Hn & Hpos).
  apply is_digits_spec in H as [Hd Hne].
  exists n. split; [|assumption].
  unfold py_int. rewrite strip_id.
  2:{ eapply str_all_impl; [|exact Hd]. intros c Hc.
      now destruct (is_digit_char c Hc) as [-> _]. }
  destruct s as [|c s]; [congruence|].
  simpl in Hd. apply andb_true_iff in Hd as [Hc _].
  destruct (is_digit_char c Hc) as (_ & -> & -> & _).
  now rewrite Hn.
Qed.

Lemma string_of_uint_digits u :
  str_all is_digit (NilEmpty.string_of_uint u) = true.
Proof. induction u; simpl; auto. Qed.

Lemma N_to_uint_nonnil n : N.to_uint n <> Nil.
Proof.
  destruct n as [|p]; simpl; [discriminate|].
  apply DecimalPos.Unsigned.to_uint_nonnil.
Qed.

Lemma str_N_digits n : is_digits (str_N n) = true.
Proof.
  apply is_digits_spec. unfold str_N, NilZero.string_of_uint.
  pose proof (N_to_uint_nonnil n) as Hn.
  destruct (N.to_uint n) eqn:E; try congruence;
    (split; [rewrite <- E at 1; simpl; apply string_of_uint_digits
            | simpl; discriminate]).
Qed.

Lemma digits_value_str_N n : digits_value (str_N n) = Some (Z.of_N n).
Proof.
  unfold digits_value, str_N.
  rewrite NilZero.usu by apply N_to_uint_nonnil.
  now rewrite DecimalN.Unsigned.of_to.
Qed.

Lemma is_digits_nospace s :
  is_digits s = true -> str_all (fun c => negb (is_space c)) s = true.
Proof.
  intros H. apply is_digits_spec in H as [Hd _].
  eapply str_all_impl; [|exact Hd]. intros c Hc.
  now destruct (is_digit_char c Hc) as [-> _].
Qed.

Lemma is_digits_absent s c :
  is_digit c = false -> is_digits s = true -> count_char c s = O.
Proof.
  intros Hc H. apply is_digits_spec in H as [Hd _].
  now apply (str_all_absent is_digit).
Qed.

(** [int(str(n)) == n] for every integer. *)
Lemma py_int_py_str z : py_int (py_str z) = Ok z.
Proof.
  unfold py_str. destruct (Z.ltb_spec z 0) as [Hneg|Hpos].
  - unfold py_int. rewrite strip_id.
    2:{ simpl. now rewrite is_digits_nospace by apply str_N_digits. }
    simpl. rewrite digits_value_str_N. f_equal. lia.
  - pose proof (str_N_digits (Z.to_N z)) as Hd.
    destruct (py_int_digits _ Hd) as (n & Hn & _).
    rewrite Hn. f_equal.
    unfold py_int in Hn. rewrite strip_id in Hn by now apply is_digits_nospace.
    apply is_digits_spec in Hd as [Hd Hne].
    destruct (str_N (Z.to_N z)) as [|c s] eqn:E; [congruence|].
    simpl in Hd. apply andb_true_iff in Hd as [Hc _].
    destruct (is_digit_char c Hc) as (_ & Hm & Hp & _).
    rewrite Hm, Hp, <- E, digits_value_str_N in Hn.
    injection Hn as <-. lia.
Qed.

Lemma py_str_nonneg_digits z : 0 <= z -> is_digits (py_str z) = true.
Proof.
  intros H. unfold py_str.
  destruct (Z.ltb_spec z 0); [lia|]. apply str_N_digits.
Qed.

Lemma py_str_numeric z : str_all is_numeric (py_str z) = true.
Proof.
  assert (Hd : forall n, str_all is_numeric (str_N n) = true).
  { intros n. pose proof (str_N_digits n) as H.
    apply is_digits_spec in H as [H _].
    eapply str_all_impl; [|exact H].
    intros c Hc. unfold is_numeric. now rewrite Hc. }
  unfold py_str. destruct (z <? 0); simpl; auto.
Qed.

Lemma fmt02_numeric z : str_all is_numeric (fmt02 z) = true.
Proof.
  unfold fmt02. destruct (z <? 0); [apply py_str_numeric|].
  destruct (_ <? _)%nat; simpl; apply py_str_numeric.
Qed.

Lemma fmt02_no_underscore z : count_char "_" (fmt02 z) = O.
Proof. apply (str_all_absent is_numeric); [reflexivity|apply fmt02_numeric]. Qed.

Lemma count_char_app c a b :
  count_char c (a +:+ b) = (count_char c a + count_char c b)%nat.
Proof.
  induction a as [|x a IH]; simpl; [reflexivity|].
  destruct (Ascii.eqb x c); simpl; now rewrite IH.
Qed.

Lemma sep_app (c : ascii) b : String c EmptyString +:+ b = String c b.
Proof. reflexivity. Qed.

(** Splitting a token whose fields hold no separator. *)
Lemma parse_lport_fields a b c x y z :
  count_char "." a = O -> count_char "." b = O -> count_char "." c = O ->
  count_char ":" b = O -> count_char ":" c = O ->
  py_int a = Ok x -> py_int b = Ok y -> py_int c = Ok z ->
  _parse_lport (a +:+ "." +:+ b +:+ ":" +:+ c) = Ok (x, y, z)
  /\ _parse_lport (a +:+ "." +:+ b) = Ok (x, y, -1).
Proof.
  intros Ha Hb Hc Hb' Hc' Hx Hy Hz. unfold _parse_lport.
  rewrite !sep_app. split.
  - rewrite (split_on_app "." a) by assumption.
    rewrite split_on_absent.
    2:{ rewrite count_char_app. simpl. rewrite Hb, Hc. reflexivity. }
    rewrite (split_on_app ":" b) by assumption.
    rewrite (split_on_absent ":" c) by assumption.
    simpl. rewrite Hx. simpl. rewrite Hy. simpl. now rewrite Hz.
  - rewrite (split_on_app "." a) by assumption.
    rewrite (split_on_absent "." b) by assumption.
    rewrite (split_on_absent ":" b) by assumption.
    simpl. rewrite Hx. simpl. now rewrite Hy.
Qed.

Lemma parse_lport_digits a b c :
  is_digits a = true -> is_digits b = true -> is_digits c = true ->
  exists x y z,
    py_int a = Ok x /\ py_int b = Ok y /\ py_int c = Ok z
    /\ _parse_lport (a +:+ "." +:+ b +:+ ":" +:+ c) = Ok (x, y, z)
    /\ _parse_lport (a +:+ "." +:+ b) = Ok (x, y, -1).
Proof.
  intros Ha Hb Hc.
  destruct (py_int_digits a Ha) as (x & Hx & _).
  destruct (py_int_digits b Hb) as (y & Hy & _).
  destruct (py_int_digits c Hc) as (z & Hz & _).
  exists x, y, z. repeat split; try assumption;
    apply (parse_lport_fields a b c x y z); try assumption;
    apply is_digits_absent; auto.
Qed.

Lemma parse_lport_separators s :
  count_char "." s <> 1%nat -> _parse_lport s = raise ValueError.
Proof.
  intros H. unfold _parse_lport.
  pose proof (split_on_length "." s) as Hl.
  destruct (split_on "." s) as [|p [|q [|r t]]]; simpl in Hl; try reflexivity.
  congruence.
Qed.

(* ================================================================= *)
(** * Address codec *)

Lemma parse_lport_canonical lc port lane :
  0 <= lc -> 0 <= port -> 0 <= lane ->
  _parse_lport (py_str lc +:+ "." +:+ py_str port +:+ ":" +:+ py_str lane)
    = Ok (lc, port, lane)
  /\ _parse_lport (py_str lc +:+ "." +:+ py_str port) = Ok (lc, port, -1).
Proof.
  intros Hlc Hport Hlane.
  apply parse_lport_fields; try apply py_int_py_str;
    apply is_digits_absent; try reflexivity;
    now apply py_str_nonneg_digits.
Qed.

(** Two or more ":" after the port: everything from the first ":" on is
    dropped, unread, and the lane is the sentinel. *)
Lemma parse_lport_extra_colons a b rest x y :
  count_char "." a = O -> count_char "." b = O -> count_char "." rest = O ->
  count_char ":" b = O -> (1 <= count_char ":" rest)%nat ->
  py_int a = Ok x -> py_int b = Ok y ->
  _parse_lport (a +:+ "." +:+ b +:+ ":" +:+ rest) = Ok (x, y, -1).
Proof.
  intros Ha Hb Hr Hb' Hr' Hx Hy. unfold _parse_lport.
  rewrite !sep_app.
  rewrite (split_on_app "." a) by assumption.
  rewrite split_on_absent.
  2:{ rewrite count_char_app. simpl. rewrite Hb, Hr. reflexivity. }
  rewrite (split_on_app ":" b) by assumption.
  pose proof (split_on_length ":" rest) as Hl.
  destruct (split_on ":" rest) as [|r1 [|r2 t]]; simpl in Hl; [lia|lia|].
  cbn [bind]. rewrite Hx. cbn [bind]. rewrite Hy. reflexivity.
Qed.

(** C6, as amended: [_parse_lport] (the design's parseEgressToken) maps
    "3.12:2" to (3, 12, 2) and "3.12" to (3, 12, -1).  For every token
    "<linecard>.<port>:<lane>" it returns the three integers, and for
    "<linecard>.<port>" it returns lane -1; this holds for the decimal
    rendering of any non-negative integers and, more generally, for any
    non-empty digit strings (leading zeros included).  The token "3"
    raises ValueError (the design's MalformedAddressError) instead of
    returning, as does every token that does not hold exactly one ".".
    A wrong number of ":" is not rejected: when the part after the "."
    holds two or more ":", whatever follows the first ":" is ignored,
    integer or not, and the token is read as "<linecard>.<port>" with
    lane -1. *)
Theorem parse_lport_spec :
  _parse_lport "3.12:2" = Ok (3, 12, 2)
  /\ _parse_lport "3.12" = Ok (3, 12, -1)
  /\ (forall lc port lane : Z,
        0 <= lc -> 0 <= port -> 0 <= lane ->
        _parse_lport (py_str lc +:+ "." +:+ py_str port +:+ ":" +:+ py_str lane)
          = Ok (lc, port, lane)
        /\ _parse_lport (py_str lc +:+ "." +:+ py_str port) = Ok (lc, port, -1))
  /\ (forall a b c : string,
        is_digits a = true -> is_digits b = true -> is_digits c = true ->
        exists x y z,
          py_int a = Ok x /\ py_int b = Ok y /\ py_int c = Ok z
          /\ _parse_lport (a +:+ "." +:+ b +:+ ":" +:+ c) = Ok (x, y, z)
          /\ _parse_lport (a +:+ "." +:+ b) = Ok (x, y, -1))
  /\ _parse_lport "3" = raise ValueError
  /\ (forall s : string,
        count_char "." s <> 1%nat -> _parse_lport s = raise ValueError)
  /\ (forall (a b rest : string) (x y : Z),
        count_char "." a = O -> count_char "." b = O ->
        count_char "." rest = O ->
        count_char ":" b = O -> (1 <= count_char ":" rest)%nat ->
        py_int a = Ok x -> py_int b = Ok y ->
        _parse_lport (a +:+ "." +:+ b +:+ ":" +:+ rest) = Ok (x, y, -1))
  /\ (forall lc port : Z, forall rest : string,
        0 <= lc -> 0 <= port ->
        count_char "." rest = O -> (1 <= count_char ":" rest)%nat ->
        _parse_lport (py_str lc +:+ "." +:+ py_str port +:+ ":" +:+ rest)
        = Ok (lc, port, -1)).
Proof.
  split; [reflexivity|]. split; [reflexivity|].
  split.
  { intros lc port lane. apply parse_lport_canonical. }
  split; [exact parse_lport_digits|].
  split; [reflexivity|]. split; [exact parse_lport_separators|].
  split; [exact parse_lport_extra_colons|].
  intros lc port rest Hlc Hport Hr Hr'.
  apply parse_lport_extra_colons; try assumption; try apply py_int_py_str;
    apply is_digits_absent; try reflexivity; now apply py_str_nonneg_digits.
Qed.

Lemma parse_lport_spec_witness :
  _parse_lport (py_str 7 +:+ "." +:+ py_str 21 +:+ ":" +:+ py_str 4) = Ok (7, 21, 4)
  /\ (exists x y z, _parse_lport ("03" +:+ "." +:+ "05" +:+ ":" +:+ "1") = Ok (x, y, z))
  /\ _parse_lport "3:12" = raise ValueError
  /\ _parse_lport ("3" +:+ "." +:+ "12" +:+ ":" +:+ "2:one") = Ok (3, 12, -1)
  /\ _parse_lport (py_str 3 +:+ "." +:+ py_str 12 +:+ ":" +:+ "2:1")
     = Ok (3, 12, -1).
Proof.
  destruct parse_lport_spec
    as (_ & _ & Hcanon & Hdigits & _ & Hsep & Hcolons & Hcolons').
  split; [apply (Hcanon 7 21 4); lia|].
  split.
  { destruct (Hdigits "03" "05" "1") as (x & y & z & _ & _ & _ & H & _);
      [reflexivity..|].
    exists x, y, z. exact H. }
  split; [apply (Hsep "3:12"); vm_compute; discriminate|].
  split.
  - apply (Hcolons "3" "12" "2:one" 3 12); first [reflexivity|simpl; lia].
  - apply (Hcolons' 3 12 "2:1"); first [lia|reflexivity|simpl; lia].
Defined.

(** C6 as stated fails: a token with a wrong number of ":" separators
    is malformed, yet [_parse_lport] returns a value for it, without
    reading what follows the first ":". *)
Lemma parse_lport_claim_counterexample :
  count_char ":" "3.12:2:1" = 2%nat
  /\ _parse_lport "3.12:2:1" = Ok (3, 12, -1)
  /\ _parse_lport "3.12:2:x" = Ok (3, 12, -1)
  /\ _parse_lport "3.12::" = Ok (3, 12, -1)
  /\ _parse_lport "3.12:2:1" <> raise ValueError.
Proof. repeat split; try reflexivity. discriminate. Qed.

Lemma fmt02_width port : 0 <= port < 100 -> String.length (fmt02 port) = 2%nat.
Proof.
  intros H.
  assert (Hall : forallb (fun p => (String.length (fmt02 p) =? 2)%nat)
                         (seqZ 0 100) = true) by (vm_compute; reflexivity).
  rewrite forallb_forall in Hall.
  apply Nat.eqb_eq, Hall, list_elem_of_In, elem_of_seqZ. lia.
Qed.

Lemma qport_unlaned port lane :
  lane < 1 -> _qport port (Some lane) = fmt02 port.
Proof.
  intros H. unfold _qport.
  destruct (Z.leb_spec 1 lane); [lia|]. now rewrite andb_false_r.
Qed.

Lemma qport_laned port lane :
  1 <= lane -> _qport port (Some lane) = fmt02 port +:+ "_" +:+ py_str lane.
Proof.
  intros H. unfold _qport.
  destruct (Z.leb_spec 1 lane); [|lia].
  destruct (Z.eqb_spec lane 0); [lia|reflexivity].
Qed.

Lemma py_str_no_underscore z : count_char "_" (py_str z) = O.
Proof. apply (str_all_absent is_numeric); [reflexivity|apply py_str_numeric]. Qed.

Lemma qport_underscores port lane :
  count_char "_" (_qport port lane)
  = match lane with
    | Some l => if 1 <=? l then 1%nat else O
    | None => O
    end.
Proof.
  destruct lane as [l|]; [|apply fmt02_no_underscore].
  destruct (Z.leb_spec 1 l).
  - rewrite qport_laned by assumption.
    rewrite !count_char_app, fmt02_no_underscore, py_str_no_underscore.
    reflexivity.
  - rewrite qport_unlaned by assumption. apply fmt02_no_underscore.
Qed.

(* ================================================================= *)
(** * Loops *)

Lemma concat_mapM_Ok_inv {A B} (f : A -> result (list B)) l ms :
  concat_mapM f l = Ok ms ->
  exists parts, Forall2 (fun a part => f a = Ok part) l parts /\ ms = concat parts.
Proof.
  revert ms. induction l as [|a l IH]; simpl; intros ms H.
  - injection H as <-. exists []. split; [constructor|reflexivity].
  - destruct (f a) as [x|] eqn:Ha; simpl in H; [|discriminate].
    destruct (concat_mapM f l) as [xs|] eqn:Hl; simpl in H; [|discriminate].
    injection H as <-. destruct (IH xs eq_refl) as (parts & HF & ->).
    exists (x :: parts). split; [now constructor|reflexivity].
Qed.

Lemma concat_mapM_elem {A B} (f : A -> result (list B)) l ms x :
  concat_mapM f l = Ok ms ->
  x ∈ ms <-> exists a part, a ∈ l /\ f a = Ok part /\ x ∈ part.
Proof.
  intros H. apply concat_mapM_Ok_inv in H as (parts & HF & ->).
  induction HF as [|a part l parts Ha _ IH]; simpl.
  - split; [intros H; inversion H|intros (a & part & H & _); inversion H].
  - rewrite elem_of_app, IH. split.
    + intros [Hx|(a' & part' & Hin & Hf & Hx)].
      * exists a, part. split; [left|auto].
      * exists a', part'. split; [now right|auto].
    + intros (a' & part' & Hin & Hf & Hx).
      apply elem_of_cons in Hin as [->|Hin].
      * left. congruence.
      * right. eauto.
Qed.

Lemma concat_mapM_Raise {A B} (f : A -> result (list B)) l1 a l2 e d :
  (forall b, b ∈ l1 -> exists part, f b = Ok part) ->
  f a = Raise e d ->
  concat_mapM f (l1 ++ a :: l2) = Raise e d.
Proof.
  intros Hl1 Ha. induction l1 as [|b l1 IH]; simpl.
  - now rewrite Ha.
  - destruct (Hl1 b) as [part ->]; [left|]. simpl.
    rewrite IH; [reflexivity|]. intros c Hc. apply Hl1. now right.
Qed.

(* ================================================================= *)
(** * Discovery, second pass *)

Lemma string_length_pos s : s <> "" -> (0 <? String.length s)%nat = true.
Proof. destruct s; [congruence|reflexivity]. Qed.


(** A parsed token: what the entry records, raises or skips. *)
Lemma link_breakout_entry_parsed (_blades : blades_t) port_obj lane
    egress_port tok lc p ln :
  0 <= lane ->
  py_getitem egress_port (Z.min lane (Z.of_nat (length egress_port) - 1))
    = Ok (Some tok) ->
  tok <> "" ->
  _parse_lport tok = Ok (lc, p, ln) ->
  link_breakout_entry _blades port_obj lane egress_port
  = match blades_get _blades lc with
    | Some d =>
        if (if (length egress_port =? 1)%nat then lane + 1 else ln) =? lane + 1
        then
          match d !! (fmt02 p +:+ "_" +:+ py_str (lane + 1)) with
          | Some m => Ok [{| mapped_to := m; mapped_from := port_obj |}]
          | None => Raise (KeyError (fmt02 p +:+ "_" +:+ py_str (lane + 1))) []
          end
        else Ok []
    | None => Ok []
    end.
Proof.
  intros Hlane Hslot Htok Hparse.
  unfold link_breakout_entry. cbv zeta. rewrite Hslot. cbn [bind].
  rewrite (string_length_pos tok Htok), Hparse. cbn [bind].
  destruct (blades_get _blades lc) as [d|]; [|reflexivity].
  destruct (Z.eqb_spec (if (length egress_port =? 1)%nat then lane + 1 else ln)
                       (lane + 1)) as [E|]; [|reflexivity].
  rewrite E, qport_laned by lia. unfold dict_getitem.
  now destruct (d !! _).
Qed.




(** One egress entry of an ordinary port, once its first slot parses. *)
Lemma link_plain_entry_parsed (_blades : blades_t) port_obj
    egress_port tok lc p ln :
  py_getitem egress_port 0 = Ok (Some tok) ->
  _parse_lport tok = Ok (lc, p, ln) ->
  link_plain_entry _blades port_obj egress_port
  = match blades_get _blades lc with
    | Some d =>
        match d !! _qport p (Some ln) with
        | Some m => Ok [{| mapped_to := m; mapped_from := port_obj |}]
        | None =>
            Raise (KeyError (_qport p (Some ln)))
                  [LogException (KeyError (_qport p (Some ln)));
                   LogBladeKeys lc (dom d)]
        end
    | None => Ok []
    end.
Proof.
  intros Hslot Hparse. unfold link_plain_entry.
  rewrite Hslot. cbn [bind]. rewrite Hparse. cbn [bind].
  destruct (blades_get _blades lc) as [d|]; [|reflexivity].
  unfold dict_getitem. now destruct (d !! _).
Qed.

Lemma link_plain_entry_Ok_inv (_blades : blades_t) port_obj egress_port part :
  link_plain_entry _blades port_obj egress_port = Ok part ->
  exists tok lc p ln,
    py_getitem egress_port 0 = Ok (Some tok)
    /\ _parse_lport tok = Ok (lc, p, ln)
    /\ ((blades_get _blades lc = None /\ part = [])
        \/ exists d m, blades_get _blades lc = Some d
                       /\ d !! _qport p (Some ln) = Some m
                       /\ part = [{| mapped_to := m; mapped_from := port_obj |}]).
Proof.
  intros H.
  destruct (py_getitem egress_port 0) as [[tok|]|] eqn:Hslot;
    try (unfold link_plain_entry in H; rewrite Hslot in H; discriminate H).
  destruct (_parse_lport tok) as [[[lc p] ln]|] eqn:Hparse;
    [|unfold link_plain_entry in H; rewrite Hslot in H; cbn [bind] in H;
      rewrite Hparse in H; discriminate H].
  rewrite (link_plain_entry_parsed _ _ _ _ _ _ _ Hslot Hparse) in H.
  exists tok, lc, p, ln. split; [reflexivity|]. split; [assumption|].
  destruct (blades_get _blades lc) as [d|].
  - right. destruct (d !! _qport p (Some ln)) as [m|] eqn:Hk; [|discriminate].
    injection H as <-. eauto.
  - left. now injection H as <-.
Qed.




(** C3 at the failing input.  A breakout port whose egress names a known
    linecard but an absent key stops discovery with a bare KeyError: the
    exception carries the expected key only and no handler runs, so the
    keys the linecard does hold are never reported.  (The informational
    entries written before the lookup name the token and its parsed
    fields; they are no part of the failure and are not recorded here.)
    The ordinary-port path does log the exception and the known keys of
    the linecard before it re-raises. *)
Theorem missing_key_diagnostics :
  get_resource_description dev_breakout_to_plain "192.168.42.240"
    = Raise (KeyError "05_1") []
  /\ get_resource_description dev_plain_dangling "192.168.42.240"
    = Raise (KeyError "07")
            [LogException (KeyError "07"); LogBladeKeys 2 {[ "01"; "02" ]}].
Proof. split; vm_compute; reflexivity. Qed.

(** C10: [_qport] (the design's encodeCompactPort) treats an absent lane
    and every lane below 1 alike: it returns ["{port:02d}"], two digits
    for ports 0..99, and it returns the lane-tagged
    ["{port:02d}_{lane}"] when lane >= 1 and only then (the result holds
    a "_" exactly in that case).  Consequently an egress token without a
    lane, parsed with the sentinel -1, makes an ordinary port look up the
    same key as a laneless lookup. *)
Theorem qport_lane_cases :
  (forall port, _qport port None = fmt02 port)
  /\ (forall port lane, lane < 1 -> _qport port (Some lane) = fmt02 port)
  /\ (forall port lane, lane < 1 -> _qport port (Some lane) = _qport port None)
  /\ (forall port lane, 1 <= lane ->
        _qport port (Some lane) = fmt02 port +:+ "_" +:+ py_str lane)
  /\ (forall port lane,
        count_char "_" (_qport port lane) = 1%nat <->
        exists l, lane = Some l /\ 1 <= l)
  /\ (forall port, 0 <= port < 100 -> String.length (fmt02 port) = 2%nat)
  /\ (forall lc port, 0 <= lc -> 0 <= port ->
        let tok := py_str lc +:+ "." +:+ py_str port in
        _parse_lport tok = Ok (lc, port, -1)
        /\ _qport port (Some (-1)) = _qport port None
        /\ forall (_blades : blades_t) port_obj d,
             blades_get _blades lc = Some d ->
             link_plain_entry _blades port_obj [Some tok]
             = match d !! _qport port None with
               | Some m => Ok [{| mapped_to := m; mapped_from := port_obj |}]
               | None =>
                   Raise (KeyError (_qport port None))
                         [LogException (KeyError (_qport port None));
                          LogBladeKeys lc (dom d)]
               end).
Proof.
  split; [reflexivity|].
  split; [exact qport_unlaned|].
  split; [intros port lane H; now rewrite qport_unlaned|].
  split; [exact qport_laned|].
  split.
  { intros port lane. rewrite qport_underscores.
    destruct lane as [l|].
    - destruct (Z.leb_spec 1 l); split.
      + eauto.
      + reflexivity.
      + discriminate.
      + intros (l' & [= <-] & H'). lia.
    - split; [discriminate|intros (l & H & _); discriminate]. }
  split; [exact fmt02_width|].
  intros lc port Hlc Hport tok.
  assert (Hparse : _parse_lport tok = Ok (lc, port, -1)).
  { apply (parse_lport_canonical lc port 0); lia. }
  split; [exact Hparse|]. split; [now rewrite qport_unlaned|].
  intros _blades port_obj d Hd.
  rewrite (link_plain_entry_parsed _blades port_obj [Some tok] tok lc port (-1));
    [|reflexivity|exact Hparse].
  rewrite Hd. now rewrite qport_unlaned by lia.
Qed.

Lemma qport_lane_cases_witness :
  _qport 5 (Some (-1)) = "05" /\ _qport 5 (Some 0) = _qport 5 None
  /\ _qport 5 (Some 3) = "05_3" /\ String.length (fmt02 7) = 2%nat
  /\ _parse_lport "3.12" = Ok (3, 12, -1).
Proof.
  destruct qport_lane_cases as (_ & Hlow & Hsame & Htag & _ & Hwidth & Htok).
  split; [apply (Hlow 5 (-1)); lia|].
  split; [apply (Hsame 5 0); lia|].
  split; [apply (Htag 5 3); lia|].
  split; [apply (Hwidth 7); lia|].
  apply (Htok 3 12); lia.
Defined.

(* ================================================================= *)
(** * Discovery, first pass *)

Lemma build_blade_Ok_inv dev lc b k d :
  build_blade dev lc = Ok (b, (k, d)) ->
  exists ports_json,
    dev_ports dev lc = Ok ports_json
    /\ k = lc + 1
    /\ blade_resource_id b = py_str (lc + 1)
    /\ blade_model_name b = "Generic L1 Module"
    /\ blade_ports b = concat (map (make_ports lc) (enumerate ports_json))
    /\ d = dict_of_ports (blade_ports b).
Proof.
  unfold build_blade. destruct (dev_ports dev lc) as [pjs|]; [|discriminate].
  cbn [bind]. intros H. injection H as <- <- <-.
  exists pjs. repeat split.
Qed.

Lemma enumerate_from_cons {A} lc (x : A) l :
  zip (seqZ lc (Z.of_nat (length (x :: l)))) (x :: l)
  = (lc, x) :: zip (seqZ (lc + 1) (Z.of_nat (length l))) l.
Proof.
  rewrite seqZ_cons by (simpl; lia). simpl. do 3 f_equal; lia.
Qed.

Lemma build_blades_keys dev lc slots built :
  build_blades dev lc slots = Ok built ->
  map (fun x => (blade_resource_id x.1, x.2.1)) built
  = map (fun e => (py_str (e.1 + 1), e.1 + 1))
        (filter (fun e => is_Some e.2)
                (zip (seqZ lc (Z.of_nat (length slots))) slots)).
Proof.
  revert lc built. induction slots as [|slot slots IH]; intros lc built H.
  - simpl in H. now injection H as <-.
  - rewrite enumerate_from_cons. destruct slot as [s|]; simpl in H.
    + destruct (build_blade dev lc) as [[b [k d]]|] eqn:Hb; [|discriminate].
      cbn [bind] in H.
      destruct (build_blades dev (lc + 1) slots) as [bs|] eqn:Hbs;
        [|discriminate].
      cbn [bind] in H. injection H as <-.
      rewrite filter_cons_True by (simpl; eauto).
      apply build_blade_Ok_inv in Hb as (pjs & _ & -> & Hid & _).
      simpl. rewrite Hid. f_equal. now apply IH.
    + rewrite filter_cons_False by (simpl; intros [? ?]; discriminate).
      now apply IH.
Qed.

Lemma build_blades_total dev lc slots :
  (forall i s, slots !! i = Some (Some s) ->
     exists ports_json, dev_ports dev (lc + Z.of_nat i) = Ok ports_json) ->
  exists built, build_blades dev lc slots = Ok built.
Proof.
  revert lc. induction slots as [|slot slots IH]; intros lc H; simpl; [eauto|].
  destruct (IH (lc + 1)) as [bs Hbs].
  { intros i s Hi. destruct (H (S i) s Hi) as [pjs Hp]. exists pjs.
    rewrite <- Hp. f_equal. lia. }
  destruct slot as [s|]; [|eauto].
  destruct (H O s eq_refl) as [pjs Hp].
  unfold build_blade. rewrite Z.add_0_r in Hp. rewrite Hp. cbn [bind].
  rewrite Hbs. cbn [bind]. eauto.
Qed.

(** C5: discovery creates one Blade for each non-null slot of the
    chassis' linecard list and for no other, in slot order; its resource
    id is the slot's 1-based position, which is also its key in
    [_blades].  The first pass succeeds whenever the port list of every
    non-null slot can be read.  The slot list [null, {...}, {...}] gives
    exactly two blades, with ids "2" and "3". *)
Theorem linecards_from_slots :
  (forall dev slots built,
      build_blades dev 0 slots = Ok built ->
      map (fun x => (blade_resource_id x.1, x.2.1)) built
      = map (fun e => (py_str (e.1 + 1), e.1 + 1))
            (filter (fun e => is_Some e.2) (enumerate slots)))
  /\ (forall dev slots,
        (forall i s, slots !! i = Some (Some s) ->
           exists ports_json, dev_ports dev (Z.of_nat i) = Ok ports_json) ->
        exists built, build_blades dev 0 slots = Ok built)
  /\ (forall dev address rd chassis_json,
        dev_chassis dev = Ok chassis_json ->
        get_resource_description dev address = Ok rd ->
        map blade_resource_id (chassis_blades (rd_chassis rd))
        = map (fun e => py_str (e.1 + 1))
              (filter (fun e => is_Some e.2)
                      (enumerate (cj_Linecards chassis_json))))
  /\ (forall dev s2 s3 built,
        build_blades dev 0 [None; Some s2; Some s3] = Ok built ->
        map (fun x => blade_resource_id x.1) built = ["2"; "3"]
        /\ map (fun x => x.2.1) built = [2; 3]
        /\ length built = 2%nat).
Proof.
  split; [intros dev slots built; apply build_blades_keys|].
  split; [intros dev slots H; now apply build_blades_total|].
  split.
  - intros dev address rd cj Hcj H. unfold get_resource_description in H.
    rewrite Hcj in H. cbn [bind] in H.
    destruct (build_blades dev 0 (cj_Linecards cj)) as [built|] eqn:Hb;
      [|discriminate].
    cbn [bind] in H.
    destruct (concat_mapM _ _) as [ms|]; [|discriminate].
    cbn [bind] in H. injection H as <-. simpl.
    apply build_blades_keys in Hb.
    apply (f_equal (map fst)) in Hb. rewrite !map_map in Hb.
    rewrite map_map. exact Hb.
  - intros dev s2 s3 built H. apply build_blades_keys in H.
    change (map (fun x => (blade_resource_id x.1, x.2.1)) built
            = [("2", 2); ("3", 3)]) in H.
    split; [|split].
    + apply (f_equal (map fst)) in H. now rewrite map_map in H.
    + apply (f_equal (map snd)) in H. now rewrite map_map in H.
    + apply (f_equal (@length _)) in H. now rewrite length_map in H.
Qed.

Lemma linecards_from_slots_witness :
  exists rd,
    get_resource_description dev_breakout_to_breakout "192.168.42.240" = Ok rd
    /\ map blade_resource_id (chassis_blades (rd_chassis rd)) = ["2"; "3"].
Proof.
  destruct linecards_from_slots as (_ & Htotal & Hrd & _).
  eexists. split; [vm_compute; reflexivity|].
  apply (Hrd dev_breakout_to_breakout "192.168.42.240" _
           (chassis_of_slots [None; Some (JObj []); Some (JObj [])]));
    [reflexivity|vm_compute; reflexivity].
Defined.

Lemma is_breakout_true pj :
  is_breakout pj = true <-> pj_Type pj = "OPort_CF1" /\ pj_Breakout pj = true.
Proof.
  unfold is_breakout. rewrite andb_true_iff, String.eqb_eq. tauto.
Qed.

Lemma is_breakout_false pj :
  is_breakout pj = false <-> pj_Type pj <> "OPort_CF1" \/ pj_Breakout pj = false.
Proof.
  unfold is_breakout. rewrite andb_false_iff, String.eqb_neq. tauto.
Qed.

Lemma elem_of_enumerate {A} (l : list A) i x :
  (i, x) ∈ enumerate l <-> 0 <= i /\ l !! Z.to_nat i = Some x.
Proof.
  unfold enumerate. rewrite list_elem_of_lookup. split.
  - intros [k Hk]. apply lookup_zip_with_Some in Hk as (a & b & [= <- <-] & Ha & Hb).
    apply lookup_seqZ in Ha as [-> _]. split; [lia|].
    now rewrite Z.add_0_l, Nat2Z.id.
  - intros [Hi Hx]. exists (Z.to_nat i).
    apply lookup_zip_with_Some. exists i, x. split; [reflexivity|].
    split; [|assumption]. apply lookup_seqZ.
    apply lookup_lt_Some in Hx. lia.
Qed.

Lemma elem_of_concat {A} (x : A) (ls : list (list A)) :
  x ∈ concat ls <-> exists l, x ∈ l /\ l ∈ ls.
Proof.
  induction ls as [|l ls IH]; simpl.
  - split; [intros H; inversion H|intros (l & _ & H); inversion H].
  - rewrite elem_of_app, IH. split.
    + intros [H|(l' & H1 & H2)]; [exists l; split; [assumption|left]|].
      exists l'. split; [assumption|now right].
    + intros (l' & H1 & H2). apply elem_of_cons in H2 as [->|H2]; eauto.
Qed.

(* ================================================================= *)
(** * Port keys are unique within a linecard *)

Lemma digits_value_leading_zero s v :
  digits_value s = Some v -> digits_value (String "0" s) = Some v.
Proof.
  unfold digits_value, NilZero.uint_of_string. destruct s as [|c s]; [discriminate|].
  cbn [NilEmpty.uint_of_string].
  destruct (uint_of_char c (NilEmpty.uint_of_string s)) as [u|]; [|discriminate].
  intros H. exact H.
Qed.

Lemma digits_value_fmt02 z : 0 <= z -> digits_value (fmt02 z) = Some z.
Proof.
  intros Hz. unfold fmt02, py_str. destruct (Z.ltb_spec z 0); [lia|].
  assert (Hv : digits_value (str_N (Z.to_N z)) = Some z)
    by (rewrite digits_value_str_N; f_equal; lia).
  destruct (_ <? _)%nat; [now apply digits_value_leading_zero|assumption].
Qed.

Lemma fmt02_inj a b : 0 <= a -> 0 <= b -> fmt02 a = fmt02 b -> a = b.
Proof.
  intros Ha Hb H. apply (f_equal digits_value) in H.
  rewrite !digits_value_fmt02 in H by assumption. congruence.
Qed.

Lemma py_str_inj a b : py_str a = py_str b -> a = b.
Proof.
  intros H. apply (f_equal py_int) in H. rewrite !py_int_py_str in H.
  congruence.
Qed.

Lemma string_app_inv_head a b c : a +:+ b = a +:+ c -> b = c.
Proof. induction a as [|x a IH]; simpl; [auto|]. intros [= H]. auto. Qed.

(** The port number a key belongs to is the text before the "_". *)
Lemma qport_port_part port lane :
  hd EmptyString (split_on "_" (_qport port lane)) = fmt02 port.
Proof.
  pose proof (fmt02_no_underscore port) as Hn.
  destruct lane as [l|]; unfold _qport;
    [destruct (negb (l =? 0) && (1 <=? l))|].
  - rewrite sep_app, split_on_app by assumption. reflexivity.
  - now rewrite split_on_absent.
  - now rewrite split_on_absent.
Qed.

Lemma make_ports_key lc port pj p :
  p ∈ make_ports lc (port, pj) ->
  hd EmptyString (split_on "_" (port_resource_id p)) = fmt02 (port + 1).
Proof.
  unfold make_ports. destruct (is_breakout pj).
  - intros H. apply list_elem_of_fmap in H as (lane & -> & _).
    apply qport_port_part.
  - intros H. apply list_elem_of_singleton in H as ->. apply qport_port_part.
Qed.

Lemma make_ports_NoDup lc port pj :
  NoDup (map port_resource_id (make_ports lc (port, pj))).
Proof.
  unfold make_ports. destruct (is_breakout pj).
  - change (seqZ 0 4) with [0; 1; 2; 3]. cbn [map lane_port port_resource_id].
    rewrite !qport_laned by lia.
    assert (Hne : forall a b : Z, a <> b ->
              fmt02 (port + 1) +:+ "_" +:+ py_str a
              <> fmt02 (port + 1) +:+ "_" +:+ py_str b).
    { intros a b Hab H. apply string_app_inv_head in H.
      injection H as H. now apply py_str_inj in H. }
    repeat (apply NoDup_cons; split;
            [rewrite ?elem_of_cons, elem_of_nil;
             intros H; repeat destruct H as [H|H]; try (revert H; apply Hne; lia); assumption|]).
    apply NoDup_nil_2.
  - apply NoDup_singleton.
Qed.

(** Ports made from index [from] on carry a port number above [from]. *)
Lemma ports_from_NoDup lc from (pjs : list PortJson) :
  0 <= from ->
  NoDup (map port_resource_id
           (concat (map (make_ports lc)
                        (zip (seqZ from (Z.of_nat (length pjs))) pjs))))
  /\ forall p,
       p ∈ concat (map (make_ports lc)
                       (zip (seqZ from (Z.of_nat (length pjs))) pjs)) ->
       exists port, from <= port
         /\ hd EmptyString (split_on "_" (port_resource_id p)) = fmt02 (port + 1).
Proof.
  revert from. induction pjs as [|pj pjs IH]; intros from Hfrom.
  - split; [apply NoDup_nil_2|]. intros p H. inversion H.
  - rewrite enumerate_from_cons. cbn [map concat].
    destruct (IH (from + 1)) as [IHnd IHkey]; [lia|]. split.
    + rewrite map_app. apply NoDup_app. split; [apply make_ports_NoDup|].
      split; [|exact IHnd].
      intros k Hk1 Hk2.
      apply list_elem_of_fmap in Hk1 as (p1 & -> & Hp1).
      apply list_elem_of_fmap in Hk2 as (p2 & Heq & Hp2).
      apply make_ports_key in Hp1.
      destruct (IHkey p2 Hp2) as (port & Hport & Hkey).
      rewrite Heq, Hkey in Hp1. apply fmt02_inj in Hp1; lia.
    + intros p Hp. apply elem_of_app in Hp as [Hp|Hp].
      * exists from. split; [lia|]. now apply make_ports_key in Hp.
      * destruct (IHkey p Hp) as (port & Hport & Hkey).
        exists port. split; [lia|assumption].
Qed.

Lemma foldl_insert_other (ports : list Port) (d : blade_dict) k :
  k ∉ map port_resource_id ports ->
  foldl (fun d p => <[port_resource_id p := p]> d) d ports !! k = d !! k.
Proof.
  revert d. induction ports as [|q ports IH]; intros d Hk; [reflexivity|].
  cbn [foldl]. rewrite IH.
  - apply lookup_insert_ne. intros Heq. apply Hk. rewrite <- Heq. left.
  - intros H. apply Hk. now right.
Qed.

Lemma dict_of_ports_lookup (ports : list Port) p :
  NoDup (map port_resource_id ports) ->
  p ∈ ports ->
  dict_of_ports ports !! port_resource_id p = Some p.
Proof.
  unfold dict_of_ports. generalize (∅ : blade_dict).
  induction ports as [|q ports IH]; intros d Hnd Hp; [inversion Hp|].
  cbn [map] in Hnd. apply NoDup_cons in Hnd as [Hq Hnd]. cbn [foldl].
  apply elem_of_cons in Hp as [->|Hp].
  - rewrite foldl_insert_other by assumption. apply lookup_insert_eq.
  - now apply IH.
Qed.

Lemma dict_of_ports_dom (ports : list Port) k :
  is_Some (dict_of_ports ports !! k) <-> k ∈ map port_resource_id ports.
Proof.
  unfold dict_of_ports.
  assert (H : forall d : blade_dict,
            is_Some (foldl (fun d p => <[port_resource_id p := p]> d) d ports !! k)
            <-> is_Some (d !! k) \/ k ∈ map port_resource_id ports).
  { induction ports as [|q ports IH]; intros d; cbn [foldl map].
    - rewrite elem_of_nil. tauto.
    - rewrite IH, elem_of_cons, lookup_insert_is_Some. 
      split.
      + intros [[H|[_ H]]|H]; [right; left; now symmetry|now left|now do 2 right].
      + intros [H|[H|H]]; [|left; left; now symmetry|now right].
        destruct (decide (port_resource_id q = k)); [now do 2 left|].
        left. right. now split. }
  rewrite H, lookup_empty. split; [intros [[? H']|H']; [discriminate|assumption]|auto].
Qed.

(* ================================================================= *)
(** * Mutating commands *)

Lemma mapM_fmap {A B C} (f : A -> result B) (g : B -> C) l :
  mapM (fun x => let* y := f x in Ok (g y)) l
  = let* ys := mapM f l in Ok (map g ys).
Proof.
  induction l as [|a l IH]; simpl; [reflexivity|].
  destruct (f a) as [b|]; simpl; [|reflexivity].
  rewrite IH. now destruct (mapM f l).
Qed.

Lemma mapM_length {A B} (f : A -> result B) l bs :
  mapM f l = Ok bs -> length bs = length l.
Proof.
  revert bs. induction l as [|a l IH]; simpl; intros bs H.
  - now injection H as <-.
  - destruct (f a) as [b|]; simpl in H; [|discriminate].
    destruct (mapM f l) as [bs'|]; simpl in H; [|discriminate].
    injection H as <-. simpl. f_equal. now apply IH.
Qed.

(** An external address "<device>/<linecard>/<port>[_<lane>]". *)
Lemma portid_fields dev lc p :
  count_char "/" dev = O -> count_char "/" lc = O -> count_char "/" p = O ->
  _portid (dev +:+ "/" +:+ lc +:+ "/" +:+ p)
  = Ok (lc +:+ "." +:+ replace_char "_" ":" p).
Proof.
  intros Hd Hl Hp. unfold _portid. rewrite !sep_app.
  rewrite (split_on_app "/" dev) by assumption.
  rewrite (split_on_app "/" lc) by assumption.
  rewrite (split_on_absent "/" p) by assumption.
  reflexivity.
Qed.

Lemma map_uni_request _baseurl send src dsts a bs :
  _portid src = Ok a ->
  mapM _portid dsts = Ok bs ->
  map_uni _baseurl send src dsts
  = (let req := {| req_method := POST;
                   req_url := _baseurl +:+ "/chassis/do/map";
                   req_json :=
                     MapBody "OneWay"
                       (map (fun b => {| pair_A := Some a; pair_B := b |}) bs) |} in
     (let* _ := fst (chassis_post _baseurl send "map" (req_json req)) in Ok tt,
      [req])).
Proof.
  intros Ha Hbs. unfold map_uni. rewrite Ha. cbn [bind].
  rewrite (mapM_fmap _portid (fun b => {| pair_A := Some a; pair_B := b |})).
  rewrite Hbs. reflexivity.
Qed.

Lemma map_uni_unresolved _baseurl send src dsts :
  (forall a, _portid src <> Ok a) \/ (forall bs, mapM _portid dsts <> Ok bs) ->
  snd (map_uni _baseurl send src dsts) = [].
Proof.
  intros H. unfold map_uni.
  destruct (_portid src) as [a|] eqn:Ha; cbn [bind]; [|reflexivity].
  rewrite (mapM_fmap _portid (fun b => {| pair_A := Some a; pair_B := b |})).
  destruct (mapM _portid dsts) as [bs|] eqn:Hbs; [|reflexivity].
  destruct H as [H|H]; [now destruct (H a)|now destruct (H bs)].
Qed.

(** C8: [map_tap] is [map_uni].  When the source and every destination
    address resolve, either of them issues exactly one request, a POST of
    the map command with Direction "OneWay" and one pair per
    destination, whose A is the resolved source and whose B is the
    resolved destination; with two destinations that is one request with
    two pairs.  When an address does not resolve, neither issues any
    request. *)
Theorem tap_is_map_uni :
  (forall _baseurl send src dsts,
      map_tap _baseurl send src dsts = map_uni _baseurl send src dsts)
  /\ (forall _baseurl send src dsts a bs,
        _portid src = Ok a ->
        mapM _portid dsts = Ok bs ->
        let pairs := map (fun b => {| pair_A := Some a; pair_B := b |}) bs in
        snd (map_tap _baseurl send src dsts)
        = [{| req_method := POST;
              req_url := _baseurl +:+ "/chassis/do/map";
              req_json := MapBody "OneWay" pairs |}]
        /\ snd (map_uni _baseurl send src dsts)
           = snd (map_tap _baseurl send src dsts)
        /\ length pairs = length dsts)
  /\ (forall _baseurl send src d1 d2 a b1 b2,
        _portid src = Ok a -> _portid d1 = Ok b1 -> _portid d2 = Ok b2 ->
        snd (map_uni _baseurl send src [d1; d2])
        = [{| req_method := POST;
              req_url := _baseurl +:+ "/chassis/do/map";
              req_json :=
                MapBody "OneWay"
                  [{| pair_A := Some a; pair_B := b1 |};
                   {| pair_A := Some a; pair_B := b2 |}] |}])
  /\ (forall _baseurl send src dsts,
        (forall a, _portid src <> Ok a)
        \/ (forall bs, mapM _portid dsts <> Ok bs) ->
        snd (map_tap _baseurl send src dsts) = []
        /\ snd (map_uni _baseurl send src dsts) = []).
Proof.
  split; [reflexivity|]. split; [|split].
  - intros _baseurl send src dsts a bs Ha Hbs pairs. unfold map_tap.
    rewrite (map_uni_request _ _ _ _ _ _ Ha Hbs).
    split; [reflexivity|]. split; [reflexivity|].
    subst pairs. rewrite length_map. now apply mapM_length in Hbs.
  - intros _baseurl send src d1 d2 a b1 b2 Ha H1 H2.
    rewrite (map_uni_request _ _ _ _ a [b1; b2] Ha); [reflexivity|].
    simpl. now rewrite H1, H2.
  - intros _baseurl send src dsts H. unfold map_tap.
    split; now apply map_uni_unresolved.
Qed.

Lemma tap_is_map_uni_witness :
  snd (map_tap "https://192.168.42.240:8443"
         (fun _ => {| status_code := 204; resp_json := None |})
         "192.168.42.240/1/21" ["192.168.42.240/1/22"; "192.168.42.240/2/3_4"])
  = [{| req_method := POST;
        req_url := "https://192.168.42.240:8443/chassis/do/map";
        req_json :=
          MapBody "OneWay"
            [{| pair_A := Some "1.21"; pair_B := "1.22" |};
             {| pair_A := Some "1.21"; pair_B := "2.3:4" |}] |}]
  /\ snd (map_uni "" (fun _ => {| status_code := 204; resp_json := None |})
            "no-slash" ["192.168.42.240/1/22"]) = [].
Proof.
  destruct tap_is_map_uni as (_ & Hreq & _ & Hnone). split.
  - destruct (Hreq "https://192.168.42.240:8443"
                (fun _ => {| status_code := 204; resp_json := None |})
                "192.168.42.240/1/21"
                ["192.168.42.240/1/22"; "192.168.42.240/2/3_4"]
                "1.21" ["1.22"; "2.3:4"]) as [H _]; [reflexivity..|].
    exact H.
  - apply (Hnone "" (fun _ => {| status_code := 204; resp_json := None |})
             "no-slash" ["192.168.42.240/1/22"]).
    left. intros a. vm_compute. discriminate.
Defined.

(** A non-success answer with a structured body. *)
Lemma handle_error_device {A} (r : Response) fields error :
  resp_json r = Some (JObj fields) ->
  fields_get fields "Error" = Some error ->
  @_handle_error A r = raise (ColdFusionException error).
Proof.
  intros Hj He. unfold _handle_error, response_json. rewrite Hj. simpl.
  now rewrite He.
Qed.

Lemma handle_error_unstructured {A} (r : Response) :
  no_error_field r -> @_handle_error A r = raise_raise_for_status r.
Proof.
  unfold no_error_field, _handle_error, response_json.
  destruct (resp_json r) as [[| | | | |fields]|]; simpl; try reflexivity.
  now intros ->.
Qed.

Lemma handle_error_status {A} (r : Response) :
  no_error_field r ->
  400 <= status_code r < 600 ->
  @_handle_error A r = raise (HTTPError (status_code r)).
Proof.
  intros Hn Hs. rewrite handle_error_unstructured by assumption.
  unfold raise_raise_for_status, raise_for_status.
  destruct (Z.leb_spec 400 (status_code r)); [|lia].
  destruct (Z.ltb_spec (status_code r) 600); [reflexivity|lia].
Qed.

Lemma handle_error_other_status {A} (r : Response) :
  no_error_field r ->
  status_code r < 400 \/ 600 <= status_code r ->
  @_handle_error A r = raise TypeError.
Proof.
  intros Hn Hs. rewrite handle_error_unstructured by assumption.
  unfold raise_raise_for_status, raise_for_status.
  destruct (Z.leb_spec 400 (status_code r)); [|reflexivity].
  destruct (Z.ltb_spec (status_code r) 600); [lia|reflexivity].
Qed.

Lemma chassis_post_rejected _baseurl send api b :
  let r := send {| req_method := POST;
                   req_url := _baseurl +:+ "/chassis/do/" +:+ api;
                   req_json := b |} in
  status_code r <> 200 -> status_code r <> 204 ->
  fst (chassis_post _baseurl send api b) = _handle_error r.
Proof.
  intros r H200 H204. unfold chassis_post. cbn [fst]. fold r.
  destruct (Z.eqb_spec (status_code r) 200); [contradiction|].
  destruct (Z.eqb_spec (status_code r) 204); [contradiction|reflexivity].
Qed.

(** C7 at the failing input.  The device answers a map command with
    status 300 (or 202) and a body that is not JSON.  The command then
    raises TypeError, which carries no status code, where a 404 with the
    same body raises HTTPError 404 and a 409 with {"Error": "port busy"}
    raises ColdFusionException("port busy"). *)
Theorem unstructured_status_outside_4xx_5xx :
  forall _baseurl,
    let answer status (body : option json) :=
      fun _ : Request => {| status_code := status; resp_json := body |} in
    let cmd send :=
      fst (map_uni _baseurl send "192.168.42.240/1/21" ["192.168.42.240/1/22"]) in
    cmd (answer 300 None) = Raise TypeError []
    /\ cmd (answer 202 None) = Raise TypeError []
    /\ cmd (answer 404 None) = Raise (HTTPError 404) []
    /\ cmd (answer 409 (Some (JObj [("Error", JStr "port busy")])))
       = Raise (ColdFusionException (JStr "port busy")) []
    /\ cmd (answer 204 None) = Ok tt.
Proof.
  intros _baseurl answer cmd.
  repeat split; reflexivity.
Qed.

(** The commas of the padding expression: a one-character string is as
    long as its repeat count. *)
Lemma str_mul_comma maxsize can_allocate lane :
  0 <= maxsize ->
  str_mul maxsize can_allocate "," lane
  = if (lane <? - maxsize - 1) || (maxsize <? lane) then raise OverflowError
    else if (lane =? 1) || can_allocate (Z.max lane 0)
         then Ok (PStr (str_repeat "," lane))
         else raise MemoryError.
Proof.
  intros Hm. unfold str_mul.
  change (Z.of_nat (String.length ",")) with 1. rewrite Z.mul_1_l.
  destruct (Z.ltb_spec lane (- maxsize - 1)); [reflexivity|].
  destruct (Z.ltb_spec maxsize lane); [reflexivity|]. cbn [orb].
  destruct (Z.ltb_spec maxsize (Z.max lane 0)); [lia|].
  replace (Z.max lane 0 =? 1) with (lane =? 1); [reflexivity|].
  destruct (Z.eqb_spec lane 1), (Z.eqb_spec (Z.max lane 0) 1);
    try reflexivity; lia.
Qed.

(** The padding expression never yields a value: when the commas can be
    built, the subtraction is applied to a string. *)
Lemma padded_value_cases maxsize can_allocate lane attribute_value :
  0 <= maxsize ->
  padded_value maxsize can_allocate lane attribute_value
  = if (lane <? - maxsize - 1) || (maxsize <? lane) then raise OverflowError
    else if (lane =? 1) || can_allocate (Z.max lane 0) then raise TypeError
    else raise MemoryError.
Proof.
  intros Hm. unfold padded_value. cbn [py_mul].
  rewrite str_mul_comma by assumption.
  destruct ((lane <? - maxsize - 1) || (maxsize <? lane)); [reflexivity|].
  destruct ((lane =? 1) || can_allocate (Z.max lane 0)); reflexivity.
Qed.

Lemma set_attribute_value_laned _baseurl send maxsize can_allocate
    cs_address name value linecard port lane :
  0 <= maxsize ->
  _linecard_port_lane cs_address = Ok (linecard, port, Some lane) ->
  lane <> 0 ->
  set_attribute_value _baseurl send maxsize can_allocate cs_address name value
  = (if (lane <? - maxsize - 1) || (maxsize <? lane) then raise OverflowError
     else if (lane =? 1) || can_allocate (Z.max lane 0) then raise TypeError
     else raise MemoryError, []).
Proof.
  intros Hm Hp Hl. unfold set_attribute_value. rewrite Hp. cbn [bind].
  destruct (Z.eqb_spec lane 0); [contradiction|]. cbn [negb].
  rewrite padded_value_cases by assumption.
  destruct ((lane <? - maxsize - 1) || (maxsize <? lane)); [reflexivity|].
  destruct ((lane =? 1) || can_allocate (Z.max lane 0)); reflexivity.
Qed.

(** C9 at the failing input.  On an interpreter that can build a string
    of three commas, setting the speed of lane 3 of port 1/21 raises
    TypeError while the padded string is being built, and no request is
    issued.  The padding expression fails in the same way for every lane
    that fits an index-sized integer and whose commas can be allocated
    (lanes 1 to 4 among them).  The same command on the laneless address
    issues the PUT. *)
Theorem set_speed_on_lane_raises :
  forall _baseurl send maxsize can_allocate,
    3 <= maxsize -> can_allocate 3 = true ->
    set_attribute_value _baseurl send maxsize can_allocate
      "192.168.42.240/1/21_3" "speed" "10000"
    = (Raise TypeError [], [])
    /\ (forall lane value,
          - maxsize - 1 <= lane <= maxsize ->
          lane = 1 \/ can_allocate (Z.max lane 0) = true ->
          padded_value maxsize can_allocate lane value = Raise TypeError [])
    /\ snd (set_attribute_value _baseurl send maxsize can_allocate
              "192.168.42.240/1/21" "speed" "10000")
       = [{| req_method := PUT;
             req_url := _baseurl +:+ "/chassis/linecards/1/ports/21";
             req_json := SpeedBody "10000" |}].
Proof.
  intros _baseurl send maxsize can_allocate Hm Halloc. split; [|split].
  - rewrite (set_attribute_value_laned _ _ _ _ _ _ _ "1" "21" 3);
      [|lia|reflexivity|discriminate].
    destruct (Z.ltb_spec 3 (- maxsize - 1)); [lia|].
    destruct (Z.ltb_spec maxsize 3); [lia|].
    cbn [orb Z.eqb]. change (Z.max 3 0) with 3. now rewrite Halloc.
  - intros lane value Hr Ha. rewrite padded_value_cases by lia.
    destruct (Z.ltb_spec lane (- maxsize - 1)); [lia|].
    destruct (Z.ltb_spec maxsize lane); [lia|]. cbn [orb].
    destruct Ha as [-> | ->]; [reflexivity|].
    now rewrite orb_true_r.
  - reflexivity.
Qed.

Lemma set_speed_on_lane_raises_witness :
  set_attribute_value "https://h:8443"
    (fun _ => {| status_code := 204; resp_json := None |})
    9223372036854775807 (fun size => size <? 4294967296)
    "192.168.42.240/1/21_3" "speed" "10000"
  = (Raise TypeError [], [])
  /\ padded_value 9223372036854775807 (fun size => size <? 4294967296)
       4 "10000" = Raise TypeError [].
Proof.
  destruct (set_speed_on_lane_raises "https://h:8443"
              (fun _ => {| status_code := 204; resp_json := None |})
              9223372036854775807 (fun size => size <? 4294967296))
    as (H3 & Hall & _); [lia|reflexivity|].
  split; [exact H3|].
  apply Hall; [lia|right; reflexivity].
Defined.

(* ================================================================= *)
(** * Discovery is all-or-nothing *)

(** A description is returned only when both passes ran to the end. *)
Lemma discovery_Ok_inv dev address rd :
  get_resource_description dev address = Ok rd ->
  exists chassis_json built,
    dev_chassis dev = Ok chassis_json
    /\ build_blades dev 0 (cj_Linecards chassis_json) = Ok built
    /\ chassis_blades (rd_chassis rd) = map fst built
    /\ concat_mapM (link_blade dev (map snd built)) (map snd built)
       = Ok (rd_mappings rd)
    /\ forall item, item ∈ map snd built ->
         exists part, link_blade dev (map snd built) item = Ok part.
Proof.
  unfold get_resource_description. intros H.
  destruct (dev_chassis dev) as [cj|]; [|discriminate]. cbn [bind] in H.
  destruct (build_blades dev 0 (cj_Linecards cj)) as [built|] eqn:Hb;
    [|discriminate].
  cbn [bind] in H.
  destruct (concat_mapM _ _) as [ms|] eqn:Hms; [|discriminate].
  cbn [bind] in H. injection H as <-. exists cj, built.
  split; [reflexivity|]. split; [exact Hb|]. split; [reflexivity|].
  split; [exact Hms|].
  intros item Hin. apply concat_mapM_Ok_inv in Hms as (parts & HF & _).
  apply list_elem_of_lookup in Hin as [i Hi].
  destruct (Forall2_lookup_l _ _ _ _ _ HF Hi) as (part & _ & Hpart). eauto.
Qed.

(** The first linecard whose mapping pass raises makes the whole call
    raise the same exception, with the same logged diagnostics. *)
Lemma link_error_is_fatal dev address chassis_json built l1 item l2 e d :
  dev_chassis dev = Ok chassis_json ->
  build_blades dev 0 (cj_Linecards chassis_json) = Ok built ->
  map snd built = l1 ++ item :: l2 ->
  (forall b, b ∈ l1 -> exists part, link_blade dev (map snd built) b = Ok part) ->
  link_blade dev (map snd built) item = Raise e d ->
  get_resource_description dev address = Raise e d.
Proof.
  intros Hcj Hb Hsplit Hl1 Hitem. unfold get_resource_description.
  rewrite Hcj. cbn [bind]. rewrite Hb. cbn [bind].
  rewrite Hsplit at 2. rewrite (concat_mapM_Raise _ l1 item l2 e d Hl1 Hitem).
  reflexivity.
Qed.

(* ================================================================= *)
(** * Further facts about the string primitives *)

Lemma find_char_absent c s : count_char c s = O -> find_char c s = -1.
Proof.
  induction s as [|x s IH]; simpl; [reflexivity|].
  destruct (Ascii.eqb x c); [discriminate|].
  intros H. now rewrite (IH H).
Qed.

Lemma find_char_app c a b :
  count_char c a = O ->
  find_char c (a +:+ String c b) = Z.of_nat (String.length a).
Proof.
  induction a as [|x a IH].
  - intros _. simpl. now rewrite Ascii.eqb_refl.
  - change (String x a +:+ String c b) with (String x (a +:+ String c b)).
    cbn [count_char find_char String.length].
    destruct (Ascii.eqb x c); [discriminate|].
    intros H. rewrite (IH H).
    destruct (Z.ltb_spec (Z.of_nat (String.length a)) 0); lia.
Qed.

Lemma substring_all s : String.substring 0 (String.length s) s = s.
Proof. induction s as [|x s IH]; simpl; [reflexivity|]. now rewrite IH. Qed.

Lemma substring_prefix a b :
  String.substring 0 (String.length a) (a +:+ b) = a.
Proof.
  induction a as [|x a IH]; simpl; [now destruct b|]. now rewrite IH.
Qed.

Lemma substring_skip a b n :
  String.substring (String.length a) n (a +:+ b) = String.substring 0 n b.
Proof. induction a as [|x a IH]; simpl; [reflexivity|]. exact IH. Qed.

Lemma string_length_app a b :
  String.length (a +:+ b) = (String.length a + String.length b)%nat.
Proof. induction a as [|x a IH]; simpl; [reflexivity|]. now rewrite IH. Qed.

Lemma str_slice_to_app c a b :
  str_slice_to (a +:+ String c b) (Z.of_nat (String.length a)) = a.
Proof. unfold str_slice_to. rewrite Nat2Z.id. apply substring_prefix. Qed.

Lemma string_app_snoc c a b :
  (a +:+ String c EmptyString) +:+ b = a +:+ String c b.
Proof.
  induction a as [|x a IH]; [reflexivity|].
  change ((String x a +:+ String c EmptyString) +:+ b)
    with (String x ((a +:+ String c EmptyString) +:+ b)).
  now rewrite IH.
Qed.

Lemma str_slice_from_app c a b :
  str_slice_from (a +:+ String c b) (Z.of_nat (String.length a) + 1) = b.
Proof.
  unfold str_slice_from.
  replace (Z.to_nat (Z.of_nat (String.length a) + 1))
    with (String.length (a +:+ String c EmptyString))
    by (rewrite string_length_app; simpl; lia).
  rewrite <- (string_app_snoc c a b).
  rewrite substring_skip, string_length_app.
  replace (String.length (a +:+ String c EmptyString) + String.length b
           - String.length (a +:+ String c EmptyString))%nat
    with (String.length b) by lia.
  apply substring_all.
Qed.

Lemma replace_char_absent a b s :
  count_char a s = O -> replace_char a b s = s.
Proof.
  induction s as [|x s IH]; simpl; [reflexivity|].
  destruct (Ascii.eqb x a); [discriminate|]. intros H. now rewrite (IH H).
Qed.

Lemma replace_char_app a b s t :
  replace_char a b (s +:+ t) = replace_char a b s +:+ replace_char a b t.
Proof. induction s as [|x s IH]; simpl; [reflexivity|]. now rewrite IH. Qed.

Lemma count_char_lt_split c s n :
  (count_char c s < n)%nat -> (length (split_on c s) <= n)%nat.
Proof. rewrite split_on_length. lia. Qed.

Lemma py_getitem_out {A} (l : list A) i :
  Z.of_nat (length l) <= i -> py_getitem l i = raise IndexError.
Proof.
  intros H. unfold py_getitem.
  destruct (Z.ltb_spec i 0); [lia|].
  destruct (Z.ltb_spec i 0); [lia|].
  destruct (Z.leb_spec (Z.of_nat (length l)) i); [|lia].
  now rewrite orb_true_r.
Qed.

Lemma py_getitem_nth {A} (l : list A) (i : nat) x :
  l !! i = Some x -> py_getitem l (Z.of_nat i) = Ok x.
Proof.
  intros H. unfold py_getitem. pose proof (lookup_lt_Some _ _ _ H) as Hl.
  destruct (Z.ltb_spec (Z.of_nat i) 0); [lia|].
  destruct (Z.ltb_spec (Z.of_nat i) 0); [lia|].
  destruct (Z.leb_spec (Z.of_nat (length l)) (Z.of_nat i)); [lia|].
  simpl. now rewrite Nat2Z.id, H.
Qed.

(* ================================================================= *)
(** * Address codec: decoders and round trips *)

Lemma py_int_of_digits s v :
  is_digits s = true -> digits_value s = Some v -> py_int s = Ok v.
Proof.
  intros H Hv. pose proof (is_digits_nospace s H) as Hsp.
  apply is_digits_spec in H as [Hd Hne].
  unfold py_int. rewrite strip_id by assumption.
  destruct s as [|c s]; [congruence|].
  simpl in Hd. apply andb_true_iff in Hd as [Hc _].
  destruct (is_digit_char c Hc) as (_ & -> & -> & _).
  now rewrite Hv.
Qed.

Lemma fmt02_digits port : 0 <= port -> is_digits (fmt02 port) = true.
Proof.
  intros H. unfold fmt02. destruct (Z.ltb_spec port 0); [lia|].
  pose proof (py_str_nonneg_digits port H) as Hd.
  destruct (_ <? _)%nat; [|assumption].
  apply is_digits_spec in Hd as [Hd _]. apply is_digits_spec.
  split; [simpl; now rewrite Hd|discriminate].
Qed.

Lemma py_int_fmt02 port : 0 <= port -> py_int (fmt02 port) = Ok port.
Proof.
  intros H. apply py_int_of_digits;
    [now apply fmt02_digits|now apply digits_value_fmt02].
Qed.

Lemma split_on_three c a b rest :
  count_char c a = O -> count_char c b = O ->
  split_on c (a +:+ String c EmptyString +:+ b +:+ String c EmptyString +:+ rest)
  = a :: b :: split_on c rest.
Proof.
  intros Ha Hb. rewrite !sep_app.
  rewrite (split_on_app c a) by assumption.
  now rewrite (split_on_app c b) by assumption.
Qed.

Lemma portid_lane_fields dev lc port lane :
  count_char "/" dev = O -> count_char "/" lc = O ->
  count_char "/" port = O -> count_char "/" lane = O ->
  count_char "_" port = O -> count_char "_" lane = O ->
  _portid (dev +:+ "/" +:+ lc +:+ "/" +:+ port +:+ "_" +:+ lane)
  = Ok (lc +:+ "." +:+ port +:+ ":" +:+ lane).
Proof.
  intros Hd Hl Hp Hn Hp' Hn'.
  rewrite (portid_fields dev lc (port +:+ "_" +:+ lane)); try assumption.
  - rewrite !replace_char_app.
    rewrite (replace_char_absent "_" ":" port Hp').
    rewrite (replace_char_absent "_" ":" lane Hn'). reflexivity.
  - rewrite !count_char_app, Hp, Hn. reflexivity.
Qed.

Lemma portid_extra_segments dev lc p rest :
  count_char "/" dev = O -> count_char "/" lc = O -> count_char "/" p = O ->
  _portid (dev +:+ "/" +:+ lc +:+ "/" +:+ p +:+ "/" +:+ rest)
  = Ok (lc +:+ "." +:+ replace_char "_" ":" p).
Proof.
  intros Hd Hl Hp. unfold _portid.
  rewrite split_on_three by assumption.
  rewrite sep_app, (split_on_app "/" p) by assumption.
  pose proof (py_getitem_nth (dev :: lc :: p :: split_on "/" rest) 1 lc eq_refl)
    as H1.
  pose proof (py_getitem_nth (dev :: lc :: p :: split_on "/" rest) 2 p eq_refl)
    as H2.
  change (Z.of_nat 1) with 1 in H1. change (Z.of_nat 2) with 2 in H2.
  now rewrite H1, H2.
Qed.

Lemma portid_short address :
  (count_char "/" address < 2)%nat -> _portid address = raise IndexError.
Proof.
  intros H. unfold _portid.
  pose proof (split_on_length "/" address) as Hlen.
  destruct (split_on "/" address) as [|p0 [|p1 [|p2 t]]];
    simpl in Hlen; try reflexivity; lia.
Qed.

(** X1: [_portid] turns the external address "<device>/<linecard>/<port>"
    into "<linecard>.<port>" with every "_" of the port part replaced by
    ":", so "<port>_<lane>" becomes "<port>:<lane>"; the device part and
    any segment after the third are ignored.  An address with fewer than
    two "/" raises IndexError. *)
Theorem portid_resolution :
  (forall dev lc p,
      count_char "/" dev = O -> count_char "/" lc = O -> count_char "/" p = O ->
      _portid (dev +:+ "/" +:+ lc +:+ "/" +:+ p)
      = Ok (lc +:+ "." +:+ replace_char "_" ":" p))
  /\ (forall dev lc port lane,
        count_char "/" dev = O -> count_char "/" lc = O ->
        count_char "/" port = O -> count_char "/" lane = O ->
        count_char "_" port = O -> count_char "_" lane = O ->
        _portid (dev +:+ "/" +:+ lc +:+ "/" +:+ port +:+ "_" +:+ lane)
        = Ok (lc +:+ "." +:+ port +:+ ":" +:+ lane))
  /\ (forall dev lc p rest,
        count_char "/" dev = O -> count_char "/" lc = O ->
        count_char "/" p = O ->
        _portid (dev +:+ "/" +:+ lc +:+ "/" +:+ p +:+ "/" +:+ rest)
        = Ok (lc +:+ "." +:+ replace_char "_" ":" p))
  /\ (forall address,
        (count_char "/" address < 2)%nat -> _portid address = raise IndexError).
Proof.
  split; [exact portid_fields|]. split; [exact portid_lane_fields|].
  split; [exact portid_extra_segments|exact portid_short].
Qed.

Lemma portid_resolution_witness :
  _portid "192.168.42.240/1/21_3" = Ok "1.21:3"
  /\ _portid "192.168.42.240/1/21/extra" = Ok "1.21"
  /\ _portid "192.168.42.240/1" = raise IndexError.
Proof.
  destruct portid_resolution as (_ & Hlane & Hrest & Hshort).
  split; [|split].
  - apply (Hlane "192.168.42.240" "1" "21" "3"); reflexivity.
  - apply (Hrest "192.168.42.240" "1" "21" "extra"); reflexivity.
  - apply (Hshort "192.168.42.240/1"). vm_compute. lia.
Defined.

Lemma py_int_raises s e d : py_int s = Raise e d -> e = ValueError /\ d = [].
Proof.
  unfold py_int.
  destruct (match strip s with
            | EmptyString => _
            | String c rest => _
            end) as [neg t].
  destruct (digits_value t); [discriminate|].
  intros H. now injection H as <- <-.
Qed.

Lemma linecard_port_lane_laned dev lc port lane :
  count_char "/" dev = O -> count_char "/" lc = O ->
  count_char "/" port = O -> count_char "/" lane = O ->
  count_char "_" port = O ->
  _linecard_port_lane (dev +:+ "/" +:+ lc +:+ "/" +:+ port +:+ "_" +:+ lane)
  = let* n := py_int lane in Ok (lc, port, Some n).
Proof.
  intros Hd Hl Hp Hn Hp'. unfold _linecard_port_lane.
  rewrite !sep_app, (split_on_app "/" dev), (split_on_app "/" lc) by assumption.
  rewrite split_on_absent
    by (rewrite count_char_app; simpl; now rewrite Hp, Hn).
  change (py_getitem [dev; lc; port +:+ String "_" lane] 1) with (Ok (A:=string) lc).
  change (py_getitem [dev; lc; port +:+ String "_" lane] 2)
    with (Ok (port +:+ String "_" lane)).
  cbn [bind]. rewrite (find_char_app "_" port lane Hp').
  destruct (Z.leb_spec 0 (Z.of_nat (String.length port))); [|lia].
  now rewrite str_slice_from_app, str_slice_to_app.
Qed.

Lemma linecard_port_lane_plain dev lc port :
  count_char "/" dev = O -> count_char "/" lc = O ->
  count_char "/" port = O -> count_char "_" port = O ->
  _linecard_port_lane (dev +:+ "/" +:+ lc +:+ "/" +:+ port) = Ok (lc, port, None).
Proof.
  intros Hd Hl Hp Hp'. unfold _linecard_port_lane.
  rewrite !sep_app, (split_on_app "/" dev), (split_on_app "/" lc) by assumption.
  rewrite (split_on_absent "/" port) by assumption.
  change (py_getitem [dev; lc; port] 1) with (Ok (A:=string) lc).
  change (py_getitem [dev; lc; port] 2) with (Ok port).
  cbn [bind]. now rewrite (find_char_absent "_" port Hp').
Qed.

Lemma linecard_port_lane_short address :
  (count_char "/" address < 2)%nat ->
  _linecard_port_lane address = raise IndexError.
Proof.
  intros H. unfold _linecard_port_lane.
  pose proof (split_on_length "/" address) as Hlen.
  destruct (split_on "/" address) as [|p0 [|p1 [|p2 t]]];
    simpl in Hlen; try reflexivity; lia.
Qed.

(** X2: [_linecard_port_lane] splits "<device>/<linecard>/<port>_<lane>"
    into the linecard and port texts, unchanged, and the lane read as an
    integer; without a "_" the lane is [None].  A lane text that is not
    an integer raises ValueError, and an address with fewer than two "/"
    raises IndexError. *)
Theorem linecard_port_lane_decoding :
  (forall dev lc port lane,
      count_char "/" dev = O -> count_char "/" lc = O ->
      count_char "/" port = O -> count_char "/" lane = O ->
      count_char "_" port = O ->
      _linecard_port_lane (dev +:+ "/" +:+ lc +:+ "/" +:+ port +:+ "_" +:+ lane)
      = match py_int lane with
        | Ok n => Ok (lc, port, Some n)
        | Raise _ _ => raise ValueError
        end)
  /\ (forall dev lc port,
        count_char "/" dev = O -> count_char "/" lc = O ->
        count_char "/" port = O -> count_char "_" port = O ->
        _linecard_port_lane (dev +:+ "/" +:+ lc +:+ "/" +:+ port)
        = Ok (lc, port, None))
  /\ (forall address,
        (count_char "/" address < 2)%nat ->
        _linecard_port_lane address = raise IndexError).
Proof.
  split; [|split;
           [exact linecard_port_lane_plain|exact linecard_port_lane_short]].
  intros dev lc port lane Hd Hl Hp Hn Hp'.
  rewrite linecard_port_lane_laned by assumption.
  destruct (py_int lane) as [n|e d] eqn:E; [reflexivity|].
  now apply py_int_raises in E as [-> ->].
Qed.

Lemma linecard_port_lane_decoding_witness :
  _linecard_port_lane "192.168.42.240/1/21_3" = Ok ("1", "21", Some 3)
  /\ _linecard_port_lane "192.168.42.240/1/21_x" = raise ValueError
  /\ _linecard_port_lane "192.168.42.240/1/21" = Ok ("1", "21", None)
  /\ _linecard_port_lane "no-slash" = raise IndexError.
Proof.
  destruct linecard_port_lane_decoding as (Hlane & Hplain & Hshort).
  split; [|split; [|split]].
  - apply (Hlane "192.168.42.240" "1" "21" "3"); reflexivity.
  - apply (Hlane "192.168.42.240" "1" "21" "x"); reflexivity.
  - apply (Hplain "192.168.42.240" "1" "21"); reflexivity.
  - apply (Hshort "no-slash"). vm_compute. lia.
Defined.

Lemma py_str_no_char c z :
  is_numeric c = false -> count_char c (py_str z) = O.
Proof. intros H. apply (str_all_absent is_numeric); [assumption|apply py_str_numeric]. Qed.

Lemma fmt02_no_char c z :
  is_numeric c = false -> count_char c (fmt02 z) = O.
Proof. intros H. apply (str_all_absent is_numeric); [assumption|apply fmt02_numeric]. Qed.

(** X3: the port ids discovery hands out are understood by the command
    side.  For a linecard number [lc], a port number [port] and a lane
    [lane >= 1], the address "<device>/<lc>/<id>" built from the id
    [_qport port lane] is resolved by [_portid] to a token that
    [_parse_lport] reads back as (lc, port, lane), and
    [_linecard_port_lane] recovers the same lane.  For the laneless id
    the token parses with the sentinel lane -1 and the decoder returns
    no lane. *)
Theorem discovered_id_round_trip :
  forall dev lc port,
    count_char "/" dev = O -> 0 <= lc -> 0 <= port ->
    (forall lane, 1 <= lane ->
       let address := dev +:+ "/" +:+ py_str lc +:+ "/" +:+ _qport port (Some lane) in
       (let* tok := _portid address in _parse_lport tok) = Ok (lc, port, lane)
       /\ _linecard_port_lane address = Ok (py_str lc, fmt02 port, Some lane))
    /\ (let address := dev +:+ "/" +:+ py_str lc +:+ "/" +:+ _qport port None in
        (let* tok := _portid address in _parse_lport tok) = Ok (lc, port, -1)
        /\ _linecard_port_lane address = Ok (py_str lc, fmt02 port, None)).
Proof.
  intros dev lc port Hdev Hlc Hport.
  assert (Hs : forall z, count_char "/" (py_str z) = O)
    by (intros z; now apply py_str_no_char).
  assert (Hf : count_char "/" (fmt02 port) = O) by now apply fmt02_no_char.
  assert (Hint : py_int (py_str lc) = Ok lc) by apply py_int_py_str.
  pose proof (py_int_fmt02 port Hport) as Hintp.
  assert (Hdots : count_char "." (py_str lc) = O /\ count_char "." (fmt02 port) = O
                  /\ count_char ":" (fmt02 port) = O).
  { repeat split; [apply py_str_no_char|apply fmt02_no_char..]; reflexivity. }
  destruct Hdots as (Hd1 & Hd2 & Hd3).
  split.
  - intros lane Hlane address. subst address.
    rewrite qport_laned by assumption. split.
    + rewrite (portid_lane_fields dev (py_str lc) (fmt02 port) (py_str lane)); auto;
        try apply fmt02_no_underscore; try apply py_str_no_underscore.
      cbn [bind].
      apply (parse_lport_fields (py_str lc) (fmt02 port) (py_str lane));
        try assumption; try apply py_int_py_str;
        apply py_str_no_char; reflexivity.
    + rewrite (linecard_port_lane_laned dev (py_str lc) (fmt02 port) (py_str lane)); auto;
        try apply fmt02_no_underscore.
      now rewrite py_int_py_str.
  - intros address. subst address.
    change (_qport port None) with (fmt02 port). split.
    + rewrite (portid_fields dev (py_str lc) (fmt02 port)); auto.
      rewrite replace_char_absent by apply fmt02_no_underscore.
      cbn [bind].
      apply (parse_lport_fields (py_str lc) (fmt02 port) "0" lc port 0);
        try assumption; reflexivity.
    + apply (linecard_port_lane_plain dev (py_str lc) (fmt02 port)); auto.
      apply fmt02_no_underscore.
Qed.

Lemma discovered_id_round_trip_witness :
  (let* tok := _portid ("192.168.42.240/3/" +:+ _qport 5 (Some 2)) in
   _parse_lport tok) = Ok (3, 5, 2)
  /\ _linecard_port_lane ("192.168.42.240/3/" +:+ _qport 5 None)
     = Ok ("3", "05", None).
Proof.
  destruct (discovered_id_round_trip "192.168.42.240" 3 5) as [Hlane Hplain];
    [reflexivity|lia|lia|].
  split.
  - apply (Hlane 2). lia.
  - apply Hplain.
Defined.

Lemma count_char_sep_app (c x : ascii) s t :
  count_char c (s +:+ String x EmptyString +:+ t)
  = (count_char c s + (if Ascii.eqb x c then 1 else 0) + count_char c t)%nat.
Proof.
  rewrite !count_char_app. simpl. destruct (Ascii.eqb x c); lia.
Qed.

Lemma qport_inj_aux p p' l l' :
  0 <= p -> 0 <= p' ->
  (forall n, l = Some n -> 1 <= n) -> (forall n, l' = Some n -> 1 <= n) ->
  _qport p l = _qport p' l' -> p = p' /\ l = l'.
Proof.
  intros Hp Hp' Hl Hl' H.
  assert (Hpp : p = p').
  { apply (f_equal (fun s => hd EmptyString (split_on "_" s))) in H.
    rewrite !qport_port_part in H. now apply fmt02_inj. }
  subst p'. split; [reflexivity|].
  pose proof (f_equal (count_char "_") H) as Hc.
  rewrite !qport_underscores in Hc.
  destruct l as [n|], l' as [n'|]; try reflexivity.
  - specialize (Hl n eq_refl). specialize (Hl' n' eq_refl).
    rewrite !qport_laned in H by assumption.
    apply string_app_inv_head in H. injection H as H.
    apply py_str_inj in H. now subst.
  - specialize (Hl n eq_refl). destruct (Z.leb_spec 1 n); [discriminate|lia].
  - specialize (Hl' n' eq_refl). destruct (Z.leb_spec 1 n'); [discriminate|lia].
Qed.

(** X5: [_qport] is injective on port keys: two keys (port, lane), with
    non-negative port numbers and lanes that are absent or at least 1,
    get the same id only if they are the same key.  Lanes below 1 are
    not distinguished from the absent lane. *)
Theorem qport_injective :
  (forall p p' l l',
      0 <= p -> 0 <= p' ->
      (forall n, l = Some n -> 1 <= n) -> (forall n, l' = Some n -> 1 <= n) ->
      _qport p l = _qport p' l' -> p = p' /\ l = l')
  /\ (forall p n, n < 1 -> _qport p (Some n) = _qport p None).
Proof.
  split; [exact qport_inj_aux|].
  intros p n H. now rewrite qport_unlaned.
Qed.

Lemma qport_injective_witness :
  (_qport 5 (Some 2) = _qport 5 (Some 2) -> 5 = 5 /\ Some 2 = Some 2)
  /\ _qport 7 (Some 0) = _qport 7 None.
Proof.
  destruct qport_injective as [Hinj Hlow]. split.
  - apply (Hinj 5 5 (Some 2) (Some 2)); try lia;
      intros n Hn; injection Hn as <-; lia.
  - apply (Hlow 7 0). lia.
Defined.

(** X4: [_qport_abs] prefixes the linecard to what [_qport] returns
    whenever the lane is absent or non-negative.  The two differ on a
    negative lane: [_qport] drops it, [_qport_abs] keeps it as a tag, so
    the sentinel -1 gives "<lc>.<port>_-1". *)
Theorem qport_abs_vs_qport :
  (forall lc port, _qport_abs lc port None = py_str lc +:+ "." +:+ _qport port None)
  /\ (forall lc port lane, 0 <= lane ->
        _qport_abs lc port (Some lane)
        = py_str lc +:+ "." +:+ _qport port (Some lane))
  /\ (forall lc port lane, lane < 0 ->
        _qport_abs lc port (Some lane)
        = py_str lc +:+ "." +:+ fmt02 port +:+ "_" +:+ py_str lane
        /\ _qport_abs lc port (Some lane)
           <> py_str lc +:+ "." +:+ _qport port (Some lane)).
Proof.
  split; [reflexivity|]. split.
  - intros lc port lane H. unfold _qport_abs, _qport.
    destruct (Z.eqb_spec lane 0) as [->|Hne]; [reflexivity|].
    destruct (Z.leb_spec 1 lane); [reflexivity|lia].
  - intros lc port lane H.
    assert (Habs : _qport_abs lc port (Some lane)
                   = py_str lc +:+ "." +:+ fmt02 port +:+ "_" +:+ py_str lane).
    { unfold _qport_abs. destruct (Z.eqb_spec lane 0); [lia|reflexivity]. }
    split; [exact Habs|].
    rewrite Habs, qport_unlaned by lia. intros Heq.
    apply (f_equal (count_char "_")) in Heq.
    rewrite !count_char_sep_app, !py_str_no_underscore, !fmt02_no_underscore
      in Heq.
    simpl in Heq. lia.
Qed.

Lemma qport_abs_vs_qport_witness :
  _qport_abs 3 5 (Some 2) = "3." +:+ _qport 5 (Some 2)
  /\ _qport_abs 3 5 (Some (-1)) = "3.05_-1".
Proof.
  destruct qport_abs_vs_qport as (_ & Hpos & Hneg). split.
  - apply (Hpos 3 5 2). lia.
  - apply (Hneg 3 5 (-1)). lia.
Defined.

(* ================================================================= *)
(** * Session set-up *)

Lemma prefix_count c needle hay :
  String.prefix needle hay = true ->
  (count_char c needle <= count_char c hay)%nat.
Proof.
  revert hay. induction needle as [|a needle IH]; intros hay H; [simpl; lia|].
  destruct hay as [|b hay]; [discriminate|]. simpl in H.
  destruct (ascii_dec a b) as [->|]; [|discriminate].
  specialize (IH hay H). simpl. destruct (Ascii.eqb b c); lia.
Qed.

Lemma str_contains_count c needle hay :
  str_contains needle hay = true ->
  (count_char c needle <= count_char c hay)%nat.
Proof.
  induction hay as [|b hay IH].
  - change (str_contains needle EmptyString)
      with (String.prefix needle EmptyString || false).
    rewrite orb_false_r. apply prefix_count.
  - change (str_contains needle (String b hay))
      with (String.prefix needle (String b hay) || str_contains needle hay).
    rewrite orb_true_iff. intros [H|H].
    + now apply prefix_count.
    + specialize (IH H). simpl. destruct (Ascii.eqb b c); lia.
Qed.

Lemma str_contains_app needle hay rest :
  String.prefix needle hay = true -> str_contains needle (hay +:+ rest) = true.
Proof.
  intros H.
  assert (Hp : String.prefix needle (hay +:+ rest) = true).
  { revert hay H. induction needle as [|a needle IH]; intros hay H;
      [now destruct (hay +:+ rest)|].
    destruct hay as [|b hay]; [discriminate|]. simpl in H.
    change (String b hay +:+ rest) with (String b (hay +:+ rest)). simpl.
    destruct (ascii_dec a b); [now apply IH|discriminate]. }
  destruct (hay +:+ rest) as [|b t].
  - change (str_contains needle EmptyString)
      with (String.prefix needle EmptyString || false). now rewrite Hp.
  - change (str_contains needle (String b t))
      with (String.prefix needle (String b t) || str_contains needle t).
    now rewrite Hp.
Qed.

Lemma no_colon_no_scheme s :
  count_char ":" s = O -> str_contains "https://" s = false.
Proof.
  intros H. destruct (str_contains "https://" s) eqn:E; [|reflexivity].
  apply (str_contains_count ":") in E. simpl in E. lia.
Qed.

Lemma py_getitem_last {A} (l : list A) x :
  py_getitem (l ++ [x]) (-1) = Ok x.
Proof.
  unfold py_getitem. rewrite length_app. simpl length.
  change (-1 <? 0) with true. cbv iota.
  destruct (Z.ltb_spec (-1 + Z.of_nat (length l + 1)) 0); [lia|].
  destruct (Z.leb_spec (Z.of_nat (length l + 1)) (-1 + Z.of_nat (length l + 1)));
    [lia|].
  simpl. replace (Z.to_nat (-1 + Z.of_nat (length l + 1))) with (length l) by lia.
  now rewrite list_lookup_middle.
Qed.

Lemma split_on_snoc c s :
  exists init last_part,
    split_on c s = init ++ [last_part] /\ count_char c last_part = O.
Proof.
  induction s as [|x s (init & lp & IH & Hlp)]; simpl.
  - exists [], EmptyString. split; reflexivity.
  - destruct (Ascii.eqb x c) eqn:E.
    + exists (EmptyString :: init), lp. rewrite IH. split; [reflexivity|assumption].
    + rewrite IH. destruct init as [|h t]; simpl.
      * exists [], (String x lp). split; [reflexivity|]. simpl. now rewrite E.
      * exists (String x h :: t), lp. split; [reflexivity|assumption].
Qed.

(** [login] settles on a base URL for every address: the failed [int()]
    is caught and nothing else can raise. *)
Lemma login_address_port_total address :
  exists a p, login_address_port address = Ok (a, p).
Proof.
  unfold login_address_port.
  destruct (split_on_snoc ":" address) as (init & lp & Hs & _).
  rewrite Hs, py_getitem_last. cbn [bind].
  destruct (py_int lp) as [n|e d] eqn:E; cbn [bind except_ValueError]; [eauto|].
  apply py_int_raises in E as [-> ->]. simpl. eauto.
Qed.

Lemma login_address_port_plain address :
  count_char ":" address = O ->
  login_address_port address
  = match py_int address with
    | Ok port => Ok (EmptyString, port)
    | Raise _ _ => Ok (address, 8443)
    end.
Proof.
  intros H. unfold login_address_port. rewrite split_on_absent by assumption.
  change (py_getitem [address] (-1)) with (Ok address). cbn [bind].
  destruct (py_int address) as [n|e d] eqn:E; [reflexivity|].
  now apply py_int_raises in E as [-> ->].
Qed.

Lemma login_address_port_explicit host port_text :
  count_char ":" host = O -> count_char ":" port_text = O ->
  login_address_port (host +:+ ":" +:+ port_text)
  = match py_int port_text with
    | Ok port => Ok (host, port)
    | Raise _ _ => Ok (host +:+ ":" +:+ port_text, 8443)
    end.
Proof.
  intros Hh Hp. unfold login_address_port.
  rewrite sep_app, (split_on_app ":" host), (split_on_absent ":" port_text)
    by assumption.
  change (py_getitem [host; port_text] (-1)) with (Ok port_text). cbn [bind].
  destruct (py_int port_text) as [n|e d] eqn:E; [reflexivity|].
  now apply py_int_raises in E as [-> ->].
Qed.

Lemma login_address_port_scheme host port_text :
  count_char ":" host = O -> count_char ":" port_text = O ->
  login_address_port ("https://" +:+ host +:+ ":" +:+ port_text)
  = match py_int port_text with
    | Ok port => Ok ("https://" +:+ host, port)
    | Raise _ _ => Ok ("https://" +:+ host +:+ ":" +:+ port_text, 8443)
    end.
Proof.
  intros Hh Hp. unfold login_address_port.
  change ("https://" +:+ host +:+ ":" +:+ port_text)
    with ("https" +:+ String ":" (("//" +:+ host) +:+ String ":" port_text)).
  rewrite (split_on_app ":" "https") by reflexivity.
  rewrite (split_on_app ":" ("//" +:+ host)) by (simpl; exact Hh).
  rewrite (split_on_absent ":" port_text) by assumption.
  change (py_getitem ["https"; "//" +:+ host; port_text] (-1)) with (Ok port_text).
  cbn [bind].
  destruct (py_int port_text) as [n|e d] eqn:E; [reflexivity|].
  now apply py_int_raises in E as [-> ->].
Qed.

(** X6: the base URL [login] builds.  Every address yields one.  An
    address without ":" that is not an integer gets the default port
    8443; "host:port" with an integer port gets that port, rendered
    without leading zeros or sign "+"; an address that already starts
    with "https://" is not prefixed again.  An address without ":" that is
    itself an integer is taken for the port, leaving the host empty. *)
Theorem login_baseurl_cases :
  (forall address, exists url, login_baseurl address = Ok url)
  /\ (forall address e d,
        count_char ":" address = O -> py_int address = Raise e d ->
        login_baseurl address = Ok ("https://" +:+ address +:+ ":8443"))
  /\ (forall host port_text port,
        count_char ":" host = O -> count_char ":" port_text = O ->
        py_int port_text = Ok port ->
        login_baseurl (host +:+ ":" +:+ port_text)
        = Ok ("https://" +:+ host +:+ ":" +:+ py_str port)
        /\ login_baseurl ("https://" +:+ host +:+ ":" +:+ port_text)
           = Ok ("https://" +:+ host +:+ ":" +:+ py_str port))
  /\ (forall address port,
        count_char ":" address = O -> py_int address = Ok port ->
        login_baseurl address = Ok ("https://:" +:+ py_str port)).
Proof.
  split; [|split; [|split]].
  - intros address. unfold login_baseurl.
    destruct (login_address_port_total address) as (a & p & ->). cbn [bind].
    eauto.
  - intros address e d Hc He. unfold login_baseurl.
    rewrite login_address_port_plain, He by assumption. cbn [bind].
    now rewrite no_colon_no_scheme.
  - intros host port_text port Hh Hp Hi. split; unfold login_baseurl.
    + rewrite login_address_port_explicit, Hi by assumption. cbn [bind].
      now rewrite no_colon_no_scheme.
    + rewrite login_address_port_scheme, Hi by assumption. cbn [bind].
      now rewrite (str_contains_app "https://" "https://" host).
  - intros address port Hc Hi. unfold login_baseurl.
    rewrite login_address_port_plain, Hi by assumption. reflexivity.
Qed.

Lemma login_baseurl_cases_witness :
  login_baseurl "192.168.42.240" = Ok "https://192.168.42.240:8443"
  /\ login_baseurl "cf.lab:0443" = Ok "https://cf.lab:443"
  /\ login_baseurl "https://cf.lab:9000" = Ok "https://cf.lab:9000"
  /\ login_baseurl "8443" = Ok "https://:8443".
Proof.
  destruct login_baseurl_cases as (_ & Hdef & Hport & Hint).
  split; [|split; [|split]].
  - apply (Hdef "192.168.42.240" ValueError []); reflexivity.
  - apply (Hport "cf.lab" "0443" 443); reflexivity.
  - apply (Hport "cf.lab" "9000" 9000); reflexivity.
  - apply (Hint "8443" 8443); reflexivity.
Defined.

(* ================================================================= *)
(** * Reading from the device *)

Lemma raise_raise_for_status_cases {A} (r : Response) :
  @raise_raise_for_status A r
  = if (400 <=? status_code r) && (status_code r <? 600)
    then raise (HTTPError (status_code r)) else raise TypeError.
Proof.
  unfold raise_raise_for_status, raise_for_status.
  now destruct ((400 <=? status_code r) && (status_code r <? 600)).
Qed.

Lemma handle_error_never_Ok {A} (r : Response) (a : A) : _handle_error r <> Ok a.
Proof.
  unfold _handle_error.
  destruct (let* j := response_json r in json_getitem j "Error");
    [discriminate|].
  rewrite raise_raise_for_status_cases.
  now destruct ((400 <=? status_code r) && (status_code r <? 600)).
Qed.

Lemma chassis_get_cases _baseurl get api :
  let r := get (_baseurl +:+ "/chassis/" +:+ api) in
  chassis_get _baseurl get api
  = (if status_code r =? 200 then response_json r
     else if (400 <=? status_code r) && (status_code r <? 600)
          then raise (HTTPError (status_code r)) else raise TypeError,
     [_baseurl +:+ "/chassis/" +:+ api]).
Proof.
  intros r. unfold chassis_get. fold r.
  rewrite raise_raise_for_status_cases. now destruct (status_code r =? 200).
Qed.

(** X7: the read helper [chassis_get] fetches exactly one URL,
    "<base>/chassis/<api>".  It returns the decoded body only for status
    200 with a JSON body; status 200 with another body raises
    ValueError; a 4xx or 5xx status raises HTTPError with that status;
    any other status raises TypeError.  In particular status 204, which
    [chassis_post] and [chassis_put] answer with an empty object, makes
    the read fail. *)
Theorem chassis_get_outcome :
  forall _baseurl get api,
    let url := _baseurl +:+ "/chassis/" +:+ api in
    let r := get url in
    snd (chassis_get _baseurl get api) = [url]
    /\ (forall j, fst (chassis_get _baseurl get api) = Ok j <->
                  status_code r = 200 /\ resp_json r = Some j)
    /\ (status_code r = 200 -> resp_json r = None ->
        fst (chassis_get _baseurl get api) = raise ValueError)
    /\ (400 <= status_code r < 600 ->
        fst (chassis_get _baseurl get api) = raise (HTTPError (status_code r)))
    /\ (status_code r <> 200 -> status_code r < 400 \/ 600 <= status_code r ->
        fst (chassis_get _baseurl get api) = raise TypeError)
    /\ (forall send b,
          status_code (send {| req_method := POST;
                               req_url := _baseurl +:+ "/chassis/do/" +:+ api;
                               req_json := b |}) = 204 ->
          status_code r = 204 ->
          fst (chassis_post _baseurl send api b) = Ok (JObj [])
          /\ fst (chassis_get _baseurl get api) = raise TypeError).
Proof.
  intros _baseurl get api url r.
  rewrite (chassis_get_cases _baseurl get api). fold url. fold r. cbn [fst snd].
  split; [reflexivity|]. split; [|split; [|split; [|split]]].
  - intros j. destruct (Z.eqb_spec (status_code r) 200) as [E|E].
    + unfold response_json. destruct (resp_json r) as [j'|].
      * split; [intros H; injection H as ->; auto|].
        intros [_ H]. now injection H as ->.
      * split; [discriminate|intros [_ H]; discriminate].
    + split; [|intros [H _]; contradiction].
      now destruct ((400 <=? status_code r) && (status_code r <? 600)).
  - intros E Hn. rewrite E. unfold response_json. now rewrite Hn.
  - intros H. destruct (Z.eqb_spec (status_code r) 200); [lia|].
    destruct (Z.leb_spec 400 (status_code r)); [|lia].
    destruct (Z.ltb_spec (status_code r) 600); [reflexivity|lia].
  - intros Hne H. destruct (Z.eqb_spec (status_code r) 200); [contradiction|].
    destruct (Z.leb_spec 400 (status_code r)); [|reflexivity].
    destruct (Z.ltb_spec (status_code r) 600); [lia|reflexivity].
  - intros send b Hs Hr. split.
    + unfold chassis_post. cbn [fst]. now rewrite Hs.
    + now rewrite Hr.
Qed.

Lemma chassis_get_outcome_witness :
  fst (chassis_get "https://h:8443"
         (fun _ => {| status_code := 404; resp_json := None |}) "")
  = raise (HTTPError 404)
  /\ fst (chassis_get "https://h:8443"
            (fun _ => {| status_code := 204; resp_json := None |}) "")
     = raise TypeError.
Proof.
  split.
  - apply (chassis_get_outcome "https://h:8443"
             (fun _ => {| status_code := 404; resp_json := None |}) "").
    simpl. lia.
  - apply (chassis_get_outcome "https://h:8443"
             (fun _ => {| status_code := 204; resp_json := None |}) "").
    + simpl. lia.
    + simpl. lia.
Defined.

(** X8: [login] contacts the device exactly once, with a GET of
    "<base>/system/do/version" where <base> is the URL it built from the
    address, and it succeeds exactly when that answer has status 200 and
    a JSON object with a "Version" field, whose value it keeps. *)
Theorem login_fetches_version :
  forall get address,
    exists _baseurl,
      login_baseurl address = Ok _baseurl
      /\ snd (login get address) = [_baseurl +:+ "/system/do/version"]
      /\ forall st,
           fst (login get address) = Ok st <->
           exists fields a p,
             let r := get (_baseurl +:+ "/system/do/version") in
             status_code r = 200
             /\ resp_json r = Some (JObj fields)
             /\ fields_get fields "Version" = Some (ss_version st)
             /\ login_address_port address = Ok (a, p)
             /\ ss_address st = a
             /\ ss_baseurl st = _baseurl.
Proof.
  intros get address.
  destruct (login_address_port_total address) as (a & p & Hap).
  assert (Hb : exists b, login_baseurl address = Ok b).
  { unfold login_baseurl. rewrite Hap. cbn [bind]. eauto. }
  destruct Hb as [b Hb]. exists b. split; [exact Hb|].
  unfold login. rewrite Hap, Hb. unfold system_get.
  change (b +:+ "/system/do/" +:+ "version") with (b +:+ "/system/do/version").
  cbn [fst snd]. split; [reflexivity|]. intros st. cbv zeta.
  set (r := get (b +:+ "/system/do/version")).
  destruct (Z.eqb_spec (status_code r) 200) as [E|E]; cbn [negb].
  - unfold response_json. destruct (resp_json r) as [j|].
    + cbn [bind]. destruct j as [| | | | |fields];
        try (cbn [bind json_getitem raise]; split;
             [discriminate|intros (f & a' & p' & _ & H & _); discriminate]).
      unfold json_getitem. destruct (fields_get fields "Version") as [v|] eqn:Hv.
      * cbn [bind]. split.
        -- intros H. injection H as <-. exists fields, a, p. simpl.
           repeat split; auto.
        -- intros (f & a' & p' & _ & Hj & Hver & Hap' & Ha & Hbs).
           injection Hj as <-. injection Hap' as <- <-.
           rewrite Hv in Hver. injection Hver as Hver.
           destruct st as [sa sb sv]. simpl in *. now subst.
      * split; [discriminate|].
        intros (f & a' & p' & _ & Hj & Hver & _). injection Hj as <-.
        rewrite Hv in Hver. discriminate.
    + split; [discriminate|intros (f & a' & p' & _ & H & _); discriminate].
  - rewrite raise_raise_for_status_cases. split.
    + destruct ((400 <=? status_code r) && (status_code r <? 600)); discriminate.
    + intros (f & a' & p' & H & _). contradiction.
Qed.

(* ================================================================= *)
(** * Commands: what is sent and when they succeed *)

Lemma portid_raises s e d : _portid s = Raise e d -> e = IndexError /\ d = [].
Proof.
  unfold _portid, py_getitem.
  repeat match goal with
         | |- context [if ?b then _ else _] => destruct b
         | |- context [match ?l !! ?i with _ => _ end] => destruct (l !! i)
         end; cbn [bind raise]; intros H; try discriminate;
    now injection H as <- <-.
Qed.

Lemma mapM_portid_raises l e d :
  mapM _portid l = Raise e d -> e = IndexError /\ d = [].
Proof.
  induction l as [|a l IH]; simpl; [discriminate|].
  destruct (_portid a) as [b|e' d'] eqn:Ha; cbn [bind].
  - destruct (mapM _portid l) as [bs|e' d']; cbn [bind]; [discriminate|].
    intros H. injection H as <- <-. now apply IH.
  - intros H. injection H as <- <-. now apply portid_raises in Ha.
Qed.

Lemma chassis_post_Ok_iff _baseurl send api b j :
  let r := send {| req_method := POST;
                   req_url := _baseurl +:+ "/chassis/do/" +:+ api;
                   req_json := b |} in
  fst (chassis_post _baseurl send api b) = Ok j <->
  (status_code r = 200 /\ resp_json r = Some j)
  \/ (status_code r = 204 /\ j = JObj []).
Proof.
  intros r. unfold chassis_post. cbn [fst]. fold r.
  destruct (Z.eqb_spec (status_code r) 200) as [E|E].
  - unfold response_json. destruct (resp_json r) as [j'|]; split.
    + intros H. injection H as ->. left. split; [exact E|reflexivity].
    + intros [[_ H]|[H _]]; [now injection H as ->|lia].
    + discriminate.
    + intros [[_ H]|[H _]]; [discriminate|lia].
  - destruct (Z.eqb_spec (status_code r) 204) as [E'|E']; split.
    + intros H. injection H as <-. right. split; [exact E'|reflexivity].
    + intros [[H _]|[_ ->]]; [contradiction|reflexivity].
    + intros H. now apply handle_error_never_Ok in H.
    + intros [[H _]|[H _]]; contradiction.
Qed.

Lemma then_call_Ok_iff (payload : result (string * body))
    (call : string -> body -> io json) :
  fst (then_call payload call) = Ok tt <->
  exists api b j, payload = Ok (api, b) /\ fst (call api b) = Ok j.
Proof.
  unfold then_call. destruct payload as [[api b]|e d].
  - destruct (call api b) as [r trace] eqn:Hc. cbn [fst]. split.
    + destruct r as [j|]; [|discriminate].
      intros _. exists api, b, j. split; [reflexivity|now rewrite Hc].
    + intros (api' & b' & j & H & Hr). injection H as <- <-.
      rewrite Hc in Hr. cbn [fst] in Hr. now rewrite Hr.
  - cbn [fst]. split; [discriminate|]. intros (? & ? & ? & H & _). discriminate.
Qed.

Lemma then_call_trace (payload : result (string * body)) _baseurl send :
  snd (then_call payload (chassis_post _baseurl send))
  = match payload with
    | Ok (api, b) => [{| req_method := POST;
                         req_url := _baseurl +:+ "/chassis/do/" +:+ api;
                         req_json := b |}]
    | Raise _ _ => []
    end.
Proof. unfold then_call. now destruct payload as [[api b]|]. Qed.

Lemma accepted_iff r :
  accepted r <->
  exists j, (status_code r = 200 /\ resp_json r = Some j)
            \/ (status_code r = 204 /\ j = JObj []).
Proof.
  unfold accepted. split.
  - intros [H|[H Hj]]; [exists (JObj []); now right|].
    destruct (resp_json r) as [j|]; [|contradiction]. exists j. now left.
  - intros (j & [[H Hj]|[H _]]); [right|now left].
    split; [assumption|]. now rewrite Hj.
Qed.

Lemma post_accepted_iff _baseurl send api b :
  (exists j, fst (chassis_post _baseurl send api b) = Ok j) <->
  accepted (send {| req_method := POST;
                    req_url := _baseurl +:+ "/chassis/do/" +:+ api;
                    req_json := b |}).
Proof.
  rewrite accepted_iff. split; intros [j H]; exists j;
    now apply chassis_post_Ok_iff.
Qed.

Lemma command_Ok_iff payload _baseurl send :
  fst (then_call payload (chassis_post _baseurl send)) = Ok tt <->
  exists api b,
    payload = Ok (api, b)
    /\ accepted (send {| req_method := POST;
                         req_url := _baseurl +:+ "/chassis/do/" +:+ api;
                         req_json := b |}).
Proof.
  rewrite then_call_Ok_iff. split.
  - intros (api & b & j & Hp & Hj). exists api, b. split; [assumption|].
    apply post_accepted_iff. eauto.
  - intros (api & b & Hp & Ha). apply post_accepted_iff in Ha as [j Hj]. eauto.
Qed.

Lemma uni_payload src dsts (direction api : string) :
  (let* src_port_cf := _portid src in
   let* port_pairs :=
     mapM (fun dst_port =>
             let* dst_port_cf := _portid dst_port in
             Ok {| pair_A := Some src_port_cf; pair_B := dst_port_cf |})
          dsts in
   Ok (api, MapBody direction port_pairs))
  = let* a := _portid src in
    let* bs := mapM _portid dsts in
    Ok (api, MapBody direction
               (map (fun b => {| pair_A := Some a; pair_B := b |}) bs)).
Proof.
  destruct (_portid src) as [a|]; cbn [bind]; [|reflexivity].
  rewrite (mapM_fmap _portid (fun b => {| pair_A := Some a; pair_B := b |})).
  now destruct (mapM _portid dsts).
Qed.

Lemma clear_payload ports :
  (let* port_pairs :=
     mapM (fun dst_port =>
             let* dst_port_cf := _portid dst_port in
             Ok {| pair_A := None; pair_B := dst_port_cf |})
          ports in
   Ok ("unmap", MapBody "Undefined" port_pairs))
  = let* bs := mapM _portid ports in
    Ok ("unmap", MapBody "Undefined"
                   (map (fun b => {| pair_A := None; pair_B := b |}) bs)).
Proof.
  rewrite (mapM_fmap _portid (fun b => {| pair_A := None; pair_B := b |})).
  now destruct (mapM _portid ports).
Qed.

(** X9: when the map commands succeed.  Each of [map_bidi], [map_uni],
    [map_clear] and [map_clear_to] returns normally exactly when all its
    addresses resolve and the device answers the one request with status
    204, or with status 200 and a JSON body.  A 200 with a body that is
    not JSON therefore makes the command raise although the device
    accepted it. *)
Theorem map_commands_succeed_iff :
  forall _baseurl send,
    let post api direction pairs :=
      send {| req_method := POST;
              req_url := _baseurl +:+ "/chassis/do/" +:+ api;
              req_json := MapBody direction pairs |} in
    (forall src dst,
        fst (map_bidi _baseurl send src dst) = Ok tt <->
        exists a b, _portid src = Ok a /\ _portid dst = Ok b
          /\ accepted (post "map" "TwoWay" [{| pair_A := Some a; pair_B := b |}]))
    /\ (forall src dsts,
          fst (map_uni _baseurl send src dsts) = Ok tt <->
          exists a bs, _portid src = Ok a /\ mapM _portid dsts = Ok bs
            /\ accepted (post "map" "OneWay"
                           (map (fun b => {| pair_A := Some a; pair_B := b |}) bs)))
    /\ (forall ports,
          fst (map_clear _baseurl send ports) = Ok tt <->
          exists bs, mapM _portid ports = Ok bs
            /\ accepted (post "unmap" "Undefined"
                           (map (fun b => {| pair_A := None; pair_B := b |}) bs)))
    /\ (forall src dsts,
          fst (map_clear_to _baseurl send src dsts) = Ok tt <->
          exists a bs, _portid src = Ok a /\ mapM _portid dsts = Ok bs
            /\ accepted (post "unmap" "OneWay"
                           (map (fun b => {| pair_A := Some a; pair_B := b |}) bs)))
    /\ (forall src dsts a bs,
          _portid src = Ok a -> mapM _portid dsts = Ok bs ->
          status_code (post "map" "OneWay"
                         (map (fun b => {| pair_A := Some a; pair_B := b |}) bs))
            = 200 ->
          resp_json (post "map" "OneWay"
                       (map (fun b => {| pair_A := Some a; pair_B := b |}) bs))
            = None ->
          fst (map_uni _baseurl send src dsts) = raise ValueError).
Proof.
  intros _baseurl send post. split; [|split; [|split; [|split]]].
  - intros src dst. unfold map_bidi. rewrite command_Ok_iff. split.
    + intros (api & b & Hp & Ha).
      destruct (_portid src) as [s|]; cbn [bind] in Hp; [|discriminate].
      destruct (_portid dst) as [t|]; cbn [bind] in Hp; [|discriminate].
      injection Hp as <- <-. exists s, t. auto.
    + intros (a & b & -> & -> & Ha). cbn [bind]. eauto.
  - intros src dsts. unfold map_uni. rewrite uni_payload, command_Ok_iff. split.
    + intros (api & b & Hp & Ha).
      destruct (_portid src) as [s|]; cbn [bind] in Hp; [|discriminate].
      destruct (mapM _portid dsts) as [ts|]; cbn [bind] in Hp; [|discriminate].
      injection Hp as <- <-. exists s, ts. auto.
    + intros (a & bs & -> & -> & Ha). cbn [bind]. eauto.
  - intros ports. unfold map_clear. rewrite clear_payload, command_Ok_iff. split.
    + intros (api & b & Hp & Ha).
      destruct (mapM _portid ports) as [ts|]; cbn [bind] in Hp; [|discriminate].
      injection Hp as <- <-. exists ts. auto.
    + intros (bs & -> & Ha). cbn [bind]. eauto.
  - intros src dsts. unfold map_clear_to.
    rewrite uni_payload, command_Ok_iff. split.
    + intros (api & b & Hp & Ha).
      destruct (_portid src) as [s|]; cbn [bind] in Hp; [|discriminate].
      destruct (mapM _portid dsts) as [ts|]; cbn [bind] in Hp; [|discriminate].
      injection Hp as <- <-. exists s, ts. auto.
    + intros (a & bs & -> & -> & Ha). cbn [bind]. eauto.
  - intros src dsts a bs Ha Hbs Hs Hj. unfold map_uni.
    rewrite uni_payload, Ha, Hbs. cbn [bind]. unfold then_call, chassis_post.
    cbn [fst]. subst post. cbv beta in Hs, Hj. rewrite Hs.
    unfold response_json. now rewrite Hj.
Qed.

Lemma map_commands_succeed_iff_witness :
  fst (map_uni "https://h:8443"
         (fun _ => {| status_code := 200; resp_json := None |})
         "a/1/21" ["a/1/22"]) = raise ValueError.
Proof.
  destruct (map_commands_succeed_iff "https://h:8443"
              (fun _ => {| status_code := 200; resp_json := None |}))
    as (_ & _ & _ & _ & H).
  apply (H "a/1/21" ["a/1/22"] "1.21" ["1.22"]); reflexivity.
Defined.

(** X10: [map_bidi] sends exactly one request, a POST of the map command
    with Direction "TwoWay" and the single pair (A = resolved source,
    B = resolved destination).  When either address does not resolve it
    raises IndexError and sends nothing. *)
Theorem map_bidi_request :
  forall _baseurl send src dst,
    (forall a b, _portid src = Ok a -> _portid dst = Ok b ->
       snd (map_bidi _baseurl send src dst)
       = [{| req_method := POST;
             req_url := _baseurl +:+ "/chassis/do/map";
             req_json := MapBody "TwoWay" [{| pair_A := Some a; pair_B := b |}] |}])
    /\ ((forall a, _portid src <> Ok a) \/ (forall b, _portid dst <> Ok b) ->
        map_bidi _baseurl send src dst = (raise IndexError, [])).
Proof.
  intros _baseurl send src dst. split.
  - intros a b Ha Hb. unfold map_bidi. now rewrite Ha, Hb.
  - intros H. unfold map_bidi.
    destruct (_portid src) as [a|e d] eqn:Ha; cbn [bind].
    + destruct (_portid dst) as [b|e d] eqn:Hb; cbn [bind].
      * destruct H as [H|H]; [now destruct (H a)|now destruct (H b)].
      * now apply portid_raises in Hb as [-> ->].
    + now apply portid_raises in Ha as [-> ->].
Qed.

Lemma map_bidi_request_witness :
  snd (map_bidi "https://h:8443"
         (fun _ => {| status_code := 204; resp_json := None |})
         "192.168.42.240/1/21" "192.168.42.240/1/22_3")
  = [{| req_method := POST;
        req_url := "https://h:8443/chassis/do/map";
        req_json := MapBody "TwoWay" [{| pair_A := Some "1.21"; pair_B := "1.22:3" |}] |}]
  /\ map_bidi "https://h:8443"
       (fun _ => {| status_code := 204; resp_json := None |})
       "192.168.42.240/1/21" "nowhere"
     = (raise IndexError, []).
Proof.
  destruct (map_bidi_request "https://h:8443"
              (fun _ => {| status_code := 204; resp_json := None |})
              "192.168.42.240/1/21" "192.168.42.240/1/22_3") as [H _].
  split; [apply (H "1.21" "1.22:3"); reflexivity|].
  apply map_bidi_request. right. intros b. vm_compute. discriminate.
Defined.

(** X11: [map_clear] sends exactly one request, a POST of the unmap
    command with Direction "Undefined" and one pair per port, whose A is
    null and whose B is the resolved port; an empty list still sends the
    request, with no pairs.  When an address does not resolve it raises
    IndexError and sends nothing. *)
Theorem map_clear_request :
  forall _baseurl send ports,
    (forall bs, mapM _portid ports = Ok bs ->
       snd (map_clear _baseurl send ports)
       = [{| req_method := POST;
             req_url := _baseurl +:+ "/chassis/do/unmap";
             req_json :=
               MapBody "Undefined"
                 (map (fun b => {| pair_A := None; pair_B := b |}) bs) |}]
       /\ length bs = length ports)
    /\ ((forall bs, mapM _portid ports <> Ok bs) ->
        map_clear _baseurl send ports = (raise IndexError, []))
    /\ (ports = [] ->
        snd (map_clear _baseurl send ports)
        = [{| req_method := POST;
              req_url := _baseurl +:+ "/chassis/do/unmap";
              req_json := MapBody "Undefined" [] |}]).
Proof.
  intros _baseurl send ports. split; [|split].
  - intros bs Hbs. unfold map_clear. rewrite clear_payload, Hbs.
    split; [reflexivity|]. now apply mapM_length in Hbs.
  - intros H. unfold map_clear. rewrite clear_payload.
    destruct (mapM _portid ports) as [bs|e d] eqn:Hbs; [now destruct (H bs)|].
    now apply mapM_portid_raises in Hbs as [-> ->].
  - intros ->. reflexivity.
Qed.

Lemma map_clear_request_witness :
  snd (map_clear "https://h:8443"
         (fun _ => {| status_code := 204; resp_json := None |})
         ["192.168.42.240/1/21"; "192.168.42.240/2/3_4"])
  = [{| req_method := POST;
        req_url := "https://h:8443/chassis/do/unmap";
        req_json :=
          MapBody "Undefined"
            [{| pair_A := None; pair_B := "1.21" |};
             {| pair_A := None; pair_B := "2.3:4" |}] |}].
Proof.
  destruct (map_clear_request "https://h:8443"
              (fun _ => {| status_code := 204; resp_json := None |})
              ["192.168.42.240/1/21"; "192.168.42.240/2/3_4"]) as [H _].
  apply (H ["1.21"; "2.3:4"]). reflexivity.
Defined.

(** X12: [map_clear_to] undoes what [map_uni] does: for the same source
    and destinations the two send the same payload (Direction "OneWay"
    and the same pairs, in the same order), the one to the unmap command
    and the other to the map command; and either sends a request exactly
    when the other does. *)
Theorem map_clear_to_mirrors_map_uni :
  forall _baseurl send send' src dsts,
    map req_json (snd (map_clear_to _baseurl send src dsts))
    = map req_json (snd (map_uni _baseurl send' src dsts))
    /\ map req_method (snd (map_clear_to _baseurl send src dsts))
       = map req_method (snd (map_uni _baseurl send' src dsts))
    /\ (forall r, r ∈ snd (map_clear_to _baseurl send src dsts) ->
          req_url r = _baseurl +:+ "/chassis/do/unmap")
    /\ (forall r, r ∈ snd (map_uni _baseurl send' src dsts) ->
          req_url r = _baseurl +:+ "/chassis/do/map").
Proof.
  intros _baseurl send send' src dsts. unfold map_clear_to, map_uni.
  rewrite !uni_payload, !then_call_trace.
  destruct (_portid src) as [a|]; cbn [bind];
    [|repeat split; intros r H; inversion H].
  destruct (mapM _portid dsts) as [bs|]; cbn [bind];
    [|repeat split; intros r H; inversion H].
  repeat split; intros r H; apply list_elem_of_singleton in H as ->; reflexivity.
Qed.

Lemma put_trace payload _baseurl send :
  snd (then_call payload (chassis_put _baseurl send))
  = match payload with
    | Ok (api, b) => [{| req_method := PUT;
                         req_url := _baseurl +:+ "/chassis/" +:+ api;
                         req_json := b |}]
    | Raise _ _ => []
    end.
Proof. unfold then_call. now destruct payload as [[api b]|]. Qed.

(** X13: what [set_attribute_value] does with each address shape, for any
    attribute name (the name is never looked at).  For
    "<device>/<lc>/<port>" it sends one PUT to
    "<base>/chassis/linecards/<lc>/ports/<port>" with body
    {Speed: value}, the linecard and port texts taken as they are.  For
    "<device>/<lc>/<port>_<lane>" the same PUT is sent when the lane is
    0.  Any other lane stops the command before anything is sent: with
    OverflowError when the lane does not fit an index-sized integer,
    with MemoryError when the string of commas cannot be allocated, and
    with TypeError otherwise; a lane that is not an integer raises
    ValueError, also before anything is sent. *)
Theorem set_attribute_value_cases :
  forall _baseurl send maxsize can_allocate dev lc port name value,
    0 <= maxsize ->
    count_char "/" dev = O -> count_char "/" lc = O ->
    count_char "/" port = O -> count_char "_" port = O ->
    let put := {| req_method := PUT;
                  req_url := _baseurl +:+ "/chassis/linecards/" +:+ lc
                             +:+ "/ports/" +:+ port;
                  req_json := SpeedBody value |} in
    snd (set_attribute_value _baseurl send maxsize can_allocate
           (dev +:+ "/" +:+ lc +:+ "/" +:+ port) name value) = [put]
    /\ forall lane_text,
         count_char "/" lane_text = O ->
         let address := dev +:+ "/" +:+ lc +:+ "/" +:+ port +:+ "_" +:+ lane_text in
         let outcome :=
           set_attribute_value _baseurl send maxsize can_allocate
             address name value in
         (py_int lane_text = Ok 0 -> snd outcome = [put])
         /\ (forall n, py_int lane_text = Ok n -> n <> 0 ->
             - maxsize - 1 <= n <= maxsize ->
             n = 1 \/ can_allocate (Z.max n 0) = true ->
             outcome = (raise TypeError, []))
         /\ (forall n, py_int lane_text = Ok n ->
             n < - maxsize - 1 \/ maxsize < n ->
             outcome = (raise OverflowError, []))
         /\ (forall n, py_int lane_text = Ok n -> n <> 0 -> n <> 1 ->
             - maxsize - 1 <= n <= maxsize ->
             can_allocate (Z.max n 0) = false ->
             outcome = (raise MemoryError, []))
         /\ (forall e d, py_int lane_text = Raise e d ->
             outcome = (raise ValueError, [])).
Proof.
  intros _baseurl send maxsize can_allocate dev lc port name value
    Hm Hd Hl Hp Hu put.
  split.
  - unfold set_attribute_value.
    rewrite linecard_port_lane_plain by assumption. cbn [bind].
    rewrite put_trace. reflexivity.
  - intros lane_text Hn address outcome. subst outcome address.
    assert (Hlaned : forall n, py_int lane_text = Ok n -> n <> 0 ->
              set_attribute_value _baseurl send maxsize can_allocate
                (dev +:+ "/" +:+ lc +:+ "/" +:+ port +:+ "_" +:+ lane_text)
                name value
              = (if (n <? - maxsize - 1) || (maxsize <? n)
                 then raise OverflowError
                 else if (n =? 1) || can_allocate (Z.max n 0)
                      then raise TypeError
                      else raise MemoryError, [])).
    { intros n Hint Hne.
      apply (set_attribute_value_laned _ _ _ _ _ _ _ lc port n);
        [assumption| |assumption].
      rewrite linecard_port_lane_laned by assumption.
      rewrite Hint. reflexivity. }
    split; [|split; [|split; [|split]]].
    + intros Hz. unfold set_attribute_value.
      rewrite linecard_port_lane_laned by assumption. rewrite Hz.
      cbn [bind]. rewrite put_trace. reflexivity.
    + intros n Hint Hne Hr Ha. rewrite (Hlaned n Hint Hne).
      destruct (Z.ltb_spec n (- maxsize - 1)); [lia|].
      destruct (Z.ltb_spec maxsize n); [lia|]. cbn [orb].
      destruct Ha as [-> | ->]; [reflexivity|].
      now rewrite orb_true_r.
    + intros n Hint Hout. rewrite (Hlaned n Hint) by lia.
      destruct (Z.ltb_spec n (- maxsize - 1)); [reflexivity|].
      destruct (Z.ltb_spec maxsize n); [reflexivity|lia].
    + intros n Hint Hne Hne1 Hr Ha. rewrite (Hlaned n Hint Hne).
      destruct (Z.ltb_spec n (- maxsize - 1)); [lia|].
      destruct (Z.ltb_spec maxsize n); [lia|]. cbn [orb].
      destruct (Z.eqb_spec n 1); [contradiction|]. now rewrite Ha.
    + intros e d He. unfold set_attribute_value.
      rewrite linecard_port_lane_laned by assumption. rewrite He.
      cbn [bind]. now apply py_int_raises in He as [-> ->].
Qed.

Lemma set_attribute_value_cases_witness :
  snd (set_attribute_value "https://h:8443"
         (fun _ => {| status_code := 204; resp_json := None |})
         9223372036854775807 (fun size => size <? 4294967296)
         "192.168.42.240/1/021" "Port Speed" "10000")
  = [{| req_method := PUT;
        req_url := "https://h:8443/chassis/linecards/1/ports/021";
        req_json := SpeedBody "10000" |}]
  /\ set_attribute_value "https://h:8443"
       (fun _ => {| status_code := 204; resp_json := None |})
       9223372036854775807 (fun size => size <? 4294967296)
       "192.168.42.240/1/21_x" "Port Speed" "10000"
     = (raise ValueError, [])
  /\ set_attribute_value "https://h:8443"
       (fun _ => {| status_code := 204; resp_json := None |})
       9223372036854775807 (fun size => size <? 4294967296)
       "192.168.42.240/1/21_3" "Port Speed" "10000"
     = (raise TypeError, [])
  /\ set_attribute_value "https://h:8443"
       (fun _ => {| status_code := 204; resp_json := None |})
       9223372036854775807 (fun size => size <? 4294967296)
       "192.168.42.240/1/21_9223372036854775808" "Port Speed" "10000"
     = (raise OverflowError, [])
  /\ set_attribute_value "https://h:8443"
       (fun _ => {| status_code := 204; resp_json := None |})
       9223372036854775807 (fun size => size <? 4294967296)
       "192.168.42.240/1/21_4611686018427387904" "Port Speed" "10000"
     = (raise MemoryError, []).
Proof.
  destruct (set_attribute_value_cases "https://h:8443"
              (fun _ => {| status_code := 204; resp_json := None |})
              9223372036854775807 (fun size => size <? 4294967296)
              "192.168.42.240" "1" "021" "Port Speed" "10000") as [H _];
    [lia|reflexivity..|].
  split; [exact H|].
  destruct (set_attribute_value_cases "https://h:8443"
              (fun _ => {| status_code := 204; resp_json := None |})
              9223372036854775807 (fun size => size <? 4294967296)
              "192.168.42.240" "1" "21" "Port Speed" "10000") as [_ H'];
    [lia|reflexivity..|].
  split.
  { destruct (H' "x") as (_ & _ & _ & _ & Hbad); [reflexivity|].
    apply (Hbad ValueError []). reflexivity. }
  split.
  { destruct (H' "3") as (_ & Htype & _); [reflexivity|].
    apply (Htype 3); [reflexivity|lia|lia|right; reflexivity]. }
  split.
  { destruct (H' "9223372036854775808") as (_ & _ & Hover & _); [reflexivity|].
    apply (Hover 9223372036854775808); [reflexivity|lia]. }
  destruct (H' "4611686018427387904") as (_ & _ & _ & Hmem & _); [reflexivity|].
  apply (Hmem 4611686018427387904); [reflexivity|lia|lia|lia|reflexivity].
Defined.

(** X14: the synchronisation id.  [set_state_id] sends one PUT to
    "<base>/chassis/" with body {SessionId: id}; [get_state_id] fetches
    that same URL once and returns the "SessionId" field of the answer,
    succeeding exactly when the answer has status 200 and is a JSON
    object with that field. *)
Theorem state_id_commands :
  forall _baseurl get send state_id,
    snd (set_state_id _baseurl send state_id)
    = [{| req_method := PUT;
          req_url := _baseurl +:+ "/chassis/";
          req_json := SessionBody state_id |}]
    /\ snd (get_state_id _baseurl get) = [_baseurl +:+ "/chassis/"]
    /\ forall v,
         fst (get_state_id _baseurl get) = Ok v <->
         exists fields,
           status_code (get (_baseurl +:+ "/chassis/")) = 200
           /\ resp_json (get (_baseurl +:+ "/chassis/")) = Some (JObj fields)
           /\ fields_get fields "SessionId" = Some v.
Proof.
  intros _baseurl get send state_id. split; [reflexivity|].
  unfold get_state_id. rewrite (chassis_get_cases _baseurl get "").
  change (_baseurl +:+ "/chassis/" +:+ "") with (_baseurl +:+ "/chassis/").
  cbv zeta. cbn [fst snd]. split; [reflexivity|]. intros v.
  set (r := get (_baseurl +:+ "/chassis/")).
  destruct (Z.eqb_spec (status_code r) 200) as [E|E].
  - unfold response_json. destruct (resp_json r) as [j|]; cbn [bind].
    + destruct j as [| | | | |fields];
        try (cbn [json_getitem raise]; split;
             [discriminate|intros (f & _ & H & _); discriminate]).
      unfold json_getitem.
      destruct (fields_get fields "SessionId") as [w|] eqn:Hw; split.
      * intros H. injection H as <-. exists fields. auto.
      * intros (f & _ & Hj & Hv). injection Hj as <-. congruence.
      * discriminate.
      * intros (f & _ & Hj & Hv). injection Hj as <-. congruence.
    + split; [discriminate|intros (f & _ & H & _); discriminate].
  - split.
    + destruct ((400 <=? status_code r) && (status_code r <? 600)); discriminate.
    + intros (f & H & _). contradiction.
Qed.

(* ================================================================= *)
(** * Discovery: where mappings come from *)

Lemma foldl_insert_lookup_inv (ports : list Port) (d : blade_dict) k p :
  foldl (fun d p => <[port_resource_id p := p]> d) d ports !! k = Some p ->
  (p ∈ ports /\ port_resource_id p = k) \/ d !! k = Some p.
Proof.
  revert d. induction ports as [|q ports IH]; intros d H; [now right|].
  cbn [foldl] in H. apply IH in H as [[Hin Hid]|H].
  - left. split; [now right|assumption].
  - destruct (decide (port_resource_id q = k)) as [Hk|Hk].
    + rewrite Hk in H. rewrite lookup_insert_eq in H. injection H as <-.
      left. split; [left|assumption].
    + rewrite lookup_insert_ne in H by assumption. now right.
Qed.

Lemma dict_of_ports_lookup_inv (ports : list Port) k p :
  dict_of_ports ports !! k = Some p -> p ∈ ports /\ port_resource_id p = k.
Proof.
  intros H. apply foldl_insert_lookup_inv in H as [H|H]; [assumption|].
  rewrite lookup_empty in H. discriminate.
Qed.

(** Every entry the first pass leaves in [_blades] is the index of a
    blade it created, under that blade's number. *)
Lemma build_blades_entries dev lc slots built b k d :
  build_blades dev lc slots = Ok built ->
  (b, (k, d)) ∈ built ->
  d = dict_of_ports (blade_ports b)
  /\ exists ports_json,
       lc < k
       /\ dev_ports dev (k - 1) = Ok ports_json
       /\ blade_ports b = concat (map (make_ports (k - 1)) (enumerate ports_json)).
Proof.
  revert lc built. induction slots as [|slot slots IH]; intros lc built H Hin.
  - simpl in H. injection H as <-. inversion Hin.
  - destruct slot as [s|]; simpl in H.
    + destruct (build_blade dev lc) as [[b0 [k0 d0]]|] eqn:Hb; [|discriminate].
      cbn [bind] in H.
      destruct (build_blades dev (lc + 1) slots) as [bs|] eqn:Hbs;
        [|discriminate].
      cbn [bind] in H. injection H as <-.
      apply elem_of_cons in Hin as [Heq|Hin].
      * injection Heq as -> -> ->.
        apply build_blade_Ok_inv in Hb as (pjs & Hp & -> & _ & _ & Hports & Hd).
        split; [assumption|]. exists pjs.
        replace (lc + 1 - 1) with lc by lia. split; [lia|]. now split.
      * destruct (IH (lc + 1) bs Hbs Hin) as (Hd & pjs & Hk & Hrest).
        split; [assumption|]. exists pjs. split; [lia|assumption].
    + destruct (IH (lc + 1) built H Hin) as (Hd & pjs & Hk & Hrest).
      split; [assumption|]. exists pjs. split; [lia|assumption].
Qed.

Lemma blades_get_elem (_blades : blades_t) lc d :
  blades_get _blades lc = Some d -> (lc, d) ∈ _blades.
Proof.
  induction _blades as [|[k d'] rest IH]; simpl; [discriminate|].
  destruct (Z.eqb_spec k lc) as [->|_].
  - intros H. injection H as ->. left.
  - intros H. right. now apply IH.
Qed.

Lemma link_breakout_entry_Ok_inv (_blades : blades_t) port_obj lane
    egress_port part m :
  0 <= lane ->
  link_breakout_entry _blades port_obj lane egress_port = Ok part ->
  m ∈ part ->
  mapped_from m = port_obj
  /\ exists lc p d,
       blades_get _blades lc = Some d
       /\ d !! (fmt02 p +:+ "_" +:+ py_str (lane + 1)) = Some (mapped_to m).
Proof.
  intros Hlane H Hm. unfold link_breakout_entry in H. cbv zeta in H.
  destruct (py_getitem egress_port _) as [[tok|]|] eqn:Hslot; cbn [bind] in H;
    [| injection H as <-; inversion Hm | discriminate].
  destruct (0 <? String.length tok)%nat;
    [| injection H as <-; inversion Hm].
  destruct (_parse_lport tok) as [[[lc p] ln]|]; cbn [bind] in H; [|discriminate].
  destruct (blades_get _blades lc) as [d|] eqn:Hd;
    [| injection H as <-; inversion Hm].
  destruct (Z.eqb_spec (if (length egress_port =? 1)%nat then lane + 1 else ln)
                       (lane + 1)) as [E|E];
    [| injection H as <-; inversion Hm].
  rewrite E, qport_laned in H by lia. unfold dict_getitem in H.
  destruct (d !! _) as [mt|] eqn:Hk; cbn [bind] in H; [|discriminate].
  injection H as <-. apply list_elem_of_singleton in Hm as ->.
  split; [reflexivity|]. exists lc, p, d. split; assumption.
Qed.

(** What one port contributes in the second pass. *)
Lemma link_port_elem (_blades : blades_t) (blade : blade_dict) flows port pj
    part m :
  link_port _blades blade flows (port, pj) = Ok part ->
  m ∈ part ->
  exists d dlc,
    blades_get _blades dlc = Some d
    /\ ((exists lane dp,
           0 <= lane < 4
           /\ blade !! (fmt02 (port + 1) +:+ "_" +:+ py_str (lane + 1))
              = Some (mapped_from m)
           /\ d !! (fmt02 dp +:+ "_" +:+ py_str (lane + 1)) = Some (mapped_to m))
        \/ (exists dp dl,
              blade !! fmt02 (port + 1) = Some (mapped_from m)
              /\ d !! _qport dp (Some dl) = Some (mapped_to m))).
Proof.
  intros H Hm. unfold link_port in H.
  destruct (py_getitem flows port) as [egress|]; cbn [bind] in H; [|discriminate].
  destruct (is_breakout pj).
  - apply (concat_mapM_elem _ _ _ m H) in Hm as (lane & lpart & Hlane & Hl & Hm).
    apply elem_of_seqZ in Hlane. unfold link_breakout_lane in Hl.
    rewrite qport_laned in Hl by lia. unfold dict_getitem in Hl.
    destruct (blade !! _) as [port_obj|] eqn:Hsrc; cbn [bind] in Hl;
      [|discriminate].
    apply (concat_mapM_elem _ _ _ m Hl) in Hm as (ep & epart & _ & Hep & Hm).
    assert (Hpos : 0 <= lane) by lia.
    destruct (link_breakout_entry_Ok_inv _ _ _ _ _ m Hpos Hep Hm)
      as (Hfrom & lc & p & d & Hd & Hk).
    exists d, lc. split; [assumption|]. left. exists lane, p.
    rewrite Hfrom. repeat split; try assumption; lia.
  - change (_qport (port + 1) None) with (fmt02 (port + 1)) in H.
    unfold dict_getitem in H.
    destruct (blade !! fmt02 (port + 1)) as [port_obj|] eqn:Hsrc;
      cbn [bind] in H; [|discriminate].
    apply (concat_mapM_elem _ _ _ m H) in Hm as (ep & epart & _ & Hep & Hm).
    apply link_plain_entry_Ok_inv in Hep
      as (tok & lc & p & ln & _ & _ & [[_ ->]|(d & mt & Hd & Hk & ->)]);
      [inversion Hm|].
    apply list_elem_of_singleton in Hm as ->.
    exists d, lc. split; [assumption|]. right. exists p, ln. now split.
Qed.

(** Provenance of a mapping in a successful discovery. *)
Lemma mapping_provenance dev address rd m :
  get_resource_description dev address = Ok rd ->
  m ∈ rd_mappings rd ->
  exists bs bd,
    bs ∈ chassis_blades (rd_chassis rd)
    /\ bd ∈ chassis_blades (rd_chassis rd)
    /\ mapped_from m ∈ blade_ports bs
    /\ mapped_to m ∈ blade_ports bd
    /\ ((exists sp dp lane,
           0 <= lane < 4
           /\ port_resource_id (mapped_from m)
              = fmt02 sp +:+ "_" +:+ py_str (lane + 1)
           /\ port_resource_id (mapped_to m)
              = fmt02 dp +:+ "_" +:+ py_str (lane + 1))
        \/ (exists sp dp dl,
              port_resource_id (mapped_from m) = fmt02 sp
              /\ port_resource_id (mapped_to m) = _qport dp (Some dl))).
Proof.
  intros H Hm.
  apply discovery_Ok_inv in H as (cj & built & _ & Hb & Hblades & Hmaps & _).
  apply (concat_mapM_elem _ _ _ m Hmaps) in Hm
    as ([k blade] & bpart & Hitem & Hlb & Hm).
  apply list_elem_of_fmap in Hitem as ([bs [k' blade']] & Heq & Hbs).
  simpl in Heq. injection Heq as <- <-.
  destruct (build_blades_entries _ _ _ _ _ _ _ Hb Hbs) as (Hblade & _).
  unfold link_blade in Hlb.
  destruct (dev_ports dev (k - 1)) as [pjs|]; cbn [bind] in Hlb; [|discriminate].
  destruct (dev_show_flow dev _) as [flows|]; cbn [bind] in Hlb; [|discriminate].
  apply (concat_mapM_elem _ _ _ m Hlb) in Hm as ([port pj] & ppart & _ & Hlp & Hm).
  destruct (link_port_elem _ _ _ _ _ _ m Hlp Hm) as (d & dlc & Hd & Hcases).
  apply blades_get_elem, list_elem_of_fmap in Hd as ([bd [k'' d'']] & Heq & Hbd).
  simpl in Heq. injection Heq as <- <-.
  destruct (build_blades_entries _ _ _ _ _ _ _ Hb Hbd) as (Hdd & _).
  assert (Hin : forall b, (exists kd, (b, kd) ∈ built) ->
                          b ∈ chassis_blades (rd_chassis rd)).
  { intros b [kd Hb']. rewrite Hblades. apply list_elem_of_fmap.
    exists (b, kd). now split. }
  exists bs, bd. split; [apply Hin; eauto|]. split; [apply Hin; eauto|].
  rewrite Hblade, Hdd in Hcases.
  destruct Hcases as [(lane & dp & Hlane & Hsrc & Hdst)|(dp & dl & Hsrc & Hdst)];
    apply dict_of_ports_lookup_inv in Hsrc as [Hs1 Hs2];
    apply dict_of_ports_lookup_inv in Hdst as [Hd1 Hd2].
  - split; [assumption|]. split; [assumption|]. left.
    exists (port + 1), dp, lane. repeat split; try lia; assumption.
  - split; [assumption|]. split; [assumption|]. right.
    exists (port + 1), dp, dl. split; assumption.
Qed.

(** X15: in a successful discovery every recorded mapping joins two
    ports of the returned chassis: its destination and its source are
    each a port of one of the listed blades. *)
Theorem mappings_join_discovered_ports :
  forall dev address rd m,
    get_resource_description dev address = Ok rd ->
    m ∈ rd_mappings rd ->
    (exists bd, bd ∈ chassis_blades (rd_chassis rd)
                /\ mapped_to m ∈ blade_ports bd)
    /\ (exists bs, bs ∈ chassis_blades (rd_chassis rd)
                   /\ mapped_from m ∈ blade_ports bs).
Proof.
  intros dev address rd m H Hm.
  destruct (mapping_provenance dev address rd m H Hm)
    as (bs & bd & Hbs & Hbd & Hfrom & Hto & _).
  split; eauto.
Qed.

Lemma mappings_join_discovered_ports_witness :
  exists rd,
    get_resource_description dev_plain_fanout "192.168.42.240" = Ok rd
    /\ forall m, m ∈ rd_mappings rd ->
         (exists bd, bd ∈ chassis_blades (rd_chassis rd)
                     /\ mapped_to m ∈ blade_ports bd)
         /\ (exists bs, bs ∈ chassis_blades (rd_chassis rd)
                        /\ mapped_from m ∈ blade_ports bs).
Proof.
  eexists. split; [vm_compute; reflexivity|].
  intros m Hm.
  apply (mappings_join_discovered_ports dev_plain_fanout "192.168.42.240");
    [vm_compute; reflexivity|exact Hm].
Defined.

Lemma split_on_laned_key p l :
  split_on "_" (fmt02 p +:+ "_" +:+ py_str l) = [fmt02 p; py_str l].
Proof.
  rewrite sep_app, split_on_app by apply fmt02_no_underscore.
  now rewrite split_on_absent by apply py_str_no_underscore.
Qed.

(** X16: discovery never joins different lanes.  In a successful
    discovery a mapping whose source is lane l of a breakout port (its
    id is "<port>_<l>") always ends on lane l of its destination port;
    every other mapping starts at a port without lanes. *)
Theorem mappings_keep_the_lane :
  forall dev address rd m,
    get_resource_description dev address = Ok rd ->
    m ∈ rd_mappings rd ->
    (forall sp l,
        port_resource_id (mapped_from m) = fmt02 sp +:+ "_" +:+ py_str l ->
        exists dp,
          port_resource_id (mapped_to m) = fmt02 dp +:+ "_" +:+ py_str l)
    /\ (count_char "_" (port_resource_id (mapped_from m)) = 1%nat
        \/ exists sp, port_resource_id (mapped_from m) = fmt02 sp).
Proof.
  intros dev address rd m H Hm.
  destruct (mapping_provenance dev address rd m H Hm)
    as (_ & _ & _ & _ & _ & _ &
        [(sp' & dp & lane & Hlane & Hs & Hd)|(sp' & dp & dl & Hs & Hd)]).
  - split.
    + intros sp l Hl. exists dp. rewrite Hd. rewrite Hs in Hl.
      apply (f_equal (split_on "_")) in Hl.
      rewrite !split_on_laned_key in Hl. injection Hl as _ Hl.
      apply py_str_inj in Hl. now rewrite Hl.
    + left. rewrite Hs, !count_char_sep_app, fmt02_no_underscore,
        py_str_no_underscore. reflexivity.
  - split.
    + intros sp l Hl. rewrite Hs in Hl.
      apply (f_equal (count_char "_")) in Hl.
      rewrite !count_char_sep_app, !fmt02_no_underscore, py_str_no_underscore
        in Hl. simpl in Hl. lia.
    + right. eauto.
Qed.

Lemma mappings_keep_the_lane_witness :
  exists rd,
    get_resource_description dev_breakout_to_breakout "192.168.42.240" = Ok rd
    /\ length (rd_mappings rd) = 4%nat
    /\ forall m, m ∈ rd_mappings rd ->
         forall sp l,
           port_resource_id (mapped_from m) = fmt02 sp +:+ "_" +:+ py_str l ->
           exists dp,
             port_resource_id (mapped_to m) = fmt02 dp +:+ "_" +:+ py_str l.
Proof.
  eexists. split; [vm_compute; reflexivity|]. split; [reflexivity|].
  intros m Hm.
  refine (proj1 (mappings_keep_the_lane dev_breakout_to_breakout
                   "192.168.42.240" _ m _ Hm)).
  vm_compute. reflexivity.
Defined.

(* ================================================================= *)
(** * Discovery: edge cases of the egress lists *)

Lemma concat_mapM_all_nil {A B} (f : A -> result (list B)) l :
  (forall a, a ∈ l -> f a = Ok []) -> concat_mapM f l = Ok [].
Proof.
  induction l as [|a l IH]; intros H; simpl; [reflexivity|].
  rewrite (H a) by left. cbn [bind]. rewrite IH; [reflexivity|].
  intros b Hb. apply H. now right.
Qed.

Lemma py_getitem_singleton_min {A} (x : A) lane :
  0 <= lane -> py_getitem [x] (Z.min lane (Z.of_nat (length [x]) - 1)) = Ok x.
Proof.
  intros H. simpl length. replace (Z.min lane (Z.of_nat 1 - 1)) with 0 by lia.
  reflexivity.
Qed.

(** X17: a one-element egress entry is broadcast to all four lanes of a
    breakout port, and the lane the token names is ignored.  If the
    token's linecard is known and holds the four lane keys of the
    token's port, the port records exactly four mappings, lane l of the
    destination fed by lane l of the source, in lane order. *)
Theorem single_entry_is_broadcast :
  forall (_blades : blades_t) (blade : blade_dict) flows port pj tok lc p ln d
         (src dst : Z -> Port),
    is_breakout pj = true ->
    py_getitem flows port = Ok [[Some tok]] ->
    tok <> "" ->
    _parse_lport tok = Ok (lc, p, ln) ->
    blades_get _blades lc = Some d ->
    (forall lane, 0 <= lane < 4 ->
       blade !! (fmt02 (port + 1) +:+ "_" +:+ py_str (lane + 1)) = Some (src lane)
       /\ d !! (fmt02 p +:+ "_" +:+ py_str (lane + 1)) = Some (dst lane)) ->
    link_port _blades blade flows (port, pj)
    = Ok (map (fun lane => {| mapped_to := dst lane; mapped_from := src lane |})
              [0; 1; 2; 3]).
Proof.
  intros _blades blade flows port pj tok lc p ln d src dst
         Hbo Hflow Htok Hparse Hd Hkeys.
  unfold link_port. rewrite Hflow. cbn [bind]. rewrite Hbo.
  assert (Hlane : forall lane, 0 <= lane < 4 ->
            link_breakout_lane _blades blade port [[Some tok]] lane
            = Ok [{| mapped_to := dst lane; mapped_from := src lane |}]).
  { intros lane Hl. destruct (Hkeys lane Hl) as [Hs Ht].
    unfold link_breakout_lane. rewrite qport_laned by lia.
    unfold dict_getitem. rewrite Hs. cbn [bind concat_mapM].
    rewrite (link_breakout_entry_parsed _blades (src lane) lane [Some tok]
               tok lc p ln); try assumption; try lia.
    - rewrite Hd. simpl length. cbn [Nat.eqb]. rewrite Z.eqb_refl, Ht.
      reflexivity.
    - apply py_getitem_singleton_min. lia. }
  change (seqZ 0 4) with [0; 1; 2; 3]. cbn [concat_mapM].
  rewrite !Hlane by lia. reflexivity.
Qed.

Lemma single_entry_is_broadcast_witness :
  link_port [(3, dict_of_ports (map (lane_port 2 4) (seqZ 0 4)))]
    (dict_of_ports (map (lane_port 1 0) (seqZ 0 4)))
    [[[Some "3.5:1"]]] (0, port_breakout)
  = Ok (map (fun lane => {| mapped_to := lane_port 2 4 lane;
                            mapped_from := lane_port 1 0 lane |})
            [0; 1; 2; 3]).
Proof.
  apply (single_entry_is_broadcast _ _ _ 0 port_breakout "3.5:1" 3 5 1
           (dict_of_ports (map (lane_port 2 4) (seqZ 0 4))));
    try reflexivity; [discriminate|].
  intros lane Hl.
  assert (H : lane = 0 \/ lane = 1 \/ lane = 2 \/ lane = 3) by lia.
  destruct H as [ -> | [ -> | [ -> | -> ]]]; split; vm_compute; reflexivity.
Defined.

(** X18: what each branch does with a slot it cannot parse.  On a
    breakout port a non-empty entry whose slots are all null or the
    empty string is skipped, whichever lane looks at it.  On an ordinary port the first slot is parsed
    unchecked: null raises AttributeError and the empty string raises
    ValueError.  An empty entry raises IndexError on either kind of
    port. *)
Theorem unparsable_slots :
  (forall (_blades : blades_t) port_obj lane egress_port,
      0 <= lane -> egress_port <> [] ->
      (forall slot, slot ∈ egress_port -> slot = None \/ slot = Some EmptyString) ->
      link_breakout_entry _blades port_obj lane egress_port = Ok [])
  /\ (forall (_blades : blades_t) port_obj rest,
        link_plain_entry _blades port_obj (None :: rest) = raise AttributeError
        /\ link_plain_entry _blades port_obj (Some EmptyString :: rest)
           = raise ValueError)
  /\ (forall (_blades : blades_t) port_obj lane,
        link_breakout_entry _blades port_obj lane [] = raise IndexError
        /\ link_plain_entry _blades port_obj [] = raise IndexError).
Proof.
  split; [|split].
  - intros _blades port_obj lane ep Hlane Hne Hall. unfold link_breakout_entry.
    cbv zeta.
    set (i := Z.min lane (Z.of_nat (length ep) - 1)).
    assert (Hlen : (0 < length ep)%nat) by (destruct ep; [congruence|simpl; lia]).
    assert (Hi : 0 <= i < Z.of_nat (length ep)) by (subst i; lia).
    destruct (lookup_lt_is_Some_2 ep (Z.to_nat i)) as [slot Hslot]; [lia|].
    pose proof (py_getitem_nth ep (Z.to_nat i) slot Hslot) as Hg.
    rewrite Z2Nat.id in Hg by lia. rewrite Hg. cbn [bind].
    assert (Hin : slot ∈ ep) by (eapply list_elem_of_lookup_2; eauto).
    destruct (Hall slot Hin) as [Hs|Hs]; rewrite Hs; reflexivity.
  - intros _blades port_obj rest. split; reflexivity.
  - intros _blades port_obj lane. split; [|reflexivity].
    unfold link_breakout_entry. cbv zeta. simpl length.
    replace (Z.min lane (Z.of_nat 0 - 1)) with (if lane <? -1 then lane else -1)
      by (destruct (Z.ltb_spec lane (-1)); lia).
    unfold py_getitem. simpl length.
    destruct (lane <? -1) eqn:E.
    + destruct (Z.ltb_spec lane 0); [|lia].
      destruct (Z.ltb_spec (lane + Z.of_nat 0) 0); [reflexivity|lia].
    + reflexivity.
Qed.

Lemma unparsable_slots_witness :
  link_breakout_entry [] (lane_port 0 0 2) 2 [Some ""; None; None] = Ok [].
Proof.
  destruct unparsable_slots as (H & _).
  apply H; [lia|discriminate|].
  intros slot Hs. repeat (apply elem_of_cons in Hs as [->|Hs]; [auto|]).
  inversion Hs.
Defined.

(* ================================================================= *)
(** * Discovery: the second pass on its own ports *)

Lemma enumerate_lookup {A} (l : list A) (n : nat) x :
  l !! n = Some x -> enumerate l !! n = Some (Z.of_nat n, x).
Proof.
  intros H. unfold enumerate. apply lookup_zip_with_Some.
  exists (Z.of_nat n), x. split; [reflexivity|]. split; [|assumption].
  apply lookup_seqZ. apply lookup_lt_Some in H. lia.
Qed.

Lemma length_enumerate {A} (l : list A) : length (enumerate l) = length l.
Proof.
  unfold enumerate. rewrite length_zip_with, length_seqZ. lia.
Qed.

(** The keys the second pass looks its source ports up under are the
    ids the first pass filed them under. *)
Lemma own_port_found lc (pjs : list PortJson) port pj p :
  (port, pj) ∈ enumerate pjs ->
  p ∈ make_ports lc (port, pj) ->
  is_Some (dict_of_ports (concat (map (make_ports lc) (enumerate pjs)))
             !! port_resource_id p).
Proof.
  intros Hin Hp. apply dict_of_ports_dom, list_elem_of_fmap.
  exists p. split; [reflexivity|]. apply elem_of_concat.
  exists (make_ports lc (port, pj)). split; [assumption|].
  apply list_elem_of_fmap. eauto.
Qed.

Lemma link_port_no_egress (_blades : blades_t) lc (pjs : list PortJson)
    flows port pj :
  (port, pj) ∈ enumerate pjs ->
  py_getitem flows port = Ok [] ->
  link_port _blades
    (dict_of_ports (concat (map (make_ports lc) (enumerate pjs))))
    flows (port, pj) = Ok [].
Proof.
  intros Hin Hflow. unfold link_port. rewrite Hflow. cbn [bind].
  destruct (is_breakout pj) eqn:Hbo.
  - apply concat_mapM_all_nil. intros lane Hlane.
    unfold link_breakout_lane.
    destruct (own_port_found lc pjs port pj (lane_port lc port lane) Hin)
      as [p Hp].
    { unfold make_ports. rewrite Hbo. apply list_elem_of_fmap. eauto. }
    unfold dict_getitem. cbn [lane_port port_resource_id] in Hp.
    rewrite Hp. reflexivity.
  - destruct (own_port_found lc pjs port pj (plain_port lc port) Hin)
      as [p Hp].
    { unfold make_ports. rewrite Hbo. left. }
    unfold dict_getitem. cbn [plain_port port_resource_id] in Hp.
    rewrite Hp. reflexivity.
Qed.

(** X19: a device that reports no egress at all is discovered in full.
    If the port list of every non-null slot can be read and every
    show-flow answer has an (empty) egress list for each port asked
    about, discovery succeeds, records no mapping and lists one blade
    per non-null slot; in particular the second pass finds every source
    port under the key the first pass filed it under. *)
Theorem discovery_without_flows :
  forall dev address chassis_json,
    dev_chassis dev = Ok chassis_json ->
    (forall i s, cj_Linecards chassis_json !! i = Some (Some s) ->
       exists ports_json, dev_ports dev (Z.of_nat i) = Ok ports_json) ->
    (forall ports, exists flows,
       dev_show_flow dev ports = Ok flows
       /\ (length ports <= length flows)%nat
       /\ forall egress, egress ∈ flows -> egress = []) ->
    exists rd,
      get_resource_description dev address = Ok rd
      /\ rd_mappings rd = []
      /\ map blade_resource_id (chassis_blades (rd_chassis rd))
         = map (fun e => py_str (e.1 + 1))
               (filter (fun e => is_Some e.2)
                       (enumerate (cj_Linecards chassis_json))).
Proof.
  intros dev address cj Hcj Hports Hflows.
  destruct (build_blades_total dev 0 (cj_Linecards cj)) as [built Hb].
  { intros i s Hi. rewrite Z.add_0_l. eauto. }
  assert (Hlink : concat_mapM (link_blade dev (map snd built)) (map snd built)
                  = Ok []).
  { apply concat_mapM_all_nil. intros [k d] Hitem.
    apply list_elem_of_fmap in Hitem as ([b [k' d']] & Heq & Hin).
    simpl in Heq. injection Heq as <- <-.
    destruct (build_blades_entries _ _ _ _ _ _ _ Hb Hin)
      as (Hd & pjs & _ & Hp & Hbp).
    unfold link_blade. rewrite Hp. cbn [bind].
    destruct (Hflows (map (fun port => py_str k +:+ "." +:+ py_str port)
                          (seqZ 1 (Z.of_nat (length pjs)))))
      as (flows & -> & Hlen & Hempty).
    cbn [bind]. rewrite length_map, length_seqZ, Nat2Z.id in Hlen.
    apply concat_mapM_all_nil. intros [port pj] He.
    rewrite Hd, Hbp. apply link_port_no_egress; [assumption|].
    apply elem_of_enumerate in He as [Hpos Hl].
    apply lookup_lt_Some in Hl.
    destruct (lookup_lt_is_Some_2 flows (Z.to_nat port)) as [e Hfe]; [lia|].
    pose proof (py_getitem_nth flows (Z.to_nat port) e Hfe) as Hg.
    rewrite Z2Nat.id in Hg by assumption. rewrite Hg. f_equal.
    apply Hempty. eapply list_elem_of_lookup_2; eauto. }
  eexists. split.
  - unfold get_resource_description. rewrite Hcj. cbn [bind].
    rewrite Hb. cbn [bind]. rewrite Hlink. cbn [bind]. reflexivity.
  - split; [reflexivity|]. cbn [rd_chassis chassis_blades].
    apply build_blades_keys in Hb.
    apply (f_equal (map fst)) in Hb. rewrite !map_map in Hb.
    rewrite map_map. exact Hb.
Qed.

Lemma discovery_without_flows_witness :
  exists rd,
    get_resource_description
      {| dev_chassis := Ok (chassis_of_slots [None; Some JNull]);
         dev_ports := fun _ => Ok [port_breakout; port_plain];
         dev_show_flow := fun ports => Ok (replicate (length ports) []) |}
      "192.168.42.240" = Ok rd
    /\ rd_mappings rd = []
    /\ map blade_resource_id (chassis_blades (rd_chassis rd)) = ["2"].
Proof.
  apply (discovery_without_flows _ "192.168.42.240"
           (chassis_of_slots [None; Some JNull])).
  - reflexivity.
  - intros i s _. simpl. eauto.
  - intros ports. exists (replicate (length ports) []). simpl.
    split; [reflexivity|]. split; [now rewrite length_replicate|].
    intros e He. now apply elem_of_replicate in He as [-> _].
Defined.

(** X20: a show-flow answer that is shorter than the linecard's port
    list stops discovery with IndexError at the first port it has no
    entry for, provided the ports before it resolve. *)
Theorem short_flow_answer :
  forall dev (_blades : blades_t) lc (blade : blade_dict) ports_json flows,
    dev_ports dev (lc - 1) = Ok ports_json ->
    dev_show_flow dev
      (map (fun port => py_str lc +:+ "." +:+ py_str port)
           (seqZ 1 (Z.of_nat (length ports_json)))) = Ok flows ->
    (length flows < length ports_json)%nat ->
    (forall entry, entry ∈ take (length flows) (enumerate ports_json) ->
       exists part, link_port _blades blade flows entry = Ok part) ->
    link_blade dev _blades (lc, blade) = raise IndexError.
Proof.
  intros dev _blades lc blade pjs flows Hp Hf Hlen Hbefore.
  unfold link_blade. rewrite Hp. cbn [bind]. rewrite Hf. cbn [bind].
  destruct (lookup_lt_is_Some_2 pjs (length flows) Hlen) as [pj Hpj].
  pose proof (enumerate_lookup pjs (length flows) pj Hpj) as He.
  rewrite <- (take_drop_middle _ _ _ He).
  apply concat_mapM_Raise; [assumption|].
  unfold link_port. rewrite py_getitem_out by lia. reflexivity.
Qed.

Lemma short_flow_answer_witness :
  link_blade
    {| dev_chassis := Ok (chassis_of_slots [Some JNull]);
       dev_ports := fun _ => Ok [port_plain; port_plain];
       dev_show_flow := fun _ => Ok [[]] |}
    [] (1, dict_of_ports [plain_port 0 0; plain_port 0 1])
  = raise IndexError.
Proof.
  apply (short_flow_answer _ [] 1 _ [port_plain; port_plain] [[]]);
    [reflexivity|reflexivity|simpl; lia|].
  intros entry He. simpl in He. apply list_elem_of_singleton in He as ->.
  eexists. vm_compute. reflexivity.
Defined.

(* ================================================================= *)
(** * Ports of a linecard *)

(** Once the port list of a linecard is read, its blade is built. *)
Lemma build_blade_total dev lc ports_json :
  dev_ports dev lc = Ok ports_json ->
  exists b d,
    build_blade dev lc = Ok (b, (lc + 1, d))
    /\ blade_resource_id b = py_str (lc + 1)
    /\ blade_ports b = concat (map (make_ports lc) (enumerate ports_json))
    /\ d = dict_of_ports (blade_ports b).
Proof.
  intros H. unfold build_blade. rewrite H. cbn [bind].
  eexists _, _. split; [reflexivity|]. repeat split.
Qed.

(** The blades of the first pass, slot by slot, with their ports. *)
Lemma build_blades_ports dev lc slots built :
  build_blades dev lc slots = Ok built ->
  Forall2 (fun x e =>
             exists ports_json,
               dev_ports dev e.1 = Ok ports_json
               /\ blade_resource_id x.1 = py_str (e.1 + 1)
               /\ blade_ports x.1
                  = concat (map (make_ports e.1) (enumerate ports_json)))
          built
          (filter (fun e => is_Some e.2)
                  (zip (seqZ lc (Z.of_nat (length slots))) slots)).
Proof.
  revert lc built. induction slots as [|slot slots IH]; intros lc built H.
  - simpl in H. injection H as <-. constructor.
  - rewrite enumerate_from_cons. destruct slot as [s|]; simpl in H.
    + destruct (build_blade dev lc) as [[b [k d]]|] eqn:Hb; [|discriminate].
      cbn [bind] in H.
      destruct (build_blades dev (lc + 1) slots) as [bs|] eqn:Hbs;
        [|discriminate].
      cbn [bind] in H. injection H as <-.
      rewrite filter_cons_True by (simpl; eauto).
      apply build_blade_Ok_inv in Hb as (pjs & Hp & _ & Hid & _ & Hports & _).
      constructor; [|now apply IH].
      exists pjs. simpl. auto.
    + rewrite filter_cons_False by (simpl; intros [? ?]; discriminate).
      now apply IH.
Qed.

Lemma discovered_ports dev address rd chassis_json :
  dev_chassis dev = Ok chassis_json ->
  get_resource_description dev address = Ok rd ->
  Forall2 (fun b e =>
             exists ports_json,
               dev_ports dev e.1 = Ok ports_json
               /\ blade_resource_id b = py_str (e.1 + 1)
               /\ blade_ports b
                  = concat (map (make_ports e.1) (enumerate ports_json)))
          (chassis_blades (rd_chassis rd))
          (filter (fun e => is_Some e.2)
                  (enumerate (cj_Linecards chassis_json))).
Proof.
  intros Hcj H.
  apply discovery_Ok_inv in H as (cj & built & Hcj' & Hb & Hblades & _).
  rewrite Hcj in Hcj'. injection Hcj' as <-.
  rewrite Hblades. apply Forall2_fmap_l.
  apply build_blades_ports in Hb.
  eapply Forall2_impl; [exact Hb|]. intros x e Hx. exact Hx.
Qed.

(** With no egress anywhere, the second pass passes over every port. *)
Lemma second_pass_without_flows dev slots built :
  build_blades dev 0 slots = Ok built ->
  (forall ports, exists flows,
     dev_show_flow dev ports = Ok flows
     /\ (length ports <= length flows)%nat
     /\ forall egress, egress ∈ flows -> egress = []) ->
  concat_mapM (link_blade dev (map snd built)) (map snd built) = Ok [].
Proof.
  intros Hb Hflows.
  apply concat_mapM_all_nil. intros [k d] Hitem.
  apply list_elem_of_fmap in Hitem as ([b [k' d']] & Heq & Hin).
  simpl in Heq. injection Heq as <- <-.
  destruct (build_blades_entries _ _ _ _ _ _ _ Hb Hin)
    as (Hd & pjs & _ & Hp & Hbp).
  unfold link_blade. rewrite Hp. cbn [bind].
  destruct (Hflows (map (fun port => py_str k +:+ "." +:+ py_str port)
                        (seqZ 1 (Z.of_nat (length pjs)))))
    as (flows & -> & Hlen & Hempty).
  cbn [bind]. rewrite length_map, length_seqZ, Nat2Z.id in Hlen.
  apply concat_mapM_all_nil. intros [port pj] He.
  rewrite Hd, Hbp. apply link_port_no_egress; [assumption|].
  apply elem_of_enumerate in He as [Hpos Hl].
  apply lookup_lt_Some in Hl.
  destruct (lookup_lt_is_Some_2 flows (Z.to_nat port)) as [e Hfe]; [lia|].
  pose proof (py_getitem_nth flows (Z.to_nat port) e Hfe) as Hg.
  rewrite Z2Nat.id in Hg by assumption. rewrite Hg. f_equal.
  apply Hempty. eapply list_elem_of_lookup_2; eauto.
Qed.

(** C4: a port whose Type is "OPort_CF1" and whose Breakout flag is set
    yields exactly four Port entries, one per lane 1..4, with ids
    "{p:02d}_{lane}" and serial labels "{lc:02d}.{p:01d}.{lane}"; any
    other port yields exactly one Port entry, with id "{p:02d}" and
    serial label "{lc:02d}.{p:01d}.1".  Here lc ([lc + 1]) and p
    ([port + 1]) are the 1-based linecard and port numbers.

    Discovery produces these entries.  Whenever the port list of a
    linecard is read, its blade is built, and the ports of the blade are
    exactly these entries, in port order; their ids are pairwise
    distinct, so the blade's entry of [_blades] maps each id to its own
    Port and holds no other key.  A description returned by
    [get_resource_description] lists, for every non-null slot and in
    slot order, one blade whose ports are exactly the entries of the
    ports read for that slot: the entries of each port stand together
    in the blade, after those of the ports before it and before those
    of the ports after it.  A device that reports no egress is
    discovered with just these blades, and the discovery of
    [dev_breakout_to_breakout] returns the twelve entries listed. *)
Theorem port_entries_per_port :
  (forall lc port pj,
      pj_Type pj = "OPort_CF1" -> pj_Breakout pj = true ->
      let ps := make_ports lc (port, pj) in
      length ps = 4%nat
      /\ map port_resource_id ps
         = map (fun lane => fmt02 (port + 1) +:+ "_" +:+ py_str lane) [1; 2; 3; 4]
      /\ map port_serial_number ps
         = [fmt02 (lc + 1) +:+ "." +:+ fmt01 (port + 1) +:+ ".1";
            fmt02 (lc + 1) +:+ "." +:+ fmt01 (port + 1) +:+ ".2";
            fmt02 (lc + 1) +:+ "." +:+ fmt01 (port + 1) +:+ ".3";
            fmt02 (lc + 1) +:+ "." +:+ fmt01 (port + 1) +:+ ".4"])
  /\ (forall lc port pj,
        pj_Type pj <> "OPort_CF1" \/ pj_Breakout pj = false ->
        exists p,
          make_ports lc (port, pj) = [p]
          /\ port_resource_id p = fmt02 (port + 1)
          /\ port_serial_number p
             = fmt02 (lc + 1) +:+ "." +:+ fmt01 (port + 1) +:+ ".1")
  /\ (forall dev lc b k d,
        build_blade dev lc = Ok (b, (k, d)) ->
        exists ports_json,
          dev_ports dev lc = Ok ports_json
          /\ blade_ports b = concat (map (make_ports lc) (enumerate ports_json))
          /\ (forall p,
                p ∈ blade_ports b <->
                exists i pj, ports_json !! i = Some pj
                             /\ p ∈ make_ports lc (Z.of_nat i, pj))
          /\ NoDup (map port_resource_id (blade_ports b))
          /\ (forall p, p ∈ blade_ports b -> d !! port_resource_id p = Some p)
          /\ (forall key,
                is_Some (d !! key) <-> key ∈ map port_resource_id (blade_ports b)))
  /\ map port_serial_number (make_ports 0 (0, port_breakout))
     = ["01.1.1"; "01.1.2"; "01.1.3"; "01.1.4"]
  /\ map port_serial_number (make_ports 2 (11, port_plain)) = ["03.12.1"]
  /\ (forall dev lc ports_json,
        dev_ports dev lc = Ok ports_json ->
        exists b d,
          build_blade dev lc = Ok (b, (lc + 1, d))
          /\ blade_resource_id b = py_str (lc + 1)
          /\ blade_ports b = concat (map (make_ports lc) (enumerate ports_json))
          /\ d = dict_of_ports (blade_ports b))
  /\ (forall dev address rd chassis_json,
        dev_chassis dev = Ok chassis_json ->
        get_resource_description dev address = Ok rd ->
        Forall2 (fun b e =>
                   exists ports_json,
                     dev_ports dev e.1 = Ok ports_json
                     /\ blade_resource_id b = py_str (e.1 + 1)
                     /\ blade_ports b
                        = concat (map (make_ports e.1) (enumerate ports_json)))
                (chassis_blades (rd_chassis rd))
                (filter (fun e => is_Some e.2)
                        (enumerate (cj_Linecards chassis_json))))
  /\ (forall dev address rd chassis_json (lc : nat) slot ports_json
             (port : nat) pj,
        dev_chassis dev = Ok chassis_json ->
        get_resource_description dev address = Ok rd ->
        cj_Linecards chassis_json !! lc = Some (Some slot) ->
        dev_ports dev (Z.of_nat lc) = Ok ports_json ->
        ports_json !! port = Some pj ->
        exists b,
          b ∈ chassis_blades (rd_chassis rd)
          /\ blade_resource_id b = py_str (Z.of_nat lc + 1)
          /\ blade_ports b
             = concat (map (make_ports (Z.of_nat lc))
                           (take port (enumerate ports_json)))
               ++ make_ports (Z.of_nat lc) (Z.of_nat port, pj)
               ++ concat (map (make_ports (Z.of_nat lc))
                              (drop (S port) (enumerate ports_json))))
  /\ (forall dev address chassis_json,
        dev_chassis dev = Ok chassis_json ->
        (forall i s, cj_Linecards chassis_json !! i = Some (Some s) ->
           exists ports_json, dev_ports dev (Z.of_nat i) = Ok ports_json) ->
        (forall ports, exists flows,
           dev_show_flow dev ports = Ok flows
           /\ (length ports <= length flows)%nat
           /\ forall egress, egress ∈ flows -> egress = []) ->
        exists rd,
          get_resource_description dev address = Ok rd
          /\ Forall2 (fun b e =>
                        exists ports_json,
                          dev_ports dev e.1 = Ok ports_json
                          /\ blade_resource_id b = py_str (e.1 + 1)
                          /\ blade_ports b
                             = concat (map (make_ports e.1)
                                           (enumerate ports_json)))
                     (chassis_blades (rd_chassis rd))
                     (filter (fun e => is_Some e.2)
                             (enumerate (cj_Linecards chassis_json))))
  /\ (exists rd,
        get_resource_description dev_breakout_to_breakout "192.168.42.240"
        = Ok rd
        /\ map (fun b =>
                  (blade_resource_id b,
                   map (fun p => (port_resource_id p, port_serial_number p))
                       (blade_ports b)))
               (chassis_blades (rd_chassis rd))
           = [("2", [("01_1", "02.1.1"); ("01_2", "02.1.2");
                     ("01_3", "02.1.3"); ("01_4", "02.1.4")]);
              ("3", [("01", "03.1.1"); ("02", "03.2.1");
                     ("03", "03.3.1"); ("04", "03.4.1");
                     ("05_1", "03.5.1"); ("05_2", "03.5.2");
                     ("05_3", "03.5.3"); ("05_4", "03.5.4")])]).
Proof.
  split; [|split; [|split; [|split; [reflexivity|split; [reflexivity|]]]]].
  - intros lc port pj Hty Hbo ps. subst ps. unfold make_ports.
    rewrite (proj2 (is_breakout_true pj)) by auto.
    change (seqZ 0 4) with [0; 1; 2; 3].
    split; [reflexivity|]. split; [|reflexivity].
    cbn [map lane_port port_resource_id].
    rewrite !qport_laned by lia. reflexivity.
  - intros lc port pj H. unfold make_ports.
    rewrite (proj2 (is_breakout_false pj)) by auto.
    eexists. split; [reflexivity|]. split; reflexivity.
  - intros dev lc b k d H.
    apply build_blade_Ok_inv in H as (pjs & Hp & _ & _ & _ & Hports & Hd).
    assert (Hnd : NoDup (map port_resource_id (blade_ports b))).
    { rewrite Hports. apply (ports_from_NoDup lc 0 pjs). lia. }
    exists pjs. split; [assumption|]. split; [assumption|].
    split; [|split; [exact Hnd|split]];
      [|intros p Hin; rewrite Hd; now apply dict_of_ports_lookup
       |intros key; rewrite Hd; apply dict_of_ports_dom].
    intros p. rewrite Hports, elem_of_concat. split.
    + intros (ps & Hps & Hin).
      apply list_elem_of_fmap in Hin as ([i pj] & -> & Hin).
      apply elem_of_enumerate in Hin as [Hi Hl].
      exists (Z.to_nat i), pj. split; [assumption|].
      now rewrite Z2Nat.id by assumption.
    + intros (i & pj & Hl & Hp').
      exists (make_ports lc (Z.of_nat i, pj)). split; [assumption|].
      apply list_elem_of_fmap. exists (Z.of_nat i, pj). split; [reflexivity|].
      apply elem_of_enumerate. split; [lia|]. now rewrite Nat2Z.id.
  - split; [exact build_blade_total|]. split; [exact discovered_ports|].
    split; [|split].
    + intros dev address rd cj lc slot pjs port pj Hcj H Hslot Hp Hpj.
      pose proof (discovered_ports dev address rd cj Hcj H) as HF.
      assert (Hin : (Z.of_nat lc, Some slot)
                    ∈ filter (fun e => is_Some e.2) (enumerate (cj_Linecards cj))).
      { apply list_elem_of_filter. split; [simpl; eauto|].
        apply elem_of_enumerate. split; [lia|]. now rewrite Nat2Z.id. }
      apply list_elem_of_lookup in Hin as [j Hj].
      destruct (Forall2_lookup_r _ _ _ _ _ HF Hj)
        as (b & Hb & pjs' & Hp' & Hid & Hports).
      simpl in Hp', Hid, Hports. rewrite Hp in Hp'. injection Hp' as <-.
      exists b. split; [eapply list_elem_of_lookup_2; eassumption|].
      split; [assumption|]. rewrite Hports.
      pose proof (enumerate_lookup pjs port pj Hpj) as He.
      rewrite <- (take_drop_middle _ _ _ He) at 1.
      rewrite map_app, concat_app. reflexivity.
    + intros dev address cj Hcj Hports Hflows.
      destruct (build_blades_total dev 0 (cj_Linecards cj)) as [built Hb].
      { intros i s Hi. rewrite Z.add_0_l. eauto. }
      pose proof (second_pass_without_flows dev _ built Hb Hflows) as Hlink.
      assert (Hrd : exists rd, get_resource_description dev address = Ok rd).
      { eexists. unfold get_resource_description. rewrite Hcj. cbn [bind].
        rewrite Hb. cbn [bind]. rewrite Hlink. cbn [bind]. reflexivity. }
      destruct Hrd as [rd Hrd]. exists rd. split; [assumption|].
      now apply (discovered_ports dev address rd cj).
    + eexists. split; [vm_compute; reflexivity|]. vm_compute. reflexivity.
Qed.

Lemma port_entries_per_port_witness :
  exists rd b,
    get_resource_description dev_breakout_to_breakout "192.168.42.240" = Ok rd
    /\ b ∈ chassis_blades (rd_chassis rd)
    /\ blade_resource_id b = "3"
    /\ map port_resource_id (blade_ports b)
       = ["01"; "02"; "03"; "04"; "05_1"; "05_2"; "05_3"; "05_4"]
    /\ map port_serial_number (make_ports 2 (4, port_breakout))
       = ["03.5.1"; "03.5.2"; "03.5.3"; "03.5.4"]
    /\ (exists p, make_ports 2 (3, port_plain) = [p]
                  /\ port_resource_id p = "04"
                  /\ port_serial_number p = "03.4.1").
Proof.
  destruct port_entries_per_port
    as (Hbo & Hplain & _ & _ & _ & _ & _ & Hport & _).
  destruct (get_resource_description dev_breakout_to_breakout "192.168.42.240")
    as [rd|e d] eqn:Hrd; [|vm_compute in Hrd; discriminate Hrd].
  destruct (Hport dev_breakout_to_breakout "192.168.42.240" rd
              (chassis_of_slots [None; Some (JObj []); Some (JObj [])])
              2%nat (JObj []) (replicate 4 port_plain ++ [port_breakout])
              4%nat port_breakout)
    as (b & Hin & Hid & Hports);
    [reflexivity|exact Hrd|reflexivity|reflexivity|reflexivity|].
  exists rd, b. split; [reflexivity|]. split; [exact Hin|].
  split; [exact Hid|]. split; [rewrite Hports; reflexivity|].
  split.
  - destruct (Hbo 2 4 port_breakout) as (_ & _ & Hserial);
      [reflexivity..|].
    exact Hserial.
  - apply (Hplain 2 3 port_plain). right. reflexivity.
Defined.

(* ================================================================= *)
(** * Failure modes *)

(** X21: [_parse_lport] fails in one way only.  Whatever the token,
    it either returns three integers or raises ValueError: a wrong
    number of "." and a field that is not an integer are not told
    apart, and no other exception can come out of it. *)
Theorem parse_lport_failure_mode :
  forall tok,
    (exists lc port lane, _parse_lport tok = Ok (lc, port, lane))
    \/ _parse_lport tok = raise ValueError.
Proof.
  intros tok. unfold _parse_lport.
  destruct (split_on "." tok) as [|lc [|port_lane [|x t]]]; try (now right).
  pose proof (split_on_length ":" port_lane) as Hlen.
  assert (Hint : forall s, (exists n, py_int s = Ok n) \/ py_int s = raise ValueError).
  { intros s. destruct (py_int s) as [n|e d] eqn:E; [eauto|].
    right. now apply py_int_raises in E as [-> ->]. }
  assert (Hgo : forall p l,
            (exists a b c,
               (let* a := py_int lc in
                let* b := py_int p in
                let* c := py_int l in Ok (a, b, c)) = Ok (a, b, c))
            \/ (let* a := py_int lc in
                let* b := py_int p in
                let* c := py_int l in Ok (a, b, c)) = raise ValueError).
  { intros p l.
    destruct (Hint lc) as [[a ->]| ->]; cbn [bind]; [|now right].
    destruct (Hint p) as [[b ->]| ->]; cbn [bind]; [|now right].
    destruct (Hint l) as [[c ->]| ->]; cbn [bind]; [|now right].
    left. eauto. }
  destruct (split_on ":" port_lane) as [|p [|l [|y u]]]; simpl in Hlen;
    [lia|..]; cbn [bind]; apply Hgo.
Qed.

(* ================================================================= *)
(** * Worked instances *)

Lemma login_fetches_version_witness :
  fst (login (fun _ => {| status_code := 200;
                          resp_json := Some (JObj [("Version", JStr "2.4.1")]) |})
         "192.168.42.240")
  = Ok {| ss_address := "192.168.42.240";
          ss_baseurl := "https://192.168.42.240:8443";
          ss_version := JStr "2.4.1" |}.
Proof.
  destruct (login_fetches_version
              (fun _ => {| status_code := 200;
                           resp_json := Some (JObj [("Version", JStr "2.4.1")]) |})
              "192.168.42.240") as (b & Hb & _ & Hiff).
  vm_compute in Hb. injection Hb as <-.
  apply Hiff. exists [("Version", JStr "2.4.1")], "192.168.42.240", 8443.
  repeat split.
Defined.

Lemma map_clear_to_mirrors_map_uni_witness :
  map req_json
    (snd (map_clear_to "https://h:8443"
            (fun _ => {| status_code := 204; resp_json := None |})
            "a/1/21" ["a/1/22"; "a/2/3_4"]))
  = map req_json
      (snd (map_uni "https://h:8443"
              (fun _ => {| status_code := 500; resp_json := None |})
              "a/1/21" ["a/1/22"; "a/2/3_4"])).
Proof.
  exact (proj1 (map_clear_to_mirrors_map_uni "https://h:8443"
                  (fun _ => {| status_code := 204; resp_json := None |})
                  (fun _ => {| status_code := 500; resp_json := None |})
                  "a/1/21" ["a/1/22"; "a/2/3_4"])).
Defined.

Lemma state_id_commands_witness :
  fst (get_state_id "https://h:8443"
         (fun _ => {| status_code := 200;
                      resp_json := Some (JObj [("SessionId", JStr "42");
                                               ("Serial", JStr "CF-0001")]) |}))
  = Ok (JStr "42").
Proof.
  destruct (state_id_commands "https://h:8443"
              (fun _ => {| status_code := 200;
                           resp_json := Some (JObj [("SessionId", JStr "42");
                                                    ("Serial", JStr "CF-0001")]) |})
              (fun _ => {| status_code := 204; resp_json := None |}) "42")
    as (_ & _ & Hiff).
  apply Hiff. eexists. repeat split.
Defined.

Lemma parse_lport_failure_mode_witness :
  _parse_lport "3.x" = raise ValueError.
Proof.
  destruct (parse_lport_failure_mode "3.x") as [(lc & port & lane & H)|H];
    [vm_compute in H; discriminate H|exact H].
Defined.
